(** * minirc: the protocol decoding and shared-state engine of [minirc.go]

    A shallow embedding of the IRC bridge of [minirc.go]: the Go [strings]
    functions the program calls, the [IRC] singleton with its two
    mutex-guarded stores (message log and user roster), the line decoders,
    the body of the read loop of [connectToIRC], and process start-up
    ([readConfig], [connectToIRC], [main]), and the three HTTP handlers
    that use the stores. [handlerIndex] serves a constant page and is left
    out.

    Go strings are byte sequences; they are modelled by [string] (a list of
    8-bit [ascii] values), so indexing, slicing and comparison are bytewise,
    as in Go.

    The program is one goroutine reading from the server next to the HTTP
    handlers. A function is modelled as what one thread does to the shared
    state from call to return, with the lock, unlock and output events it
    issues in order; interleavings of threads are not modelled. *)

From Stdlib Require Import ZArith Ascii String List Lia Bool.
From stdpp Require Import base option list gmap strings sorting fin_maps.

(** ** The Go [strings] package, as far as [minirc.go] uses it *)

(** [len(s)] *)
Abbreviation len := String.length.

Module strings.

(** [s[n:]] when [n <= len(s)] (no bounds check here, see [SliceFrom]). *)
Fixpoint drop_bytes (n : nat) (s : string) : string :=
  match n, s with
  | 0, _ => s
  | S n', String _ s' => drop_bytes n' s'
  | S _, "" => ""
  end.

(** [s[:n]] when [n <= len(s)]. *)
Fixpoint take_bytes (n : nat) (s : string) : string :=
  match n, s with
  | 0, _ => ""
  | S n', String c s' => String c (take_bytes n' s')
  | S _, "" => ""
  end.

(** The slice expression [s[lo:hi]]: Go panics unless
    [0 <= lo <= hi <= len(s)]; [None] stands for that panic. *)
Definition Slice (s : string) (lo hi : nat) : option string :=
  if ((lo <=? hi) && (hi <=? len s))%nat
  then Some (take_bytes (hi - lo) (drop_bytes lo s))
  else None.

(** The slice expression [s[lo:]]. *)
Definition SliceFrom (s : string) (lo : nat) : option string :=
  Slice s lo (len s).

(** [strings.HasPrefix(s, prefix)] *)
Fixpoint HasPrefix (s prefix : string) : bool :=
  match prefix, s with
  | "", _ => true
  | String p prefix', String c s' =>
      if Ascii.eqb c p then HasPrefix s' prefix' else false
  | String _ _, "" => false
  end.

(** [strings.Index(s, substr)]: the byte offset of the first occurrence,
    [None] for Go's [-1]. *)
Fixpoint Index (s substr : string) {struct s} : option nat :=
  if HasPrefix s substr then Some 0
  else match s with
       | "" => None
       | String _ s' => S <$> Index s' substr
       end.

(** [strings.Contains(s, substr)] is [Index(s, substr) >= 0]. *)
Definition Contains (s substr : string) : bool :=
  match Index s substr with Some _ => true | None => false end.

(** [strings.Count(s, sep)] for a non-empty [sep]: the number of
    non-overlapping occurrences. The recursion follows Go's loop (find the
    next occurrence, skip it, count); [fuel] bounds the number of
    occurrences and [len s] is always enough. *)
Fixpoint countLoop (fuel : nat) (s sep : string) : nat :=
  match fuel with
  | 0 => 0
  | S fuel' =>
      match Index s sep with
      | None => 0
      | Some m => S (countLoop fuel' (drop_bytes (m + len sep) s) sep)
      end
  end.
Definition Count (s sep : string) : nat := countLoop (len s) s sep.

(** The [for i < n] loop of [genSplit]: at most [cuts] cuts at the first
    occurrence of [sep], the rest of the string is the last element. *)
Fixpoint splitLoop (cuts : nat) (s sep : string) : list string :=
  match cuts with
  | 0 => [s]
  | S cuts' =>
      match Index s sep with
      | None => [s]
      | Some m => take_bytes m s :: splitLoop cuts' (drop_bytes (m + len sep) s) sep
      end
  end.

(** [genSplit(s, sep, 0, n)] for a non-empty separator. With [sep = ""] Go
    explodes [s] into UTF-8 sequences; [minirc.go] only ever passes the
    one-byte literals [" "], [":"] and ["!"], so that branch is left out
    (the definition then returns [[s]]). *)
Definition genSplit (s sep : string) (n : Z) : list string :=
  if (n =? 0)%Z then []
  else
    let n1 := if (n <? 0)%Z then Count s sep + 1 else Z.to_nat n in
    let n2 := if (len s + 1 <? n1)%nat then len s + 1 else n1 in
    splitLoop (n2 - 1) s sep.

(** [strings.SplitN(s, sep, n)] *)
Definition SplitN (s sep : string) (n : Z) : list string := genSplit s sep n.

(** [strings.Split(s, sep)] *)
Definition Split (s sep : string) : list string := genSplit s sep (-1).

(** Membership of a byte in an ASCII cutset ([asciiSet.contains]). *)
Fixpoint inCutset (cutset : string) (c : ascii) : bool :=
  match cutset with
  | "" => false
  | String d cutset' => Ascii.eqb c d || inCutset cutset' c
  end.

(** [trimLeftASCII] / [trimLeftByte] *)
Fixpoint TrimLeft (s cutset : string) : string :=
  match s with
  | "" => ""
  | String c s' => if inCutset cutset c then TrimLeft s' cutset else s
  end.

(** [trimRightASCII] / [trimRightByte] *)
Fixpoint TrimRight (s cutset : string) : string :=
  match s with
  | "" => ""
  | String c s' =>
      match TrimRight s' cutset with
      | "" => if inCutset cutset c then "" else String c ""
      | t => String c t
      end
  end.

(** [strings.Trim(s, cutset)] for a cutset of ASCII bytes (Go then trims
    bytewise, right end first). Both cutsets of [minirc.go], [":@+ \n"]
    and [":"], are ASCII. *)
Definition Trim (s cutset : string) : string :=
  TrimLeft (TrimRight s cutset) cutset.

(** [strings.Join(elems, sep)] *)
Fixpoint Join (elems : list string) (sep : string) : string :=
  match elems with
  | [] => ""
  | [x] => x
  | x :: rest => x +:+ sep +:+ Join rest sep
  end.

(** [asciiSpace]: the six ASCII bytes [strings.TrimSpace] removes. *)
Definition asciiSpace (c : ascii) : bool :=
  match c with
  | "009" | "010" | "011" | "012" | "013" | " " => true
  | _ => false
  end%char.

(** [c >= utf8.RuneSelf] *)
Definition nonASCII (c : ascii) : bool := (128 <=? nat_of_ascii c)%nat.

(** One of the two scanning loops of [strings.TrimSpace], run from the
    left: skip ASCII white space; the flag tells that the scan stopped at a
    byte [>= utf8.RuneSelf]. *)
Fixpoint skipASCIISpace (s : string) : string * bool :=
  match s with
  | "" => ("", false)
  | String c s' =>
      if nonASCII c then (s, true)
      else if asciiSpace c then skipASCIISpace s'
      else (s, false)
  end.

Section TrimSpace.
(** [strings.TrimSpace] has an ASCII fast path and falls back to
    [TrimFunc(_, unicode.IsSpace)] / [TrimRightFunc(_, unicode.IsSpace)]
    as soon as a scan meets a non-ASCII byte. The fast path is modelled;
    the two Unicode fallbacks are functions of the Go library that no
    property below depends on and are taken as parameters. *)
Variables TrimFunc_IsSpace TrimRightFunc_IsSpace : string → string.

Definition TrimSpace (s : string) : string :=
  let '(t, hi) := skipASCIISpace s in
  if hi then TrimFunc_IsSpace t
  else
    let '(r, hi') := skipASCIISpace (String.rev t) in
    if hi' then TrimRightFunc_IsSpace (String.rev r) else String.rev r.
End TrimSpace.

End strings.


(** ** Data model *)

(** The line feed, ['\n'], and the strings built from it. *)
Definition LF : string := String "010" "".
Definition CRLF : string := String "013" LF.

(** [strings.Trim(_, ":@+ \n")]: the cutset of [AddUserForChannel] and
    [RemoveUser]. *)
Definition nickCutset : string := ":@+ " +:+ LF.

(** Default config values. *)
Definition defaultIRCServer : string := "irc.freenode.net".
Definition defaultIRCPort : Z := 6667.
Definition defaultWebServerPortNumber : Z := 8080.
Definition defaultChannel : string := "#midnightcafe".

(** [type IRCConfig struct]; Go's [int] fields are integers, no arithmetic is
    done on them. *)
Module IRCConfig.
Record t := mk {
  Server : string;
  Port : Z;
  Channel : string;
  WebServerPortNumber : Z
}.
End IRCConfig.

(** [type User struct] *)
Module User.
Record t := mk {
  Nickname : string;
  Hostname : string;
  Server : string;
  Channel : string
}.
Global Instance eq_dec : EqDecision t.
Proof. solve_decision. Defined.
End User.

(** [type IRCMessage struct] *)
Module IRCMessage.
Record t := mk {
  channel : string;
  userName : string;
  message : string
}.
Global Instance eq_dec : EqDecision t.
Proof. solve_decision. Defined.
End IRCMessage.

(** A non-nil [net.Conn]: the connection [net.Dial] returned for an address. *)
Inductive netConn := tcpConn (server : string) (port : Z).

(** The two [sync.Mutex] fields of [IRC]. *)
Inductive Mutex := messagesMutex | usersMutex.

Global Instance Mutex_eq_dec : EqDecision Mutex.
Proof. solve_decision. Defined.

(** [type IRC struct]. A mutex is [true] while locked. [users] is a Go map
    and may be nil ([None]): reading, ranging over and deleting from a nil map
    are fine, assigning to it panics. [config] and [conn] are a pointer and
    an interface value, nil until [main] sets them.

    The map holds [*User] pointers. Every pointer stored is to a record
    allocated by the caller for that one call and never used again, so the
    records are modelled by value. *)
Record IRC := mkIRC {
  messagesLocked : bool;
  messages : list IRCMessage.t;
  usersLocked : bool;
  users : option (gmap string User.t);
  config : option IRCConfig.t;
  conn : option netConn
}.

(** What the process does to the outside, in program order. *)
Inductive Event :=
| EvLock (mu : Mutex)
| EvUnlock (mu : Mutex)
| EvConnWrite (c : netConn) (frame : string)  (* fmt.Fprintf(conn, ...) *)
| EvStdout (text : string)                    (* fmt.Print, fmt.Printf *)
| EvLog (text : string)                       (* log.Printf, without its time stamp *)
| EvDiag (what : Diag)                         (* a diagnostic whose text depends on an error value *)
| EvHandleFunc (pattern : string)             (* http.HandleFunc *)
with Diag :=
| DiagEnvRequired
| DiagReadConfigFailed (fileName : string)
| DiagParseConfigFailed
| DiagConfig (c : IRCConfig.t)
| DiagConnectFailed (server : string) (port : Z)
| DiagReadFailed
| DiagListenFailed.

(** The package-level variables: the four environment variables read at
    initialisation, [lastWho] (nanoseconds on the process clock) and the
    [irc] singleton; [trace] records the events so far. *)
Record World := mkWorld {
  envVarNickName : string;
  envVarUserName : string;
  envVarRealName : string;
  envVarConfigFileName : string;
  lastWho : Z;
  irc : IRC;
  trace : list Event
}.

(** ** Control: a state monad with Go's ways of not returning *)

Inductive PanicReason :=
| IndexOutOfRange (index length : nat)
| SliceOutOfRange (bound length : nat)
| NilMapAssignment
| NilDereference
| UnlockOfUnlockedMutex.

Inductive Blocking :=
| OnMutex (mu : Mutex)              (* Lock of a mutex that is held *)
| InListenAndServe (port : Z).      (* http.ListenAndServe serving *)

Inductive Outcome (A : Type) :=
| Ret (a : A)
| Panic (why : PanicReason)
| Exit (code : Z)                   (* log.Fatal: os.Exit(1), deferred calls do not run *)
| Blocked (on : Blocking).
Arguments Ret {A} a.
Arguments Panic {A} why.
Arguments Exit {A} code.
Arguments Blocked {A} on.

Definition M (A : Type) : Type := World → Outcome A * World.

Definition ret {A} (a : A) : M A := λ w, (Ret a, w).

Definition bind {A B} (m : M A) (k : A → M B) : M B :=
  λ w, match m w with
       | (Ret a, w') => k a w'
       | (Panic why, w') => (Panic why, w')
       | (Exit code, w') => (Exit code, w')
       | (Blocked on, w') => (Blocked on, w')
       end.

(** stdpp's monad notations: [x ← m; k] and [m;; k]. *)
Global Instance M_ret : MRet M := @ret.
Global Instance M_bind : MBind M := λ A B k m, bind m k.

Definition panic {A} (why : PanicReason) : M A := λ w, (Panic why, w).
Definition exit {A} (code : Z) : M A := λ w, (Exit code, w).
Definition block {A} (on : Blocking) : M A := λ w, (Blocked on, w).

Definition get : M World := λ w, (Ret w, w).
Definition modify (f : World → World) : M unit := λ w, (Ret tt, f w).

(** Go's [defer f()]: [cleanup] runs when [body] returns or panics, then the
    panic goes on; it does not run after [os.Exit]. *)
Definition defer {A} (cleanup : M unit) (body : M A) : M A :=
  λ w, match body w with
       | (Ret a, w') => bind cleanup (λ _, ret a) w'
       | (Panic why, w') => bind cleanup (λ _, panic why) w'
       | (Exit code, w') => (Exit code, w')
       | (Blocked on, w') => (Blocked on, w')
       end.

(** Field updates. *)
Definition setIRC (f : IRC → IRC) (w : World) : World :=
  mkWorld (envVarNickName w) (envVarUserName w) (envVarRealName w)
          (envVarConfigFileName w) (lastWho w) (f (irc w)) (trace w).
Definition setLastWho (t : Z) (w : World) : World :=
  mkWorld (envVarNickName w) (envVarUserName w) (envVarRealName w)
          (envVarConfigFileName w) t (irc w) (trace w).
Definition emitEvent (e : Event) (w : World) : World :=
  mkWorld (envVarNickName w) (envVarUserName w) (envVarRealName w)
          (envVarConfigFileName w) (lastWho w) (irc w) (trace w ++ [e]).

Definition setMessages (l : list IRCMessage.t) (i : IRC) : IRC :=
  mkIRC (messagesLocked i) l (usersLocked i) (users i) (config i) (conn i).
Definition setUsers (u : option (gmap string User.t)) (i : IRC) : IRC :=
  mkIRC (messagesLocked i) (messages i) (usersLocked i) u (config i) (conn i).
Definition setConfig (c : option IRCConfig.t) (i : IRC) : IRC :=
  mkIRC (messagesLocked i) (messages i) (usersLocked i) (users i) c (conn i).
Definition setConn (c : option netConn) (i : IRC) : IRC :=
  mkIRC (messagesLocked i) (messages i) (usersLocked i) (users i) (config i) c.
Definition locked (mu : Mutex) (i : IRC) : bool :=
  match mu with messagesMutex => messagesLocked i | usersMutex => usersLocked i end.
Definition setLocked (mu : Mutex) (b : bool) (i : IRC) : IRC :=
  match mu with
  | messagesMutex => mkIRC b (messages i) (usersLocked i) (users i) (config i) (conn i)
  | usersMutex => mkIRC (messagesLocked i) (messages i) b (users i) (config i) (conn i)
  end.

Definition emit (e : Event) : M unit := modify (emitEvent e).

(** [mu.Lock()]: a thread that locks a held mutex waits for it. *)
Definition Lock (mu : Mutex) : M unit :=
  w ← get;
  if locked mu (irc w) then block (OnMutex mu)
  else modify (setIRC (setLocked mu true));; emit (EvLock mu).

(** [mu.Unlock()] *)
Definition Unlock (mu : Mutex) : M unit :=
  w ← get;
  if locked mu (irc w) then modify (setIRC (setLocked mu false));; emit (EvUnlock mu)
  else panic UnlockOfUnlockedMutex.

(** [mu.Lock(); defer mu.Unlock(); body] *)
Definition withLock {A} (mu : Mutex) (body : M A) : M A :=
  Lock mu;; defer (Unlock mu) body.

(** [irc.config], dereferenced. *)
Definition getConfig : M IRCConfig.t :=
  w ← get;
  match config (irc w) with
  | Some c => ret c
  | None => panic NilDereference
  end.

(** [fmt.Fprintf(conn, ...)] with the text already formatted; the error the
    write may return is dropped by the program ([_, _ =]). Writing to a nil
    [net.Conn] is a nil dereference. *)
Definition connWrite (c : option netConn) (frame : string) : M unit :=
  match c with
  | Some c => emit (EvConnWrite c frame)
  | None => panic NilDereference
  end.

(** [a[i]] on a slice. *)
Definition index {A} (a : list A) (i : nat) : M A :=
  match a !! i with
  | Some x => ret x
  | None => panic (IndexOutOfRange i (length a))
  end.

(** [s[lo:]] and [s[lo:hi]] *)
Definition sliceFrom (s : string) (lo : nat) : M string :=
  match strings.SliceFrom s lo with
  | Some t => ret t
  | None => panic (SliceOutOfRange lo (len s))
  end.

Definition slice (s : string) (lo hi : nat) : M string :=
  match strings.Slice s lo hi with
  | Some t => ret t
  | None => panic (SliceOutOfRange hi (len s))
  end.

(** [if cond { body }] *)
Definition when (cond : bool) (body : M unit) : M unit :=
  if cond then body else ret tt.

(** [for _, x := range l { body }] over a slice. *)
Fixpoint forRange {A} (l : list A) (body : A → M unit) : M unit :=
  match l with
  | [] => ret tt
  | x :: l' => body x;; forRange l' body
  end.

(** [s1 == s2] on Go strings. *)
Definition streq (s1 s2 : string) : bool := bool_decide (s1 = s2).

(** ** The methods of [IRC] *)

(** [func (irc *IRC) Join()] *)
Definition Join : M unit :=
  cfg ← getConfig;
  emit (EvLog (">> JOIN " +:+ IRCConfig.Channel cfg +:+ LF +:+ LF));;
  w ← get;
  cfg ← getConfig;
  connWrite (conn (irc w)) ("JOIN " +:+ IRCConfig.Channel cfg +:+ CRLF).

(** [func (irc *IRC) Pong(message string)]; [message[5:]] panics on a
    message shorter than five bytes. *)
Definition Pong (message : string) : M unit :=
  payload ← sliceFrom message 5;
  emit (EvLog (">> PONG " +:+ payload +:+ LF +:+ LF));;
  w ← get;
  payload ← sliceFrom message 5;
  connWrite (conn (irc w)) ("PONG " +:+ payload +:+ CRLF).

(** [func (irc *IRC) AddIncomingMessage(chatRoom, userName, message string)] *)
Definition AddIncomingMessage (chatRoom userName message : string) : M unit :=
  withLock messagesMutex (
    modify (setIRC (λ i, setMessages
      (messages i ++ [IRCMessage.mk chatRoom userName message]) i))).

(** [func sendMessage(conn net.Conn, channel string, message string)] *)
Definition sendMessage (c : option netConn) (channel message : string) : M unit :=
  emit (EvLog ("Sending message: PRIVMSG " +:+ channel +:+ " :" +:+ message +:+ CRLF));;
  connWrite c ("PRIVMSG " +:+ channel +:+ " :" +:+ message +:+ CRLF).

(** [func (irc *IRC) SendMessage(chatRoom, message string)] *)
Definition SendMessage (chatRoom message : string) : M unit :=
  withLock messagesMutex (
    w ← get;
    modify (setIRC (λ i, setMessages
      (messages i ++ [IRCMessage.mk chatRoom (envVarNickName w) message]) i));;
    w ← get;
    cfg ← getConfig;
    sendMessage (conn (irc w)) (IRCConfig.Channel cfg) message).

(** [fmt.Sprintf("%s: %s", m.userName, m.message)] *)
Definition formatLine (m : IRCMessage.t) : string :=
  IRCMessage.userName m +:+ ": " +:+ IRCMessage.message m.

(** The [for _, m := range irc.messages] loop of [GetMessagesForChatRoom],
    with the slice [msgs] it appends to. *)
Fixpoint collectMessages (channel : string) (ms : list IRCMessage.t)
    (msgs : list string) : list string :=
  match ms with
  | [] => msgs
  | m :: ms' =>
      if streq (IRCMessage.channel m) channel
      then collectMessages channel ms' (msgs ++ [formatLine m])
      else collectMessages channel ms' msgs
  end.

(** [func (irc *IRC) GetMessagesForChatRoom(channel string) string] *)
Definition GetMessagesForChatRoom (channel : string) : M string :=
  withLock messagesMutex (
    w ← get;
    let msgs := collectMessages channel (messages (irc w)) [] in
    ret (strings.Join msgs "<br/>")).

(** The [for _, u := range irc.users] loop of [GetUsersForChannel] over the
    map's entries in the order the runtime yields them; [irc.config] is
    dereferenced once per entry. *)
Fixpoint collectUsers (entries : list (string * User.t)) (users : list string)
    : M (list string) :=
  match entries with
  | [] => ret users
  | (_, u) :: entries' =>
      cfg ← getConfig;
      if streq (User.Channel u) (IRCConfig.Channel cfg)
      then collectUsers entries' (users ++ [User.Nickname u])
      else collectUsers entries' users
  end.

(** [sort.Strings]: ascending by Go's [<] on strings, which compares
    bytewise. A list has one sorted arrangement (see [sort_Strings_unique]),
    so the sorting algorithm does not show in the result. *)
Definition sort_Strings (l : list string) : list string :=
  merge_sort String.le l.

(** The entries of a possibly nil map, for [range]. *)
Definition mapEntries (m : option (gmap string User.t)) : list (string * User.t) :=
  match m with
  | Some m => map_to_list m
  | None => []
  end.

(** [GetUsersForChannel] up to [sort.Strings(users)]: the sorted slice. The
    iteration order of a Go map is not specified; [order] is the order of
    this call's iteration. *)
Definition usersForChannelIn (order : list (string * User.t)) : M (list string) :=
  users ← collectUsers order [];
  ret (sort_Strings users).

(** [GetUsersForChannel] returning the sorted slice instead of its join. *)
Definition usersForChannel : M (list string) :=
  withLock usersMutex (
    w ← get;
    usersForChannelIn (mapEntries (users (irc w)))).

(** [func (irc *IRC) GetUsersForChannel() string] *)
Definition GetUsersForChannel : M string :=
  withLock usersMutex (
    w ← get;
    users ← usersForChannelIn (mapEntries (users (irc w)));
    ret (strings.Join users ",")).

(** [func (irc *IRC) ResetUsersForChannel()] *)
Definition ResetUsersForChannel : M unit :=
  withLock usersMutex (modify (setIRC (setUsers None))).

(** [func (irc *IRC) RemoveUser(nickname string)]; [delete] on a nil map
    does nothing. *)
Definition RemoveUser (nickname : string) : M unit :=
  withLock usersMutex (
    let nickname := strings.Trim nickname nickCutset in
    modify (setIRC (λ i, setUsers (delete nickname <$> users i) i))).

(** What [AddUserForChannel] makes of [*user] before storing the pointer. *)
Definition trimUser (user : User.t) : User.t :=
  User.mk (strings.Trim (User.Nickname user) nickCutset)
          (strings.Trim (User.Hostname user) nickCutset)
          (User.Server user)
          (User.Channel user).

(** [func (irc *IRC) AddUserForChannel(user *User)]; assigning to an entry
    of a nil map panics. *)
Definition AddUserForChannel (user : User.t) : M unit :=
  withLock usersMutex (
    let user := trimUser user in
    w ← get;
    match users (irc w) with
    | Some m => modify (setIRC (setUsers (Some (<[User.Nickname user := user]> m))))
    | None => panic NilMapAssignment
    end).

(** ** Decoding one line *)

(** [func getUserFromNewJoin(message string)]:
    [:<nick>!<user>@host JOIN :<channel>] *)
Definition getUserFromNewJoin (message : string) : M unit :=
  let parts := strings.Split message " " in
  p0 ← index parts 0;
  nick ← index (strings.Split p0 "!") 0;
  p2 ← index parts 2;
  AddUserForChannel (User.mk nick "" "" (strings.Trim p2 ":")).

(** [func removeNick(message string)]:
    [:<nick>!<user>@server PART :<channel>] *)
Definition removeNick (message : string) : M unit :=
  let parts := strings.Split message " " in
  p0 ← index parts 0;
  nick ← index (strings.Split p0 "!") 0;
  RemoveUser nick.

(** [func getUsersFrom353(message string)]:
    [<server> 353 <my-nickname> = <channel> :<nick> <nick>] *)
Definition getUsersFrom353 (message : string) : M unit :=
  let parts := strings.Split message " " in
  if (length parts <? 5)%nat then ret tt
  else
    forRange (imap (λ idx user, (idx, user)) parts) (λ '(idx, user),
      if (idx <? 5)%nat then ret tt
      else
        p4 ← index parts 4;
        AddUserForChannel (User.mk user "" "" p4)).

(** [func getUsersFrom352(message string)]:
    [<server> 352 <my-nickname> <channel> <username> <hostname> <server> <nickname> ...] *)
Definition getUsersFrom352 (message : string) : M unit :=
  let parts := strings.Split message " " in
  if (length parts <? 9)%nat then ret tt
  else
    p7 ← index parts 7;
    p5 ← index parts 5;
    p3 ← index parts 3;
    p6 ← index parts 6;
    AddUserForChannel (User.mk p7 p5 p6 p3).

(** [30*time.Second], in nanoseconds. *)
Definition whoInterval : Z := 30 * 1000000000.

(** [time.Since(lastWho) > 30*time.Second], when the clock reads [now]. *)
Definition whoDue (now lastWho : Z) : bool := (whoInterval <? now - lastWho)%Z.

Section ReadLoop.
(** The Unicode fallbacks of [strings.TrimSpace] (see [strings.TrimSpace]). *)
Variables TrimFunc_IsSpace TrimRightFunc_IsSpace : string → string.

(** The connection the goroutine of [connectToIRC] captured: the non-nil
    result of [net.Dial]. *)
Variable c : netConn.

(** One iteration of the [for] loop of the goroutine, after
    [reader.ReadString] returned [message] without an error. [t1] and [t2]
    are the readings of the process clock by [time.Since(lastWho)] and by
    [time.Now()]. *)
Definition readLoopBody (message : string) (t1 t2 : Z) : M unit :=
  emit (EvStdout message);;
  AddIncomingMessage "" "" message;;
  let spaceDelimited := strings.SplitN message " " 3 in
  messageCode ← index spaceDelimited 1;
  when (streq messageCode "001") Join;;
  head ← slice message 0 4;
  when (streq head "PING") (Pong message);;
  (* Message sent to the channel *)
  cfg ← getConfig;
  when (strings.Contains message ("PRIVMSG " +:+ IRCConfig.Channel cfg)) (
    let parts := strings.SplitN message ":" 3 in
    when (length parts =? 3)%nat (
      p1 ← index parts 1;
      username ← index (strings.Split p1 "!") 0;
      p2 ← index parts 2;
      let msg := strings.TrimSpace TrimFunc_IsSpace TrimRightFunc_IsSpace p2 in
      cfg ← getConfig;
      emit (EvStdout ("[" +:+ IRCConfig.Channel cfg +:+ "] " +:+ username
                        +:+ ": " +:+ msg +:+ LF));;
      cfg ← getConfig;
      AddIncomingMessage (IRCConfig.Channel cfg) username msg));;
  (* Get Users *)
  when (streq messageCode "353") (getUsersFrom353 message);;
  when (streq messageCode "352") (getUsersFrom352 message);;
  (* Send WHO once every 30 seconds to refresh the list *)
  w ← get;
  when (whoDue t1 (lastWho w)) (
    cfg ← getConfig;
    connWrite (Some c) ("WHO " +:+ IRCConfig.Channel cfg +:+ CRLF);;
    modify (setLastWho t2));;
  when (strings.Contains message " JOIN ") (getUserFromNewJoin message);;
  when (strings.Contains message " PART ") (removeNick message).

(** What [reader.ReadString('\n')] returns, with the two clock readings of
    the iteration: a line, which then ends in the delimiter, or an error. *)
Inductive ReadResult :=
| ReadLine (message : string) (t1 t2 : Z)
| ReadError.

(** The goroutine's loop over the results of the successive reads. A read
    error is fatal ([log.Fatalf]). *)
Fixpoint readLoop (reads : list ReadResult) : M unit :=
  match reads with
  | [] => ret tt
  | ReadLine message t1 t2 :: reads' =>
      readLoopBody message t1 t2;; readLoop reads'
  | ReadError :: _ =>
      emit (EvDiag DiagReadFailed);; exit 1
  end.
End ReadLoop.

(** ** Process start-up *)

(** The operating system and the Go library calls [main] depends on:
    [os.ReadFile] ([None]: an error), [json.Unmarshal] into a zero
    [IRCConfig] ([None]: an error), [net.Dial("tcp", server:port)] ([true]:
    a connection) and [http.ListenAndServe] ([true]: it returns an error
    instead of serving). *)
Record OS := mkOS {
  os_ReadFile : string → option string;
  json_Unmarshal : string → option IRCConfig.t;
  net_Dial : string → Z → bool;
  http_ListenAndServe_fails : Z → bool
}.

(** The four [if config.X == zero { config.X = default }] of [readConfig]. *)
Definition applyDefaults (config : IRCConfig.t) : IRCConfig.t :=
  let port := if (IRCConfig.Port config =? 0)%Z then defaultIRCPort
              else IRCConfig.Port config in
  let server := if streq (IRCConfig.Server config) "" then defaultIRCServer
                else IRCConfig.Server config in
  let webPort := if (IRCConfig.WebServerPortNumber config =? 0)%Z
                 then defaultWebServerPortNumber
                 else IRCConfig.WebServerPortNumber config in
  let channel := if streq (IRCConfig.Channel config) "" then defaultChannel
                 else IRCConfig.Channel config in
  IRCConfig.mk server port channel webPort.

(** Web server endpoints. *)
Definition endPointSendMessage : string := "/send-message".
Definition endPointGetMessagesForChannel : string := "/get-messages-for-channel".
Definition endPointGetUsersForChannel : string := "/get-users-for-channel".

Section Startup.
Variable os : OS.

(** [func readConfig(fileName string) *IRCConfig] *)
Definition readConfig (fileName : string) : M (option IRCConfig.t) :=
  match os_ReadFile os fileName with
  | None => emit (EvDiag (DiagReadConfigFailed fileName));; exit 1
  | Some data =>
      match json_Unmarshal os data with
      | None => emit (EvDiag DiagParseConfigFailed);; ret None
      | Some config =>
          let config := applyDefaults config in
          emit (EvDiag (DiagConfig config));;
          ret (Some config)
      end
  end.

(** [func connectToIRC(irc *IRC) net.Conn], up to the [go] statement: the
    goroutine it starts is [readLoop]. *)
Definition connectToIRC : M (option netConn) :=
  w ← get;
  when (streq (envVarNickName w) "" || streq (envVarUserName w) ""
        || streq (envVarRealName w) "")
    (emit (EvDiag DiagEnvRequired);; exit 1);;
  cfg ← getConfig;
  if net_Dial os (IRCConfig.Server cfg) (IRCConfig.Port cfg) then
    let conn := tcpConn (IRCConfig.Server cfg) (IRCConfig.Port cfg) in
    connWrite (Some conn) ("USER " +:+ envVarUserName w +:+ " 0 * :realname" +:+ CRLF);;
    connWrite (Some conn) ("NICK " +:+ envVarNickName w +:+ CRLF);;
    ret (Some conn)
  else
    emit (EvDiag (DiagConnectFailed (IRCConfig.Server cfg) (IRCConfig.Port cfg)));;
    ret None.

(** [func main()]. [http.ListenAndServe] serves until it fails; a process
    that serves is [Blocked (InListenAndServe port)]. *)
Definition main : M unit :=
  w ← get;
  config ← readConfig (envVarConfigFileName w);
  modify (setIRC (setConfig config));;
  conn ← connectToIRC;
  modify (setIRC (setConn conn));;
  modify (setIRC (setUsers (Some ∅)));;
  emit (EvHandleFunc "/");;
  emit (EvHandleFunc endPointGetMessagesForChannel);;
  emit (EvHandleFunc endPointGetUsersForChannel);;
  emit (EvHandleFunc endPointSendMessage);;
  cfg ← getConfig;
  if http_ListenAndServe_fails os (IRCConfig.WebServerPortNumber cfg)
  then emit (EvDiag DiagListenFailed);; exit 1
  else block (InListenAndServe (IRCConfig.WebServerPortNumber cfg)).
End Startup.

(** The process when [main] starts: [var irc = &IRC{}] and the four
    environment variables; [lastWho] is one nanosecond before the clock
    reading [t0] of the initialisation. *)
Definition initialIRC : IRC := mkIRC false [] false None None None.

Definition initialWorld (nick user real configFile : string) (t0 : Z) : World :=
  mkWorld nick user real configFile (t0 - 1) initialIRC [].

(** ** Vocabulary of the properties *)

(** The state of mutex [mu] after the events [evs], from the state [held]. *)
Fixpoint heldAfter (mu : Mutex) (held : bool) (evs : list Event) : bool :=
  match evs with
  | [] => held
  | EvLock m :: evs' => heldAfter mu (if decide (m = mu) then true else held) evs'
  | EvUnlock m :: evs' => heldAfter mu (if decide (m = mu) then false else held) evs'
  | _ :: evs' => heldAfter mu held evs'
  end.

(** The frames written to the connection in [evs], each with the state of
    mutex [mu] at the moment of the write. *)
Fixpoint writesUnder (mu : Mutex) (held : bool) (evs : list Event) : list (string * bool) :=
  match evs with
  | [] => []
  | EvLock m :: evs' => writesUnder mu (if decide (m = mu) then true else held) evs'
  | EvUnlock m :: evs' => writesUnder mu (if decide (m = mu) then false else held) evs'
  | EvConnWrite _ frame :: evs' => (frame, held) :: writesUnder mu held evs'
  | _ :: evs' => writesUnder mu held evs'
  end.

(** [append] of the Message Log, for a sequence of lines. *)
Definition appendAll (entries : list IRCMessage.t) : M unit :=
  forRange entries (λ m,
    AddIncomingMessage (IRCMessage.channel m) (IRCMessage.userName m) (IRCMessage.message m)).

(** [render(channel)] in the words of the specification: all lines whose
    channel matches, formatted as ["author: text"], joined with the
    line-break separator, in insertion order. *)
Definition renderSpec (channel : string) (log : list IRCMessage.t) : string :=
  strings.Join (formatLine <$> filter (λ m, IRCMessage.channel m = channel) log) "<br/>".

(** The operations on the Roster Store that change it. *)
Inductive RosterOp :=
| Upsert (user : User.t)
| Remove (nickname : string).

Definition runRosterOp (op : RosterOp) : M unit :=
  match op with
  | Upsert user => AddUserForChannel user
  | Remove nickname => RemoveUser nickname
  end.

Definition runRosterOps (ops : list RosterOp) : M unit := forRange ops runRosterOp.

(** The channel a nickname is currently upserted into, read off a sequence
    of operations given latest first: the channel of the latest upsert of
    the (trimmed) nickname, unless a removal of it came later. *)
Fixpoint channelOfLatest (latestFirst : list RosterOp) (nickname : string) : option string :=
  match latestFirst with
  | [] => None
  | Upsert user :: earlier =>
      if decide (strings.Trim (User.Nickname user) nickCutset = nickname)
      then Some (User.Channel user)
      else channelOfLatest earlier nickname
  | Remove n :: earlier =>
      if decide (strings.Trim n nickCutset = nickname)
      then None
      else channelOfLatest earlier nickname
  end.

Definition currentChannel (ops : list RosterOp) (nickname : string) : option string :=
  channelOfLatest (reverse ops) nickname.

(** First and last byte of a string. *)
Definition firstByte (s : string) : option ascii :=
  match s with "" => None | String c _ => Some c end.

Fixpoint lastByte (s : string) : option ascii :=
  match s with
  | "" => None
  | String c "" => Some c
  | String _ s' => lastByte s'
  end.

(** All bytes of [s] satisfy [p]. *)
Fixpoint allBytes (p : ascii → bool) (s : string) : bool :=
  match s with
  | "" => true
  | String c s' => p c && allBytes p s'
  end.

(** [s] neither starts nor ends with a byte satisfying [p]. *)
Definition trimmedOf (p : ascii → bool) (s : string) : bool :=
  match firstByte s, lastByte s with
  | Some a, Some b => negb (p a) && negb (p b)
  | _, _ => true
  end.

(** The protocol-decoration characters as the specification lists them:
    [':'], ['@'], ['+'] and white space, of which ['\r'] and ['\t']. *)
Definition decorationSpec (c : ascii) : bool :=
  strings.inCutset ":@+" c || strings.asciiSpace c.

(** A line that matches none of the shapes the read loop looks for: no
    [PING] in its first four bytes, no [001], [353] or [352] as its second
    token, no [" JOIN "], no [" PART "] and no ["PRIVMSG <channel>"]. *)
Definition matchesNoPattern (channel message : string) : bool :=
  negb (bool_decide (strings.Slice message 0 4 = Some "PING"))
  && negb (bool_decide (strings.SplitN message " " 3 !! 1 = Some "001"))
  && negb (bool_decide (strings.SplitN message " " 3 !! 1 = Some "353"))
  && negb (bool_decide (strings.SplitN message " " 3 !! 1 = Some "352"))
  && negb (strings.Contains message " JOIN ")
  && negb (strings.Contains message " PART ")
  && negb (strings.Contains message ("PRIVMSG " +:+ channel)).

(** What one operation does to a non-nil [users] map. *)
Definition applyRosterOp (m : gmap string User.t) (op : RosterOp) : gmap string User.t :=
  match op with
  | Upsert user => <[User.Nickname (trimUser user) := trimUser user]> m
  | Remove nickname => delete (strings.Trim nickname nickCutset) m
  end.

(** The nicknames [collectUsers] picks from the entries, in their order. *)
Definition nicknamesIn (channel : string) (entries : list (string * User.t)) : list string :=
  (λ e, User.Nickname e.2) <$> filter (λ e, User.Channel e.2 = channel) entries.

(** Every record is stored under its own nickname. *)
Definition keyedByNickname (m : gmap string User.t) : Prop :=
  ∀ k u, m !! k = Some u → User.Nickname u = k.

(** The carriage return, ['\r']. *)
Definition CR : string := String "013" "".

(** A process as [main] leaves it when everything succeeded: registered as
    [me], configured for channel [#x], connected, with an empty roster and
    an empty log. *)
Definition exampleConfig : IRCConfig.t := IRCConfig.mk "irc.freenode.net" 6667 "#x" 8080.
Definition exampleConn : netConn := tcpConn "irc.freenode.net" 6667.
Definition exampleWorld : World :=
  mkWorld "me" "me" "Me" "smirc.conf" 0
    (mkIRC false [] false (Some ∅) (Some exampleConfig) (Some exampleConn)) [].

(** An operating system on which the configuration file is the empty JSON
    object (every field takes its default), [net.Dial] does as [dialOk] says
    and the web server can listen. *)
Definition exampleOS (dialOk : bool) : OS :=
  mkOS (λ _, Some "{}") (λ _, Some (IRCConfig.mk "" 0 "" 0)) (λ _ _, dialOk) (λ _, false).

(** The programs of the join/part scenario: decode the JOIN line, take a
    snapshot, decode the PART line, take a snapshot. *)
Definition joinPartScenario (decodeJoin decodePart : M unit) : M (list string * list string) :=
  decodeJoin;;
  afterJoin ← usersForChannel;
  decodePart;;
  afterPart ← usersForChannel;
  ret (afterJoin, afterPart).

(** A roster with two members of [#x] and one of [#y], and the example
    process with that roster. *)
Definition exampleRoster : gmap string User.t :=
  foldl applyRosterOp ∅
    [Upsert (User.mk "carol" "" "" "#x"); Upsert (User.mk "@bob" "h" "s" "#x");
     Upsert (User.mk "dave" "" "" "#y")].
Definition rosterWorld : World := setIRC (setUsers (Some exampleRoster)) exampleWorld.

(** ** The HTTP handlers *)

(** [formKeyMessage] *)
Definition formKeyMessage : string := "message".

(** What a handler reads of [*http.Request]: [r.ParseForm()] fails with an
    error (its text is [parseError]) or fills [r.Form], a map from keys to
    their values. *)
Inductive Request :=
| BadForm (parseError : string)
| Form (values : gmap string (list string)).

(** [r.Form.Get(key)]: the first value of the key, [""] without one. *)
Definition Form_Get (values : gmap string (list string)) (key : string) : string :=
  match values !! key with
  | Some (v :: _) => v
  | _ => ""
  end.

(** What a handler writes to its [http.ResponseWriter]:
    [http.Redirect(w, r, url, code)] or [fmt.Fprintf(w, "%s", content)]. *)
Inductive Response :=
| Redirect (url : string) (code : Z)
| Page (content : string).

(** [func handlerSendMessage(w http.ResponseWriter, r *http.Request)]. The
    logger ends the line of [log.Printf("Error: %s", err)] itself. *)
Definition handlerSendMessage (r : Request) : M Response :=
  match r with
  | BadForm parseError =>
      emit (EvLog ("Error: " +:+ parseError));;
      ret (Redirect "/" 302)
  | Form values =>
      let message := Form_Get values formKeyMessage in
      cfg ← getConfig;
      SendMessage (IRCConfig.Channel cfg) message;;
      ret (Redirect "/" 302)
  end.

(** The double quote and the tab. *)
Definition DQ : string := String "034" "".
Definition TAB : string := String "009" "".

(** The text the two query handlers put before the body: the raw string
    literal of the source up to and including [<body>], with the page title
    and the refresh period that differ between the two. *)
Definition pageHead (title refresh : string) : string :=
  "<!doctype html><html itemscope=" +:+ DQ +:+ DQ +:+ " itemtype=" +:+ DQ
    +:+ "http://schema.org/WebPage" +:+ DQ +:+ " lang=" +:+ DQ +:+ "en" +:+ DQ +:+ ">"
    +:+ LF +:+ TAB +:+ "<head><title>" +:+ title +:+ "</title><meta http-equiv=" +:+ DQ
    +:+ "refresh" +:+ DQ +:+ " content=" +:+ DQ +:+ refresh +:+ DQ +:+ "></head>"
    +:+ LF +:+ "    <body>".

Definition pageFoot : string := "</body></html>".

(** [func handlerGetMessagesForChannel(w http.ResponseWriter, r *http.Request)] *)
Definition handlerGetMessagesForChannel : M Response :=
  cfg ← getConfig;
  history ← GetMessagesForChatRoom (IRCConfig.Channel cfg);
  ret (Page (pageHead "minirc: messages" "1" +:+ history +:+ pageFoot)).

(** [func handlerGetUsersForChannel(w http.ResponseWriter, r *http.Request)] *)
Definition handlerGetUsersForChannel : M Response :=
  users ← GetUsersForChannel;
  ret (Page (pageHead "minirc: users" "5" +:+ "<strong>Users:</strong> " +:+ users +:+ pageFoot)).

(** ** Vocabulary of the further properties *)

(** Both mutexes are free. *)
Definition lockFree (w : World) : Prop :=
  messagesLocked (irc w) = false ∧ usersLocked (irc w) = false.

(** The process in its steady state: both mutexes free, configured,
    connected, the roster map made. *)
Definition ready (cfg : IRCConfig.t) (c : netConn) (w : World) : Prop :=
  lockFree w
  ∧ config (irc w) = Some cfg
  ∧ conn (irc w) = Some c
  ∧ is_Some (users (irc w)).

(** The call came back to its caller: it returned or it panicked; it
    neither waits for a mutex nor ended the process through [log.Fatal]. (A
    panic that no caller recovers ends the process too: that is the case in
    the read goroutine, not in a handler, whose panics the web server
    recovers.) *)
Definition completes {A} (o : Outcome A) : Prop :=
  match o with
  | Ret _ | Panic _ => True
  | Exit _ | Blocked _ => False
  end.

(** From [w] to [w'] the identity, the configuration and the connection are
    the same, the log has only grown at its end, and what the process had
    done is followed by what it did since. *)
Definition grows (w w' : World) : Prop :=
  envVarNickName w' = envVarNickName w
  ∧ envVarUserName w' = envVarUserName w
  ∧ envVarRealName w' = envVarRealName w
  ∧ envVarConfigFileName w' = envVarConfigFileName w
  ∧ config (irc w') = config (irc w)
  ∧ conn (irc w') = conn (irc w)
  ∧ messages (irc w) `prefix_of` messages (irc w')
  ∧ trace w `prefix_of` trace w'.

(** The users a [353] line lists: the tokens from the sixth on, each under
    the channel that is the fifth token. *)
Definition usersOf353 (message : string) : list RosterOp :=
  let parts := strings.Split message " " in
  match parts !! 4 with
  | Some channel => (λ nick, Upsert (User.mk nick "" "" channel)) <$> drop 5 parts
  | None => []
  end.

(** The only things the read loop does with a line that is a liveness probe
    and nothing else. *)
Definition isPingOnly (channel message : string) : bool :=
  bool_decide (strings.Slice message 0 4 = Some "PING")
  && strings.Contains message " "
  && negb (bool_decide (strings.SplitN message " " 3 !! 1 = Some "001"))
  && negb (bool_decide (strings.SplitN message " " 3 !! 1 = Some "353"))
  && negb (bool_decide (strings.SplitN message " " 3 !! 1 = Some "352"))
  && negb (strings.Contains message " JOIN ")
  && negb (strings.Contains message " PART ")
  && negb (strings.Contains message ("PRIVMSG " +:+ channel)).

(** A step that does not touch the mutexes: it comes back, with the mutexes
    as they were. *)
Definition quiet {A} (m : M A) : Prop :=
  ∀ w, completes (m w).1
       ∧ messagesLocked (irc (m w).2) = messagesLocked (irc w)
       ∧ usersLocked (irc (m w).2) = usersLocked (irc w)
       ∧ grows w (m w).2.

(** The call [m] made in [w] comes back with both mutexes free, having
    changed neither identity, configuration nor connection and having only
    appended to the log. *)
Definition comesBack {A} (m : M A) (w : World) : Prop :=
  completes (m w).1 ∧ lockFree (m w).2 ∧ grows w (m w).2.

(** A call that comes back so whenever it starts with both mutexes free. *)
Definition orderly {A} (m : M A) : Prop :=
  ∀ w, lockFree w → comesBack m w.

(** In the steady state the call [m] returns a value satisfying [P] and
    leaves the process in the steady state. *)
Definition returnsReady (cfg : IRCConfig.t) (c : netConn) {A} (P : A → Prop) (m : M A) : Prop :=
  ∀ w, ready cfg c w → ∃ a w', m w = (Ret a, w') ∧ ready cfg c w' ∧ P a.


(** The read returned a line that has a space and at least four bytes. *)
Definition hasTwoTokens (r : ReadResult) : bool :=
  match r with
  | ReadLine message _ _ => strings.Contains message " " && (4 <=? len message)%nat
  | ReadError => false
  end.

(** * Properties *)

(** ** The [strings] functions on the examples of the Go documentation *)

Example Split_commas : strings.Split "a,b,c" "," = ["a"; "b"; "c"].
Proof. reflexivity. Qed.

Example Split_canal :
  strings.Split "a man a plan a canal panama" "a " = [""; "man "; "plan "; "canal panama"].
Proof. reflexivity. Qed.

Example SplitN_two : strings.SplitN "a,b,c,d" "," 2 = ["a"; "b,c,d"].
Proof. reflexivity. Qed.

Example SplitN_zero : strings.SplitN "a,b,c,d" "," 0 = [].
Proof. reflexivity. Qed.

Example SplitN_short : strings.SplitN "PING" " " 3 = ["PING"].
Proof. reflexivity. Qed.

Example Index_chicken :
  strings.Index "chicken" "ken" = Some 4 ∧ strings.Index "chicken" "dmr" = None.
Proof. split; reflexivity. Qed.

Example Count_cheese : strings.Count "cheese" "e" = 3.
Proof. reflexivity. Qed.

Example Contains_seafood :
  strings.Contains "seafood" "foo" = true ∧ strings.Contains "seafood" "bar" = false
  ∧ strings.Contains "seafood" "" = true ∧ strings.Contains "" "" = true.
Proof. repeat split. Qed.

Example Join_foo : strings.Join ["foo"; "bar"; "baz"] ", " = "foo, bar, baz".
Proof. reflexivity. Qed.

Example Trim_nick : strings.Trim ":@+ bob +@:" nickCutset = "bob".
Proof. reflexivity. Qed.

Example TrimSpace_gophers :
  strings.TrimSpace id id (" " +:+ String "009" LF +:+ " Hello, Gophers " +:+ LF
                           +:+ String "009" CRLF) = "Hello, Gophers".
Proof. reflexivity. Qed.

(** ** Running the operations *)

Ltac destruct_world w :=
  let i := fresh "i" in
  destruct w as [? ? ? ? ? i ?]; destruct i as [? ? ? ? ? ?]; simpl in *; subst.

Ltac unfold_M :=
  unfold AddIncomingMessage, SendMessage, sendMessage, GetMessagesForChatRoom,
    AddUserForChannel, RemoveUser, ResetUsersForChannel, withLock, defer, Lock, Unlock,
    connWrite, getConfig, emit, modify, get, panic, exit, block, when,
    mbind, M_bind, bind, mret, M_ret, ret, setIRC, emitEvent, setLastWho; simpl.

Lemma AddIncomingMessage_run w chatRoom userName message :
  messagesLocked (irc w) = false →
  AddIncomingMessage chatRoom userName message w =
    (Ret tt,
     emitEvent (EvUnlock messagesMutex) (emitEvent (EvLock messagesMutex)
       (setIRC (setMessages (messages (irc w) ++ [IRCMessage.mk chatRoom userName message])) w))).
Proof.
  intros H. destruct_world w. unfold_M. reflexivity.
Qed.

Lemma SendMessage_run w chatRoom message cfg c :
  messagesLocked (irc w) = false →
  config (irc w) = Some cfg →
  conn (irc w) = Some c →
  SendMessage chatRoom message w =
    (Ret tt,
     emitEvent (EvUnlock messagesMutex)
       (emitEvent (EvConnWrite c ("PRIVMSG " +:+ IRCConfig.Channel cfg +:+ " :" +:+ message +:+ CRLF))
       (emitEvent (EvLog ("Sending message: PRIVMSG " +:+ IRCConfig.Channel cfg +:+ " :" +:+ message +:+ CRLF))
       (emitEvent (EvLock messagesMutex)
       (setIRC (setMessages (messages (irc w) ++ [IRCMessage.mk chatRoom (envVarNickName w) message])) w))))).
Proof.
  intros H1 H2 H3. destruct_world w. unfold_M. reflexivity.
Qed.

Lemma collectMessages_filter channel ms msgs :
  collectMessages channel ms msgs =
    msgs ++ (formatLine <$> filter (λ m, IRCMessage.channel m = channel) ms).
Proof.
  revert msgs. induction ms as [|m ms IH]; intros msgs; simpl.
  - by rewrite app_nil_r.
  - unfold streq. rewrite filter_cons.
    destruct (decide (IRCMessage.channel m = channel)) as [E|E].
    + rewrite bool_decide_eq_true_2 by done.
      by rewrite IH, fmap_cons, <- app_assoc.
    + rewrite bool_decide_eq_false_2 by done. apply IH.
Qed.

Lemma GetMessagesForChatRoom_run w channel :
  messagesLocked (irc w) = false →
  GetMessagesForChatRoom channel w =
    (Ret (renderSpec channel (messages (irc w))),
     emitEvent (EvUnlock messagesMutex) (emitEvent (EvLock messagesMutex) w)).
Proof.
  intros H. destruct_world w. unfold_M. unfold renderSpec.
  by rewrite collectMessages_filter.
Qed.

Lemma appendAll_run entries : ∀ w,
  messagesLocked (irc w) = false →
  ∃ w', appendAll entries w = (Ret tt, w')
        ∧ messagesLocked (irc w') = false
        ∧ messages (irc w') = messages (irc w) ++ entries
        ∧ users (irc w') = users (irc w).
Proof.
  induction entries as [|m entries IH]; intros w Hfree.
  - exists w. by rewrite app_nil_r.
  - unfold appendAll. simpl. unfold mbind, M_bind, bind.
    rewrite AddIncomingMessage_run by done.
    destruct (IH (emitEvent (EvUnlock messagesMutex) (emitEvent (EvLock messagesMutex)
       (setIRC (setMessages (messages (irc w) ++
          [IRCMessage.mk (IRCMessage.channel m) (IRCMessage.userName m) (IRCMessage.message m)])) w))))
      as (w' & Hrun & Hl & Hm & Hu).
    { by destruct_world w. }
    exists w'. split; [exact Hrun|]. split; [done|].
    rewrite Hm, Hu. destruct_world w. destruct m. simpl. by rewrite <- app_assoc.
Qed.

Lemma AddUserForChannel_run w user m :
  usersLocked (irc w) = false →
  users (irc w) = Some m →
  AddUserForChannel user w =
    (Ret tt,
     emitEvent (EvUnlock usersMutex) (emitEvent (EvLock usersMutex)
       (setIRC (setUsers (Some (applyRosterOp m (Upsert user)))) w))).
Proof.
  intros H1 H2. destruct_world w. unfold_M. reflexivity.
Qed.

Lemma AddUserForChannel_nil_map w user :
  usersLocked (irc w) = false →
  users (irc w) = None →
  AddUserForChannel user w =
    (Panic NilMapAssignment,
     emitEvent (EvUnlock usersMutex) (emitEvent (EvLock usersMutex) w)).
Proof.
  intros H1 H2. destruct_world w. unfold_M. reflexivity.
Qed.

Lemma RemoveUser_run w nickname :
  usersLocked (irc w) = false →
  RemoveUser nickname w =
    (Ret tt,
     emitEvent (EvUnlock usersMutex) (emitEvent (EvLock usersMutex)
       (setIRC (λ i, setUsers (delete (strings.Trim nickname nickCutset) <$> users i) i) w))).
Proof.
  intros H. destruct_world w. unfold_M. reflexivity.
Qed.

Lemma runRosterOps_run ops : ∀ w m,
  usersLocked (irc w) = false →
  users (irc w) = Some m →
  ∃ w', runRosterOps ops w = (Ret tt, w')
        ∧ usersLocked (irc w') = false
        ∧ users (irc w') = Some (foldl applyRosterOp m ops)
        ∧ config (irc w') = config (irc w)
        ∧ messages (irc w') = messages (irc w).
Proof.
  induction ops as [|op ops IH]; intros w m Hfree Hm.
  - exists w. done.
  - unfold runRosterOps. simpl. unfold mbind, M_bind, bind.
    destruct op as [user|nickname]; simpl.
    + rewrite (AddUserForChannel_run _ _ m) by done.
      edestruct IH as (w' & Hrun & Hl & Hu & Hc & Hms); last first.
      { exists w'. split; [exact Hrun|]. rewrite Hl, Hu, Hc, Hms.
        by destruct_world w. }
      * by destruct_world w.
      * by destruct_world w.
    + rewrite RemoveUser_run by done.
      edestruct IH as (w' & Hrun & Hl & Hu & Hc & Hms); last first.
      { exists w'. split; [exact Hrun|]. rewrite Hl, Hu, Hc, Hms.
        by destruct_world w. }
      * destruct_world w. reflexivity.
      * by destruct_world w.
Qed.

(** The roster invariant. *)
Lemma keyedByNickname_empty : keyedByNickname ∅.
Proof. intros k u. by rewrite lookup_empty. Qed.

Lemma keyedByNickname_apply m op :
  keyedByNickname m → keyedByNickname (applyRosterOp m op).
Proof.
  intros Hm k u. destruct op as [user|nickname]; simpl.
  - rewrite lookup_insert. case_decide as E; [|apply Hm].
    intros [= <-]. exact E.
  - rewrite lookup_delete. case_decide; [done|apply Hm].
Qed.

Lemma keyedByNickname_foldl ops : ∀ m,
  keyedByNickname m → keyedByNickname (foldl applyRosterOp m ops).
Proof.
  induction ops as [|op ops IH]; intros m Hm; simpl; [done|].
  by apply IH, keyedByNickname_apply.
Qed.

(** Looking a nickname up after a sequence of operations reads the latest
    operation on it. *)
Lemma lookup_foldl_applyRosterOp ops n :
  User.Channel <$> (foldl applyRosterOp ∅ ops !! n) = currentChannel ops n.
Proof.
  unfold currentChannel.
  induction ops as [|op ops IH] using rev_ind; [done|].
  rewrite foldl_app, reverse_app. simpl.
  destruct op as [user|k]; simpl.
  - rewrite lookup_insert. case_decide as E; [done|apply IH].
  - rewrite lookup_delete. case_decide as E; [done|apply IH].
Qed.

(** ** [sort.Strings] *)

Lemma sort_Strings_sorted l : Sorted String.le (sort_Strings l).
Proof. apply (Sorted_merge_sort String.le). Qed.

Lemma sort_Strings_perm l : sort_Strings l ≡ₚ l.
Proof. apply (merge_sort_Permutation String.le). Qed.

(** A list has one sorted arrangement: whatever algorithm [sort.Strings]
    runs, it returns [sort_Strings l]. *)
Lemma sort_Strings_unique l l' :
  l' ≡ₚ l → Sorted String.le l' → l' = sort_Strings l.
Proof.
  intros Hp Hs. apply (Sorted_unique String.le); [done|apply sort_Strings_sorted|].
  by rewrite sort_Strings_perm.
Qed.

Lemma sort_Strings_order l1 l2 : l1 ≡ₚ l2 → sort_Strings l1 = sort_Strings l2.
Proof.
  intros Hp. apply sort_Strings_unique; [|apply sort_Strings_sorted].
  by rewrite sort_Strings_perm.
Qed.

Lemma elem_of_sort_Strings l n : n ∈ sort_Strings l ↔ n ∈ l.
Proof. by rewrite sort_Strings_perm. Qed.

Lemma NoDup_sort_Strings l : NoDup l → NoDup (sort_Strings l).
Proof. by rewrite sort_Strings_perm. Qed.

(** ** The snapshot of the roster *)

Lemma getConfig_run w cfg :
  config (irc w) = Some cfg → getConfig w = (Ret cfg, w).
Proof.
  intros Hc. unfold getConfig, mbind, M_bind, bind, get. simpl. by rewrite Hc.
Qed.

Lemma collectUsers_run entries : ∀ acc w cfg,
  config (irc w) = Some cfg →
  collectUsers entries acc w = (Ret (acc ++ nicknamesIn (IRCConfig.Channel cfg) entries), w).
Proof.
  induction entries as [|[k u] entries IH]; intros acc w cfg Hc.
  - simpl. unfold nicknamesIn. simpl. unfold mret, M_ret, ret. by rewrite app_nil_r.
  - simpl. unfold mbind, M_bind, bind. rewrite (getConfig_run _ cfg) by done.
    unfold nicknamesIn, streq. rewrite filter_cons. simpl.
    destruct (decide (User.Channel u = IRCConfig.Channel cfg)) as [E|E].
    + rewrite bool_decide_eq_true_2 by done.
      rewrite (IH _ _ cfg) by done. unfold nicknamesIn.
      by rewrite fmap_cons, <- app_assoc.
    + rewrite bool_decide_eq_false_2 by done.
      by rewrite (IH _ _ cfg).
Qed.

Lemma usersForChannelIn_run order w cfg :
  config (irc w) = Some cfg →
  usersForChannelIn order w =
    (Ret (sort_Strings (nicknamesIn (IRCConfig.Channel cfg) order)), w).
Proof.
  intros Hc. unfold usersForChannelIn, mbind, M_bind, bind.
  by rewrite (collectUsers_run _ _ _ cfg).
Qed.

Lemma nicknamesIn_perm channel l1 l2 :
  l1 ≡ₚ l2 → nicknamesIn channel l1 ≡ₚ nicknamesIn channel l2.
Proof. intros Hp. unfold nicknamesIn. by rewrite Hp. Qed.

Lemma withLock_run {A} mu (body : M A) w a w1 :
  locked mu (irc w) = false →
  body (emitEvent (EvLock mu) (setIRC (setLocked mu true) w)) = (Ret a, w1) →
  locked mu (irc w1) = true →
  withLock mu body w =
    (Ret a, emitEvent (EvUnlock mu) (setIRC (setLocked mu false) w1)).
Proof.
  intros Hfree Hbody Hheld.
  unfold withLock, defer, Lock, Unlock, mbind, M_bind, bind, get, modify, emit, ret.
  simpl. rewrite Hfree. simpl. rewrite Hbody. simpl. by rewrite Hheld.
Qed.

Lemma usersForChannel_run w cfg :
  usersLocked (irc w) = false →
  config (irc w) = Some cfg →
  usersForChannel w =
    (Ret (sort_Strings (nicknamesIn (IRCConfig.Channel cfg) (mapEntries (users (irc w))))),
     emitEvent (EvUnlock usersMutex) (emitEvent (EvLock usersMutex) w)).
Proof.
  intros Hl Hc. unfold usersForChannel.
  set (w1 := emitEvent (EvLock usersMutex) (setIRC (setLocked usersMutex true) w)).
  assert (Hbody : (w0 ← get; usersForChannelIn (mapEntries (users (irc w0)))) w1 =
    (Ret (sort_Strings (nicknamesIn (IRCConfig.Channel cfg) (mapEntries (users (irc w))))), w1)).
  { unfold mbind, M_bind, bind, get.
    rewrite (usersForChannelIn_run _ _ cfg) by (subst w1; by destruct_world w).
    subst w1. by destruct_world w. }
  rewrite (withLock_run usersMutex _ w _ _ Hl Hbody) by (subst w1; by destruct_world w).
  subst w1. by destruct_world w.
Qed.

Lemma GetUsersForChannel_run w cfg :
  usersLocked (irc w) = false →
  config (irc w) = Some cfg →
  GetUsersForChannel w =
    (Ret (strings.Join
            (sort_Strings (nicknamesIn (IRCConfig.Channel cfg) (mapEntries (users (irc w)))))
            ","),
     emitEvent (EvUnlock usersMutex) (emitEvent (EvLock usersMutex) w)).
Proof.
  intros Hl Hc. unfold GetUsersForChannel.
  set (w1 := emitEvent (EvLock usersMutex) (setIRC (setLocked usersMutex true) w)).
  assert (Hbody : (w0 ← get; users ← usersForChannelIn (mapEntries (users (irc w0)));
                   ret (strings.Join users ",")) w1 =
    (Ret (strings.Join (sort_Strings (nicknamesIn (IRCConfig.Channel cfg)
                                        (mapEntries (users (irc w))))) ","), w1)).
  { unfold mbind, M_bind, bind, get.
    rewrite (usersForChannelIn_run _ _ cfg) by (subst w1; by destruct_world w).
    subst w1. by destruct_world w. }
  rewrite (withLock_run usersMutex _ w _ _ Hl Hbody) by (subst w1; by destruct_world w).
  subst w1. by destruct_world w.
Qed.

Lemma elem_of_nicknamesIn m channel n :
  keyedByNickname m →
  n ∈ nicknamesIn channel (map_to_list m) ↔
    ∃ u, m !! n = Some u ∧ User.Channel u = channel.
Proof.
  intros Hm. unfold nicknamesIn. rewrite list_elem_of_fmap. split.
  - intros ([k u] & -> & [Hch Hin]%list_elem_of_filter). simpl in *.
    apply elem_of_map_to_list in Hin. exists u. split; [|done].
    by rewrite (Hm _ _ Hin).
  - intros (u & Hn & Hch). exists (n, u). simpl. split.
    + symmetry. by apply Hm.
    + apply list_elem_of_filter. split; [done|]. by apply elem_of_map_to_list.
Qed.

Lemma NoDup_nicknamesIn m channel :
  keyedByNickname m → NoDup (nicknamesIn channel (map_to_list m)).
Proof.
  intros Hm. unfold nicknamesIn. apply NoDup_fmap_2_strong.
  - intros [k1 u1] [k2 u2] [_ H1%elem_of_map_to_list]%list_elem_of_filter
      [_ H2%elem_of_map_to_list]%list_elem_of_filter Heq. simpl in *.
    rewrite (Hm _ _ H1), (Hm _ _ H2) in Heq. subst k2. congruence.
  - apply NoDup_filter, NoDup_map_to_list.
Qed.

(** ** [strings.Trim] *)

Lemma firstByte_TrimLeft s cutset c :
  firstByte (strings.TrimLeft s cutset) = Some c → strings.inCutset cutset c = false.
Proof.
  induction s as [|a s IH]; simpl; [done|].
  destruct (strings.inCutset cutset a) eqn:Ha; [exact IH|].
  simpl. by intros [= <-].
Qed.

Lemma lastByte_is_Some s : ∀ a, is_Some (lastByte (String a s)).
Proof.
  induction s as [|b s IH]; intros a; [by eexists|].
  change (lastByte (String a (String b s))) with (lastByte (String b s)). apply IH.
Qed.

Lemma lastByte_cons a s :
  lastByte (String a s) = match lastByte s with Some c => Some c | None => Some a end.
Proof.
  destruct s as [|b s]; [done|].
  change (lastByte (String a (String b s))) with (lastByte (String b s)).
  by destruct (lastByte_is_Some s b) as [c ->].
Qed.

Lemma lastByte_None s : lastByte s = None → s = "".
Proof.
  destruct s as [|a s]; [done|]. rewrite lastByte_cons. by destruct (lastByte s).
Qed.

Lemma lastByte_TrimLeft s cutset c :
  lastByte (strings.TrimLeft s cutset) = Some c → lastByte s = Some c.
Proof.
  induction s as [|a s IH]; [done|]. cbn [strings.TrimLeft].
  destruct (strings.inCutset cutset a); [|done].
  intros H. apply IH in H. rewrite lastByte_cons. by rewrite H.
Qed.

Lemma lastByte_TrimRight s cutset c :
  lastByte (strings.TrimRight s cutset) = Some c → strings.inCutset cutset c = false.
Proof.
  induction s as [|a s IH]; [done|]. cbn [strings.TrimRight].
  destruct (strings.TrimRight s cutset) as [|b t] eqn:Ht.
  - destruct (strings.inCutset cutset a) eqn:Ha; simpl; [done|]. by intros [= <-].
  - rewrite lastByte_cons. destruct (lastByte (String b t)) eqn:Hl.
    + intros [= <-]. by apply IH.
    + by apply lastByte_None in Hl.
Qed.

(** The result of [Trim] neither starts nor ends with a byte of the cutset. *)
Lemma Trim_trimmedOf s cutset :
  trimmedOf (strings.inCutset cutset) (strings.Trim s cutset) = true.
Proof.
  unfold trimmedOf, strings.Trim.
  destruct (firstByte _) as [a|] eqn:Ha; [|done].
  destruct (lastByte _) as [b|] eqn:Hb; [|done].
  apply firstByte_TrimLeft in Ha. apply lastByte_TrimLeft, lastByte_TrimRight in Hb.
  by rewrite Ha, Hb.
Qed.

Lemma string_app_nil_l (t : string) : "" +:+ t = t.
Proof. reflexivity. Qed.

Lemma string_app_cons a (s t : string) : String a s +:+ t = String a (s +:+ t).
Proof. reflexivity. Qed.

Lemma string_app_assoc (a b c : string) : (a +:+ b) +:+ c = a +:+ b +:+ c.
Proof.
  induction a as [|x a IH]; [done|]. by rewrite !string_app_cons, IH.
Qed.

Lemma TrimLeft_split s cutset :
  ∃ pre, s = pre +:+ strings.TrimLeft s cutset
         ∧ allBytes (strings.inCutset cutset) pre = true.
Proof.
  induction s as [|a s (pre & Hs & Hpre)]; [by exists ""|].
  cbn [strings.TrimLeft].
  destruct (strings.inCutset cutset a) eqn:Ha.
  - exists (String a pre). rewrite string_app_cons, <- Hs.
    split; [done|]. cbn [allBytes]. by rewrite Ha, Hpre.
  - by exists "".
Qed.

Lemma TrimRight_split s cutset :
  ∃ post, s = strings.TrimRight s cutset +:+ post
          ∧ allBytes (strings.inCutset cutset) post = true.
Proof.
  induction s as [|a s (post & Hs & Hpost)]; [by exists ""|].
  cbn [strings.TrimRight].
  destruct (strings.TrimRight s cutset) as [|b t] eqn:Ht.
  - rewrite string_app_nil_l in Hs. subst post.
    destruct (strings.inCutset cutset a) eqn:Ha.
    + exists (String a s). rewrite string_app_nil_l.
      split; [done|]. cbn [allBytes]. by rewrite Ha, Hpost.
    + by exists s.
  - exists post. split; [|done]. by rewrite string_app_cons, <- Hs.
Qed.

(** [Trim] cuts a run of cutset bytes off each end, and nothing else. *)
Lemma Trim_split s cutset :
  ∃ pre post, s = pre +:+ strings.Trim s cutset +:+ post
              ∧ allBytes (strings.inCutset cutset) pre = true
              ∧ allBytes (strings.inCutset cutset) post = true.
Proof.
  destruct (TrimRight_split s cutset) as (post & Hs & Hpost).
  destruct (TrimLeft_split (strings.TrimRight s cutset) cutset) as (pre & Hr & Hpre).
  exists pre, post. split; [|done]. unfold strings.Trim.
  rewrite <- string_app_assoc, <- Hr. exact Hs.
Qed.

(** * The properties of the specification *)

(** ** Outbound send *)

(** C10. For every channel argument and text, [SendMessage] appends the log
    entry under the channel passed as its argument, with the configured
    nickname ([IRC_NICKNAME]) as author, and writes the delivery frame
    [PRIVMSG <configured channel> :<text>\r\n] to the connection, whatever
    the channel argument is. *)
Theorem SendMessage_logs_argument_sends_configured w chatRoom message cfg c :
  messagesLocked (irc w) = false →
  config (irc w) = Some cfg →
  conn (irc w) = Some c →
  ∃ w', SendMessage chatRoom message w = (Ret tt, w')
    ∧ messages (irc w') =
        messages (irc w) ++ [IRCMessage.mk chatRoom (envVarNickName w) message]
    ∧ trace w' =
        trace w ++
          [EvLock messagesMutex;
           EvLog ("Sending message: PRIVMSG " +:+ IRCConfig.Channel cfg +:+ " :" +:+ message +:+ CRLF);
           EvConnWrite c ("PRIVMSG " +:+ IRCConfig.Channel cfg +:+ " :" +:+ message +:+ CRLF);
           EvUnlock messagesMutex].
Proof.
  intros Hl Hc Hn. eexists. split; [by apply SendMessage_run|].
  destruct_world w. split; [done|]. by rewrite <- !app_assoc.
Qed.

Lemma SendMessage_logs_argument_sends_configured_witness :
  ∃ w', SendMessage "#other" "hello" exampleWorld = (Ret tt, w')
    ∧ messages (irc w') = [IRCMessage.mk "#other" "me" "hello"]
    ∧ trace w' =
        [EvLock messagesMutex;
         EvLog ("Sending message: PRIVMSG #x :hello" +:+ CRLF);
         EvConnWrite exampleConn ("PRIVMSG #x :hello" +:+ CRLF);
         EvUnlock messagesMutex].
Proof.
  apply (SendMessage_logs_argument_sends_configured
           exampleWorld "#other" "hello" exampleConfig exampleConn); reflexivity.
Defined.

(** C4, as stated, fails: in the events of a send, the write to the
    connection comes while the Message Log lock is held. *)
Lemma SendMessage_write_under_log_lock :
  ∃ pre frame post,
    trace (SendMessage "#x" "hi" exampleWorld).2 = pre ++ EvConnWrite exampleConn frame :: post
    ∧ heldAfter messagesMutex false pre = true.
Proof.
  exists [EvLock messagesMutex; EvLog ("Sending message: PRIVMSG #x :hi" +:+ CRLF)],
    ("PRIVMSG #x :hi" +:+ CRLF), [EvUnlock messagesMutex].
  split; reflexivity.
Qed.

(** C4, amended. In the outbound send operation the append to the Message
    Log and the write to the network transport are one critical section:
    [SendMessage] locks the Message Log once, appends the line, writes the
    frame while the lock is held, and unlocks once, when it returns; the
    roster lock is not taken. The events of a send are exactly one lock,
    the log line, the write and one unlock, and the line is in the log
    afterwards. The append lies inside that span: while another thread
    holds the lock the send waits and has appended nothing, and when the
    write fails (a nil connection) the line is already in the log and the
    same deferred unlock releases the lock. While the lock is held, as it
    is during the write, a reader of the log and an append wait for it and
    a reader of the roster does not. *)
Theorem SendMessage_one_critical_section w chatRoom message cfg c :
  messagesLocked (irc w) = false →
  config (irc w) = Some cfg →
  conn (irc w) = Some c →
  ∃ w' evs, SendMessage chatRoom message w = (Ret tt, w')
    ∧ trace w' = trace w ++ evs
    ∧ evs =
        [EvLock messagesMutex;
         EvLog ("Sending message: PRIVMSG " +:+ IRCConfig.Channel cfg +:+ " :" +:+ message
                  +:+ CRLF);
         EvConnWrite c ("PRIVMSG " +:+ IRCConfig.Channel cfg +:+ " :" +:+ message +:+ CRLF);
         EvUnlock messagesMutex]
    ∧ messages (irc w') =
        messages (irc w) ++ [IRCMessage.mk chatRoom (envVarNickName w) message]
    ∧ writesUnder messagesMutex false evs =
        [("PRIVMSG " +:+ IRCConfig.Channel cfg +:+ " :" +:+ message +:+ CRLF, true)]
    ∧ heldAfter messagesMutex false evs = false
    ∧ (EvLock usersMutex ∉ evs)
    ∧ messagesLocked (irc w') = false
    ∧ usersLocked (irc w') = usersLocked (irc w)
    ∧ SendMessage chatRoom message (setIRC (setLocked messagesMutex true) w) =
        (Blocked (OnMutex messagesMutex), setIRC (setLocked messagesMutex true) w)
    ∧ (∀ channel,
         (GetMessagesForChatRoom channel (setIRC (setLocked messagesMutex true) w)).1 =
           Blocked (OnMutex messagesMutex))
    ∧ (∀ room userName text,
         (AddIncomingMessage room userName text (setIRC (setLocked messagesMutex true) w)).1 =
           Blocked (OnMutex messagesMutex))
    ∧ (usersLocked (irc w) = false →
       ∃ users, (GetUsersForChannel (setIRC (setLocked messagesMutex true) w)).1 = Ret users)
    ∧ ∃ w'', SendMessage chatRoom message (setIRC (setConn None) w) =
               (Panic NilDereference, w'')
        ∧ messages (irc w'') =
            messages (irc w) ++ [IRCMessage.mk chatRoom (envVarNickName w) message]
        ∧ trace w'' =
            trace w ++
              [EvLock messagesMutex;
               EvLog ("Sending message: PRIVMSG " +:+ IRCConfig.Channel cfg +:+ " :"
                        +:+ message +:+ CRLF);
               EvUnlock messagesMutex]
        ∧ messagesLocked (irc w'') = false.
Proof.
  intros Hl Hc Hn.
  exists (SendMessage chatRoom message w).2,
    [EvLock messagesMutex;
     EvLog ("Sending message: PRIVMSG " +:+ IRCConfig.Channel cfg +:+ " :" +:+ message +:+ CRLF);
     EvConnWrite c ("PRIVMSG " +:+ IRCConfig.Channel cfg +:+ " :" +:+ message +:+ CRLF);
     EvUnlock messagesMutex].
  rewrite (SendMessage_run _ _ _ cfg c) by done. simpl.
  split; [done|]. split; [destruct_world w; by rewrite <- !app_assoc|].
  split; [done|]. split; [by destruct_world w|].
  split; [done|]. split; [done|].
  split.
  { rewrite !elem_of_cons, elem_of_nil. intros [?|[?|[?|[?|[]]]]]; discriminate. }
  split; [by destruct_world w|]. split; [by destruct_world w|].
  split; [by destruct_world w|].
  split; [intros channel; by destruct_world w|].
  split; [intros room userName text; by destruct_world w|].
  split.
  { intros Hu. eexists. rewrite (GetUsersForChannel_run _ cfg); [done|..];
      by destruct_world w. }
  destruct_world w. unfold_M. eexists. split; [reflexivity|]. simpl.
  split; [done|]. split; [by rewrite <- !app_assoc|done].
Qed.

Lemma SendMessage_one_critical_section_witness :
  ∃ w' evs, SendMessage "#x" "hi" exampleWorld = (Ret tt, w')
    ∧ trace w' = [] ++ evs
    ∧ evs =
        [EvLock messagesMutex;
         EvLog ("Sending message: PRIVMSG " +:+ "#x" +:+ " :" +:+ "hi" +:+ CRLF);
         EvConnWrite exampleConn ("PRIVMSG " +:+ "#x" +:+ " :" +:+ "hi" +:+ CRLF);
         EvUnlock messagesMutex]
    ∧ messages (irc w') = [] ++ [IRCMessage.mk "#x" "me" "hi"]
    ∧ writesUnder messagesMutex false evs =
        [("PRIVMSG " +:+ "#x" +:+ " :" +:+ "hi" +:+ CRLF, true)]
    ∧ heldAfter messagesMutex false evs = false
    ∧ (EvLock usersMutex ∉ evs)
    ∧ messagesLocked (irc w') = false
    ∧ usersLocked (irc w') = false
    ∧ SendMessage "#x" "hi" (setIRC (setLocked messagesMutex true) exampleWorld) =
        (Blocked (OnMutex messagesMutex), setIRC (setLocked messagesMutex true) exampleWorld)
    ∧ (∀ channel,
         (GetMessagesForChatRoom channel
            (setIRC (setLocked messagesMutex true) exampleWorld)).1 =
           Blocked (OnMutex messagesMutex))
    ∧ (∀ room userName text,
         (AddIncomingMessage room userName text
            (setIRC (setLocked messagesMutex true) exampleWorld)).1 =
           Blocked (OnMutex messagesMutex))
    ∧ (usersLocked (irc exampleWorld) = false →
       ∃ users,
         (GetUsersForChannel (setIRC (setLocked messagesMutex true) exampleWorld)).1
           = Ret users)
    ∧ ∃ w'', SendMessage "#x" "hi" (setIRC (setConn None) exampleWorld) =
               (Panic NilDereference, w'')
        ∧ messages (irc w'') = [] ++ [IRCMessage.mk "#x" "me" "hi"]
        ∧ trace w'' =
            [] ++
              [EvLock messagesMutex;
               EvLog ("Sending message: PRIVMSG " +:+ "#x" +:+ " :" +:+ "hi" +:+ CRLF);
               EvUnlock messagesMutex]
        ∧ messagesLocked (irc w'') = false.
Proof.
  apply (SendMessage_one_critical_section
           exampleWorld "#x" "hi" exampleConfig exampleConn); reflexivity.
Defined.

(** While the Message Log lock is held, a reader of the log waits and a
    reader of the roster does not. *)
Lemma readers_while_log_locked w channel cfg :
  messagesLocked (irc w) = true →
  usersLocked (irc w) = false →
  config (irc w) = Some cfg →
  (GetMessagesForChatRoom channel w).1 = Blocked (OnMutex messagesMutex)
  ∧ ∃ users, (GetUsersForChannel w).1 = Ret users.
Proof.
  intros Hm Hu Hc. split.
  - destruct_world w. reflexivity.
  - eexists. by rewrite (GetUsersForChannel_run _ cfg).
Qed.

(** ** Roster Store *)

(** The cutset of [AddUserForChannel] holds five bytes: [':'], ['@'], ['+'],
    the space and the line feed. *)
Lemma nickCutset_bytes c :
  strings.inCutset nickCutset c =
    bool_decide (c ∈ [":"; "@"; "+"; " "; "010"]%char).
Proof. by destruct c as [[] [] [] [] [] [] [] []]. Qed.

(** An upsert of the nickname [bob\r] stores it under the key [bob\r],
    which ends in the white-space byte ['\r']. *)
Lemma upsert_keeps_carriage_return :
  ∃ u, users (irc (AddUserForChannel (User.mk ("bob" +:+ CR) "" "" "#x") exampleWorld).2)
         = Some {[ "bob" +:+ CR := u ]}
       ∧ User.Nickname u = "bob" +:+ CR
       ∧ trimmedOf decorationSpec ("bob" +:+ CR) = false.
Proof.
  exists (User.mk ("bob" +:+ CR) "" "" "#x").
  split; [|split]; [|reflexivity..].
  rewrite (AddUserForChannel_run _ _ ∅) by reflexivity. simpl.
  by rewrite insert_empty.
Qed.

(** What the upsert does cut off: the key (and the nickname stored in the
    record) is the given nickname without the run of bytes [':'], ['@'],
    ['+'], space and ['\n'] at each end, and neither starts nor ends with
    one of them. *)
Theorem upsert_trims_nickname w user m :
  usersLocked (irc w) = false →
  users (irc w) = Some m →
  ∃ w' key,
    AddUserForChannel user w = (Ret tt, w')
    ∧ users (irc w') = Some (<[key := trimUser user]> m)
    ∧ User.Nickname (trimUser user) = key
    ∧ trimmedOf (λ c, bool_decide (c ∈ [":"; "@"; "+"; " "; "010"]%char)) key = true
    ∧ ∃ pre post,
        User.Nickname user = pre +:+ key +:+ post
        ∧ allBytes (λ c, bool_decide (c ∈ [":"; "@"; "+"; " "; "010"]%char)) pre = true
        ∧ allBytes (λ c, bool_decide (c ∈ [":"; "@"; "+"; " "; "010"]%char)) post = true.
Proof.
  intros Hl Hm.
  exists (AddUserForChannel user w).2, (strings.Trim (User.Nickname user) nickCutset).
  rewrite (AddUserForChannel_run _ _ m) by done. simpl.
  split; [done|]. split; [by destruct_world w|]. split; [done|].
  assert (Hext : ∀ p q s, (∀ c, p c = q c) →
            allBytes p s = allBytes q s ∧ trimmedOf p s = trimmedOf q s).
  { intros p q s Hpq. split.
    - induction s as [|a s IH]; [done|]. simpl. by rewrite Hpq, IH.
    - unfold trimmedOf. destruct (firstByte s), (lastByte s); try done.
      by rewrite !Hpq. }
  split.
  - rewrite <- (proj2 (Hext _ _ _ nickCutset_bytes)). apply Trim_trimmedOf.
  - destruct (Trim_split (User.Nickname user) nickCutset) as (pre & post & Hs & Hpre & Hpost).
    exists pre, post.
    by rewrite <- !(proj1 (Hext _ _ _ nickCutset_bytes)).
Qed.

Lemma upsert_trims_nickname_witness :
  ∃ w' key,
    AddUserForChannel (User.mk (":@bob" +:+ CR +:+ LF) "" "" "#x") exampleWorld = (Ret tt, w')
    ∧ users (irc w') =
        Some (<[key := trimUser (User.mk (":@bob" +:+ CR +:+ LF) "" "" "#x")]> ∅)
    ∧ User.Nickname (trimUser (User.mk (":@bob" +:+ CR +:+ LF) "" "" "#x")) = key
    ∧ trimmedOf (λ c, bool_decide (c ∈ [":"; "@"; "+"; " "; "010"]%char)) key = true
    ∧ ∃ pre post,
        ":@bob" +:+ CR +:+ LF = pre +:+ key +:+ post
        ∧ allBytes (λ c, bool_decide (c ∈ [":"; "@"; "+"; " "; "010"]%char)) pre = true
        ∧ allBytes (λ c, bool_decide (c ∈ [":"; "@"; "+"; " "; "010"]%char)) post = true.
Proof.
  apply (upsert_trims_nickname exampleWorld
           (User.mk (":@bob" +:+ CR +:+ LF) "" "" "#x") ∅); reflexivity.
Defined.

(** ** The carriage return *)

Lemma TrimRight_keeps_last s cutset c :
  strings.inCutset cutset c = false →
  strings.TrimRight (s +:+ String c "") cutset = s +:+ String c "".
Proof.
  intros Hc. induction s as [|a s IH].
  - rewrite string_app_nil_l. cbn. by rewrite Hc.
  - rewrite string_app_cons. cbn [strings.TrimRight]. rewrite IH.
    destruct s; by rewrite ?string_app_nil_l, ?string_app_cons.
Qed.

Lemma TrimLeft_app_last s cutset c :
  strings.inCutset cutset c = false →
  strings.TrimLeft (s +:+ String c "") cutset = strings.TrimLeft s cutset +:+ String c "".
Proof.
  intros Hc. induction s as [|a s IH].
  - rewrite string_app_nil_l. cbn. by rewrite Hc.
  - rewrite string_app_cons. cbn [strings.TrimLeft].
    destruct (strings.inCutset cutset a); [exact IH|]. by rewrite string_app_cons.
Qed.

Lemma Trim_keeps_last s cutset c :
  strings.inCutset cutset c = false →
  strings.Trim (s +:+ String c "") cutset = strings.TrimLeft s cutset +:+ String c "".
Proof.
  intros Hc. unfold strings.Trim. rewrite TrimRight_keeps_last by done.
  by apply TrimLeft_app_last.
Qed.

Lemma lastByte_app_last s c : lastByte (s +:+ String c "") = Some c.
Proof.
  induction s as [|a s IH]; [done|].
  rewrite string_app_cons, lastByte_cons. by rewrite IH.
Qed.

Lemma len_app (s t : string) : len (s +:+ t) = len s + len t.
Proof. induction s as [|a s IH]; [done|]. rewrite string_app_cons. simpl. by rewrite IH. Qed.

Lemma len_Trim_le s cutset : len (strings.Trim s cutset) ≤ len s.
Proof.
  destruct (Trim_split s cutset) as (pre & post & Hs & _).
  rewrite Hs at 2. rewrite !len_app. lia.
Qed.

Lemma TrimRight_app_cutset s post cutset :
  allBytes (strings.inCutset cutset) post = true →
  strings.TrimRight (s +:+ post) cutset = strings.TrimRight s cutset.
Proof.
  intros Hpost. induction s as [|a s IH].
  - rewrite string_app_nil_l. induction post as [|b post IHp]; [done|].
    cbn [allBytes] in Hpost. apply andb_prop in Hpost as [Hb Hpost].
    cbn [strings.TrimRight]. by rewrite (IHp Hpost), Hb.
  - rewrite string_app_cons. cbn [strings.TrimRight]. by rewrite IH.
Qed.

(** C5, which the code breaks. The cutset of [AddUserForChannel] has the
    line feed but not the carriage return. A nickname that ends in ['\r'],
    or in ['\r'] followed by bytes of the cutset as the last nickname of a
    [353] line does ([nick\r\n]), is stored under a key that ends in
    ['\r']: the key is not trimmed of white space, and the removal of the
    nickname itself, which is what a later [PART] asks for, leaves the
    record in the roster. *)
Theorem upsert_keeps_trailing_carriage_return w m user n tail :
  usersLocked (irc w) = false →
  users (irc w) = Some m →
  User.Nickname user = (n +:+ CR) +:+ tail →
  allBytes (strings.inCutset nickCutset) tail = true →
  ∃ w' key,
    AddUserForChannel user w = (Ret tt, w')
    ∧ key = strings.TrimLeft n nickCutset +:+ CR
    ∧ users (irc w') = Some (<[key := trimUser user]> m)
    ∧ User.Nickname (trimUser user) = key
    ∧ lastByte key = Some "013"%char
    ∧ trimmedOf decorationSpec key = false
    ∧ (strings.TrimLeft n nickCutset = n →
       ∃ w'', RemoveUser n w' = (Ret tt, w'')
         ∧ users (irc w'') =
             Some (<[key := trimUser user]> (delete (strings.Trim n nickCutset) m))).
Proof.
  intros Hl Hm Hn Htail.
  assert (Hkey : User.Nickname (trimUser user) = strings.TrimLeft n nickCutset +:+ CR).
  { unfold trimUser. cbn [User.Nickname]. rewrite Hn. unfold strings.Trim.
    rewrite TrimRight_app_cutset by done. by apply Trim_keeps_last. }
  exists (AddUserForChannel user w).2, (strings.TrimLeft n nickCutset +:+ CR).
  rewrite (AddUserForChannel_run _ _ m) by done. cbn [fst snd].
  split; [done|]. split; [done|].
  split; [destruct_world w; simpl; by rewrite Hkey|].
  split; [done|].
  split; [unfold CR; apply lastByte_app_last|].
  split.
  { unfold trimmedOf, CR. rewrite lastByte_app_last.
    destruct (strings.TrimLeft n nickCutset) as [|a s];
      rewrite ?string_app_nil_l, ?string_app_cons; cbn [firstByte]; [done|].
    apply andb_false_r. }
  intros Hclean. rewrite RemoveUser_run by (by destruct_world w).
  eexists. split; [reflexivity|].
  destruct_world w. simpl. rewrite Hkey. f_equal.
  apply delete_insert_ne. rewrite Hclean. intros E.
  pose proof (len_Trim_le n nickCutset) as Hle.
  rewrite E, len_app in Hle. simpl in Hle. lia.
Qed.

Lemma upsert_keeps_trailing_carriage_return_witness :
  ∃ w' key,
    AddUserForChannel (User.mk (("bob" +:+ CR) +:+ LF) "" "" "#x") exampleWorld = (Ret tt, w')
    ∧ key = strings.TrimLeft "bob" nickCutset +:+ CR
    ∧ users (irc w') =
        Some (<[key := trimUser (User.mk (("bob" +:+ CR) +:+ LF) "" "" "#x")]> ∅)
    ∧ User.Nickname (trimUser (User.mk (("bob" +:+ CR) +:+ LF) "" "" "#x")) = key
    ∧ lastByte key = Some "013"%char
    ∧ trimmedOf decorationSpec key = false
    ∧ (strings.TrimLeft "bob" nickCutset = "bob" →
       ∃ w'', RemoveUser "bob" w' = (Ret tt, w'')
         ∧ users (irc w'') =
             Some (<[key := trimUser (User.mk (("bob" +:+ CR) +:+ LF) "" "" "#x")]>
                     (delete (strings.Trim "bob" nickCutset) ∅))).
Proof.
  apply (upsert_keeps_trailing_carriage_return exampleWorld ∅
           (User.mk (("bob" +:+ CR) +:+ LF) "" "" "#x") "bob" LF); reflexivity.
Defined.

(** The last nickname of a names reply keeps its ['\r'], and the [PART] of
    that member leaves it in the snapshot. *)
Example names_then_part_leaves_stale_member :
  let afterNames := (readLoopBody id id exampleConn
                       (":srv 353 me = #x :@bob alice" +:+ CRLF) 0 0 exampleWorld).2 in
  let afterPart := (readLoopBody id id exampleConn
                      (":alice!u@h PART :#x" +:+ CRLF) 0 0 afterNames).2 in
  (usersForChannel afterNames).1 = Ret ["alice" +:+ CR; "bob"]
  ∧ (usersForChannel afterPart).1 = Ret ["alice" +:+ CR; "bob"].
Proof. split; by vm_compute. Qed.

(** C9. Upserting two members with the same trimmed nickname, whatever
    their other attributes, leaves the roster as if only the second had
    been upserted: the record stored under the nickname is the second one
    (nickname and hostname trimmed), nothing of the first remains. *)
Theorem second_upsert_overwrites w m first second :
  usersLocked (irc w) = false →
  users (irc w) = Some m →
  strings.Trim (User.Nickname first) nickCutset
    = strings.Trim (User.Nickname second) nickCutset →
  ∃ w', (AddUserForChannel first;; AddUserForChannel second) w = (Ret tt, w')
    ∧ users (irc w') =
        Some (<[strings.Trim (User.Nickname second) nickCutset := trimUser second]> m)
    ∧ (∀ m', users (irc w') = Some m' →
         m' !! strings.Trim (User.Nickname second) nickCutset =
           Some (User.mk (strings.Trim (User.Nickname second) nickCutset)
                         (strings.Trim (User.Hostname second) nickCutset)
                         (User.Server second) (User.Channel second))).
Proof.
  intros Hl Hm Hkey.
  unfold mbind, M_bind, bind.
  rewrite (AddUserForChannel_run _ _ m) by done.
  rewrite (AddUserForChannel_run _ _ (applyRosterOp m (Upsert first)))
    by (by destruct_world w).
  eexists. split; [reflexivity|].
  match goal with
  | |- users (irc ?w') = _ ∧ _ =>
      assert (Hu : users (irc w') =
        Some (<[strings.Trim (User.Nickname second) nickCutset := trimUser second]> m))
  end.
  { destruct_world w. simpl in *. rewrite Hkey. by rewrite insert_insert_eq. }
  split; [exact Hu|].
  intros m' Hm'. rewrite Hu in Hm'. injection Hm' as <-.
  by rewrite lookup_insert_eq.
Qed.

Lemma second_upsert_overwrites_witness :
  ∃ w', (AddUserForChannel (User.mk "@bob" "host1" "srv1" "#x");;
         AddUserForChannel (User.mk "bob" "host2" "" "#y")) exampleWorld = (Ret tt, w')
    ∧ users (irc w') = Some (<["bob" := trimUser (User.mk "bob" "host2" "" "#y")]> ∅)
    ∧ (∀ m', users (irc w') = Some m' →
         m' !! "bob" = Some (User.mk "bob" "host2" "" "#y")).
Proof.
  apply (second_upsert_overwrites exampleWorld ∅
           (User.mk "@bob" "host1" "srv1" "#x") (User.mk "bob" "host2" "" "#y"));
    reflexivity.
Defined.

(** ** Message Log *)

(** C8. Rendering preserves insertion order: after any sequence of appends,
    [GetMessagesForChatRoom] returns all and only the lines appended for the
    channel, each as ["author: text"], joined by ["<br/>"] in the order they
    were appended; appending [("#x","u1","hi")] then [("#x","u2","yo")] to an
    empty log renders ["u1: hi<br/>u2: yo"]. *)
Theorem render_preserves_insertion_order w :
  messagesLocked (irc w) = false →
  (∀ entries channel,
     ((appendAll entries;; GetMessagesForChatRoom channel) w).1 =
       Ret (strings.Join
              (formatLine <$> filter (λ m, IRCMessage.channel m = channel)
                                     (messages (irc w) ++ entries))
              "<br/>"))
  ∧ (messages (irc w) = [] →
     ((AddIncomingMessage "#x" "u1" "hi";; AddIncomingMessage "#x" "u2" "yo";;
       GetMessagesForChatRoom "#x") w).1 = Ret "u1: hi<br/>u2: yo").
Proof.
  intros Hl.
  assert (Hgen : ∀ entries channel,
     ((appendAll entries;; GetMessagesForChatRoom channel) w).1 =
       Ret (renderSpec channel (messages (irc w) ++ entries))).
  { intros entries channel.
    destruct (appendAll_run entries w Hl) as (w' & Hrun & Hl' & Hm' & _).
    unfold mbind, M_bind, bind. rewrite Hrun.
    rewrite GetMessagesForChatRoom_run by done. simpl. by rewrite Hm'. }
  split; [exact Hgen|].
  intros Hempty.
  specialize (Hgen [IRCMessage.mk "#x" "u1" "hi"; IRCMessage.mk "#x" "u2" "yo"] "#x").
  rewrite Hempty in Hgen. unfold appendAll in Hgen. simpl in Hgen.
  unfold mbind, M_bind, bind in *.
  destruct (AddIncomingMessage "#x" "u1" "hi" w) as [[| | |] w1]; try done.
  destruct (AddIncomingMessage "#x" "u2" "yo" w1) as [[| | |] w2]; try done.
Qed.

Lemma render_preserves_insertion_order_witness :
  (∀ entries channel,
     ((appendAll entries;; GetMessagesForChatRoom channel) exampleWorld).1 =
       Ret (strings.Join
              (formatLine <$> filter (λ m, IRCMessage.channel m = channel) ([] ++ entries))
              "<br/>"))
  ∧ ([] = @nil IRCMessage.t →
     ((AddIncomingMessage "#x" "u1" "hi";; AddIncomingMessage "#x" "u2" "yo";;
       GetMessagesForChatRoom "#x") exampleWorld).1 = Ret "u1: hi<br/>u2: yo").
Proof.
  apply (render_preserves_insertion_order exampleWorld). reflexivity.
Defined.

(** ** Snapshot of the roster *)

(** C6. After any sequence of upserts and removes on an initially empty
    roster, [GetUsersForChannel] returns (joined by [","]) exactly the
    nicknames stored with the configured channel: sorted ascending, without
    duplicates, each of them a nickname whose latest operation was an upsert
    into that channel; and that whatever order the map is iterated in. *)
Theorem snapshot_sorted_exact ops w cfg :
  usersLocked (irc w) = false →
  users (irc w) = Some ∅ →
  config (irc w) = Some cfg →
  ∃ snapshot w',
    runRosterOps ops w = (Ret tt, w')
    ∧ (usersForChannel w').1 = Ret snapshot
    ∧ (GetUsersForChannel w').1 = Ret (strings.Join snapshot ",")
    ∧ Sorted String.le snapshot
    ∧ NoDup snapshot
    ∧ (∀ n, n ∈ snapshot ↔
         ∃ m u, users (irc w') = Some m ∧ m !! n = Some u
                ∧ User.Nickname u = n
                ∧ User.Channel u = IRCConfig.Channel cfg)
    ∧ (∀ n, n ∈ snapshot ↔ currentChannel ops n = Some (IRCConfig.Channel cfg))
    ∧ (∀ order, order ≡ₚ mapEntries (users (irc w')) →
         (usersForChannelIn order w').1 = Ret snapshot).
Proof.
  intros Hl Hm Hc.
  destruct (runRosterOps_run ops w ∅ Hl Hm) as (w' & Hrun & Hl' & Hu' & Hc' & _).
  rewrite Hc in Hc'.
  pose proof (keyedByNickname_foldl ops ∅ keyedByNickname_empty) as Hinv.
  exists (sort_Strings (nicknamesIn (IRCConfig.Channel cfg)
                          (map_to_list (foldl applyRosterOp ∅ ops)))), w'.
  split; [exact Hrun|].
  rewrite (usersForChannel_run _ cfg), (GetUsersForChannel_run _ cfg) by done.
  rewrite Hu'. simpl.
  split; [done|]. split; [done|].
  split; [apply sort_Strings_sorted|].
  split; [by apply NoDup_sort_Strings, NoDup_nicknamesIn|].
  split; [|split].
  - intros n. rewrite elem_of_sort_Strings, elem_of_nicknamesIn by done. split.
    + intros (u & Hn & Hch). exists (foldl applyRosterOp ∅ ops), u.
      split; [done|]. split; [done|]. split; [by apply Hinv|done].
    + intros (m & u & [= <-] & Hn & _ & Hch). by exists u.
  - intros n. rewrite elem_of_sort_Strings, elem_of_nicknamesIn by done.
    rewrite <- lookup_foldl_applyRosterOp. split.
    + intros (u & -> & <-). done.
    + destruct (foldl applyRosterOp ∅ ops !! n) as [u|]; [|done].
      intros [= Hch]. by exists u.
  - intros order Hp. rewrite (usersForChannelIn_run _ _ cfg) by done. simpl.
    f_equal. apply sort_Strings_order. by apply nicknamesIn_perm.
Qed.

Lemma snapshot_sorted_exact_witness :
  ∃ snapshot w',
    runRosterOps [Upsert (User.mk "@carol" "" "" "#x"); Upsert (User.mk "bob" "" "" "#x");
                  Upsert (User.mk "dave" "" "" "#y"); Remove "carol";
                  Upsert (User.mk "+alice" "" "" "#x")] exampleWorld = (Ret tt, w')
    ∧ (usersForChannel w').1 = Ret snapshot
    ∧ (GetUsersForChannel w').1 = Ret (strings.Join snapshot ",")
    ∧ Sorted String.le snapshot
    ∧ NoDup snapshot
    ∧ (∀ n, n ∈ snapshot ↔
         ∃ m u, users (irc w') = Some m ∧ m !! n = Some u
                ∧ User.Nickname u = n
                ∧ User.Channel u = "#x")
    ∧ (∀ n, n ∈ snapshot ↔
         currentChannel [Upsert (User.mk "@carol" "" "" "#x"); Upsert (User.mk "bob" "" "" "#x");
                         Upsert (User.mk "dave" "" "" "#y"); Remove "carol";
                         Upsert (User.mk "+alice" "" "" "#x")] n = Some "#x")
    ∧ (∀ order, order ≡ₚ mapEntries (users (irc w')) →
         (usersForChannelIn order w').1 = Ret snapshot).
Proof.
  apply (snapshot_sorted_exact
           [Upsert (User.mk "@carol" "" "" "#x"); Upsert (User.mk "bob" "" "" "#x");
            Upsert (User.mk "dave" "" "" "#y"); Remove "carol";
            Upsert (User.mk "+alice" "" "" "#x")] exampleWorld exampleConfig); reflexivity.
Defined.

Example snapshot_example :
  ((runRosterOps [Upsert (User.mk "@carol" "" "" "#x"); Upsert (User.mk "bob" "" "" "#x");
                  Upsert (User.mk "dave" "" "" "#y"); Remove "carol";
                  Upsert (User.mk "+alice" "" "" "#x")];; GetUsersForChannel) exampleWorld).1
  = Ret "alice,bob".
Proof. vm_compute. reflexivity. Qed.

(** ** The read loop *)

Ltac unfold_body :=
  unfold readLoopBody, AddIncomingMessage, withLock, defer, Lock, Unlock, index, slice, when,
    streq, connWrite, getConfig, emit, modify, get, mbind, M_bind, bind, ret, panic;
  cbn -[strings.SplitN strings.Slice strings.Contains whoDue String.append].

(** A line without a space is one token. *)
Lemma SplitN_no_space message :
  strings.Contains message " " = false → strings.SplitN message " " 3 = [message].
Proof.
  unfold strings.Contains, strings.SplitN, strings.genSplit.
  destruct (strings.Index message " ") eqn:Hi; [done|]. intros _.
  change (3 =? 0)%Z with false. change (3 <? 0)%Z with false. cbv iota.
  destruct ((if (len message + 1 <? Z.to_nat 3)%nat then len message + 1
             else Z.to_nat 3) - 1); [done|].
  cbn [strings.splitLoop]. by rewrite Hi.
Qed.

Lemma renderSpec_raw_line channel log raw :
  channel ≠ "" →
  renderSpec channel (log ++ [IRCMessage.mk "" "" raw]) = renderSpec channel log.
Proof.
  intros Hne. unfold renderSpec. rewrite filter_app, filter_cons. simpl.
  rewrite decide_False by done. by rewrite filter_nil, app_nil_r.
Qed.

(** C3, as stated, fails: a line that matches no pattern is still appended
    to the Message Log. *)
Lemma unmatched_line_is_logged :
  matchesNoPattern "#x" (":srv NOTICE me :hi" +:+ CRLF) = true
  ∧ messages (irc (readLoopBody id id exampleConn
                     (":srv NOTICE me :hi" +:+ CRLF) 0 0 exampleWorld).2)
      ≠ messages (irc exampleWorld).
Proof. split; [reflexivity|]. vm_compute. discriminate. Qed.

(** C3, amended. Processing a line that matches no decoder pattern leaves
    the Roster Store unchanged and appends to the Message Log exactly one
    line, the raw line under the empty channel tag with an empty author (the
    raw transcript), so the rendering of every channel but the empty one is
    unchanged. When the line has a second token and at least four bytes the
    loop goes on, and nothing is written to the connection but the roster
    refresh ([WHO]) when it is due. *)
Theorem unmatched_line_only_transcribed
    (TrimFunc_IsSpace TrimRightFunc_IsSpace : string → string) c w cfg t1 t2 message :
  messagesLocked (irc w) = false →
  config (irc w) = Some cfg →
  matchesNoPattern (IRCConfig.Channel cfg) message = true →
  users (irc (readLoopBody TrimFunc_IsSpace TrimRightFunc_IsSpace c message t1 t2 w).2)
    = users (irc w)
  ∧ messages (irc (readLoopBody TrimFunc_IsSpace TrimRightFunc_IsSpace c message t1 t2 w).2)
    = messages (irc w) ++ [IRCMessage.mk "" "" message]
  ∧ (∀ channel, channel ≠ "" →
       renderSpec channel
         (messages (irc (readLoopBody TrimFunc_IsSpace TrimRightFunc_IsSpace c message t1 t2 w).2))
       = renderSpec channel (messages (irc w)))
  ∧ (∀ code head,
       strings.SplitN message " " 3 !! 1 = Some code →
       strings.Slice message 0 4 = Some head →
       (readLoopBody TrimFunc_IsSpace TrimRightFunc_IsSpace c message t1 t2 w).1 = Ret tt
       ∧ trace (readLoopBody TrimFunc_IsSpace TrimRightFunc_IsSpace c message t1 t2 w).2 =
           trace w ++ [EvStdout message; EvLock messagesMutex; EvUnlock messagesMutex]
             ++ (if whoDue t1 (lastWho w)
                 then [EvConnWrite c ("WHO " +:+ IRCConfig.Channel cfg +:+ CRLF)]
                 else [])).
Proof.
  intros Hl Hc Hno.
  enough (Hmain :
    users (irc (readLoopBody TrimFunc_IsSpace TrimRightFunc_IsSpace c message t1 t2 w).2)
      = users (irc w)
    ∧ messages (irc (readLoopBody TrimFunc_IsSpace TrimRightFunc_IsSpace c message t1 t2 w).2)
      = messages (irc w) ++ [IRCMessage.mk "" "" message]
    ∧ (∀ code head,
       strings.SplitN message " " 3 !! 1 = Some code →
       strings.Slice message 0 4 = Some head →
       (readLoopBody TrimFunc_IsSpace TrimRightFunc_IsSpace c message t1 t2 w).1 = Ret tt
       ∧ trace (readLoopBody TrimFunc_IsSpace TrimRightFunc_IsSpace c message t1 t2 w).2 =
           trace w ++ [EvStdout message; EvLock messagesMutex; EvUnlock messagesMutex]
             ++ (if whoDue t1 (lastWho w)
                 then [EvConnWrite c ("WHO " +:+ IRCConfig.Channel cfg +:+ CRLF)]
                 else []))).
  { destruct Hmain as (Hu & Hm & Hrest). split; [done|]. split; [done|].
    split; [|done]. intros channel Hne. rewrite Hm. by apply renderSpec_raw_line. }
  unfold matchesNoPattern in Hno.
  repeat (apply andb_prop in Hno as [Hno ?]).
  repeat match goal with H : negb _ = true |- _ => apply negb_true_iff in H end.
  repeat match goal with H : bool_decide _ = false |- _ => apply bool_decide_eq_false in H end.
  destruct_world w.
  unfold_body.
  destruct (strings.SplitN message " " 3 !! 1) as [code|] eqn:Hcode;
    [|by repeat split].
  rewrite (bool_decide_eq_false_2 (code = "001")) by congruence. unfold_body.
  destruct (strings.Slice message 0 4) as [head|] eqn:Hhead;
    [|by repeat split].
  rewrite (bool_decide_eq_false_2 (head = "PING")) by congruence. unfold_body.
  match goal with H : strings.Contains _ (_ +:+ _) = false |- _ => rewrite H end.
  unfold_body.
  rewrite (bool_decide_eq_false_2 (code = "353")) by congruence.
  rewrite (bool_decide_eq_false_2 (code = "352")) by congruence. unfold_body.
  match goal with |- context [whoDue ?a ?b] => destruct (whoDue a b) end; unfold_body;
    repeat match goal with H : strings.Contains _ _ = false |- _ => rewrite H end;
    unfold_body;
    (split; [done|]; split; [done|]; intros ? ? _ _; split; [done|];
     by rewrite <- !app_assoc).
Qed.

Lemma unmatched_line_only_transcribed_witness :
  let line := ":srv NOTICE me :hi" +:+ CRLF in
  let after := readLoopBody id id exampleConn line 0 0 exampleWorld in
  users (irc after.2) = Some ∅
  ∧ messages (irc after.2) = [] ++ [IRCMessage.mk "" "" line]
  ∧ (∀ channel, channel ≠ "" →
       renderSpec channel (messages (irc after.2)) = renderSpec channel [])
  ∧ (∀ code head,
       strings.SplitN line " " 3 !! 1 = Some code →
       strings.Slice line 0 4 = Some head →
       after.1 = Ret tt
       ∧ trace after.2 =
           [] ++ [EvStdout line; EvLock messagesMutex; EvUnlock messagesMutex]
             ++ (if whoDue 0 0 then [EvConnWrite exampleConn ("WHO #x" +:+ CRLF)] else [])).
Proof.
  apply (unmatched_line_only_transcribed id id exampleConn exampleWorld exampleConfig 0 0
           (":srv NOTICE me :hi" +:+ CRLF)); reflexivity.
Defined.

(** On the two lines without a terminator, which is not how the reader
    delivers them, the decoders do what the scenario says: starting from an
    empty roster with [#x] as the configured channel, decoding
    [:a!b@c JOIN :#x] and taking the snapshot yields [["a"]]; decoding
    [:a!b@c PART :#x] after that and taking the snapshot yields the empty
    list. *)
Theorem join_then_part_snapshots
    (TrimFunc_IsSpace TrimRightFunc_IsSpace : string → string) c w cfg t1 t2 t3 t4 :
  messagesLocked (irc w) = false →
  usersLocked (irc w) = false →
  users (irc w) = Some ∅ →
  config (irc w) = Some cfg →
  IRCConfig.Channel cfg = "#x" →
  (joinPartScenario (getUserFromNewJoin ":a!b@c JOIN :#x")
                    (removeNick ":a!b@c PART :#x") w).1 = Ret (["a"], [])
  ∧ (joinPartScenario
       (readLoopBody TrimFunc_IsSpace TrimRightFunc_IsSpace c ":a!b@c JOIN :#x" t1 t2)
       (readLoopBody TrimFunc_IsSpace TrimRightFunc_IsSpace c ":a!b@c PART :#x" t3 t4) w).1
    = Ret (["a"], [])
  ∧ ((getUserFromNewJoin ":a!b@c JOIN :#x";; GetUsersForChannel) w).1 = Ret "a"
  ∧ ((getUserFromNewJoin ":a!b@c JOIN :#x";; removeNick ":a!b@c PART :#x";;
      GetUsersForChannel) w).1 = Ret "".
Proof.
  intros Hm Hu Hempty Hc Hch.
  destruct cfg as [server port channel webPort]. simpl in Hch. subst channel.
  destruct_world w.
  split; [by vm_compute|]. split; [|split; by vm_compute].
  unfold joinPartScenario, readLoopBody. generalize whoDue. intros due.
  vm_compute.
  repeat (match goal with |- context [due ?a ?b] => destruct (due a b) end; vm_compute).
  all: reflexivity.
Qed.

Lemma join_then_part_snapshots_witness :
  (joinPartScenario (getUserFromNewJoin ":a!b@c JOIN :#x")
                    (removeNick ":a!b@c PART :#x") exampleWorld).1 = Ret (["a"], [])
  ∧ (joinPartScenario
       (readLoopBody id id exampleConn ":a!b@c JOIN :#x" 1 2)
       (readLoopBody id id exampleConn ":a!b@c PART :#x" 3 4) exampleWorld).1
    = Ret (["a"], [])
  ∧ ((getUserFromNewJoin ":a!b@c JOIN :#x";; GetUsersForChannel) exampleWorld).1 = Ret "a"
  ∧ ((getUserFromNewJoin ":a!b@c JOIN :#x";; removeNick ":a!b@c PART :#x";;
      GetUsersForChannel) exampleWorld).1 = Ret "".
Proof.
  apply (join_then_part_snapshots id id exampleConn exampleWorld exampleConfig 1 2 3 4);
    reflexivity.
Defined.

(** C7, which the code breaks. The reader delivers every line with its
    terminator, and [getUserFromNewJoin] trims only colons off the channel
    token. Starting from an empty roster with [#x] as the configured
    channel, the line [:a!b@c JOIN :#x] as it is delivered, ending in
    [\r\n] (or in a bare [\n]), stores the member under the channel [#x\r\n]
    (or [#x\n]): the snapshot after the join is empty, not [["a"]], for the
    decoding functions called on the lines and for the loop body run on
    them. *)
Theorem join_then_part_delivered_lines
    (TrimFunc_IsSpace TrimRightFunc_IsSpace : string → string) c w cfg t1 t2 t3 t4 :
  messagesLocked (irc w) = false →
  usersLocked (irc w) = false →
  users (irc w) = Some ∅ →
  config (irc w) = Some cfg →
  IRCConfig.Channel cfg = "#x" →
  (joinPartScenario (getUserFromNewJoin (":a!b@c JOIN :#x" +:+ CRLF))
                    (removeNick (":a!b@c PART :#x" +:+ CRLF)) w).1 = Ret ([], [])
  ∧ (joinPartScenario
       (readLoopBody TrimFunc_IsSpace TrimRightFunc_IsSpace c
          (":a!b@c JOIN :#x" +:+ CRLF) t1 t2)
       (readLoopBody TrimFunc_IsSpace TrimRightFunc_IsSpace c
          (":a!b@c PART :#x" +:+ CRLF) t3 t4) w).1
    = Ret ([], [])
  ∧ (joinPartScenario (getUserFromNewJoin (":a!b@c JOIN :#x" +:+ LF))
                      (removeNick (":a!b@c PART :#x" +:+ LF)) w).1 = Ret ([], [])
  ∧ users (irc (getUserFromNewJoin (":a!b@c JOIN :#x" +:+ CRLF) w).2)
      = Some {[ "a" := User.mk "a" "" "" ("#x" +:+ CRLF) ]}
  ∧ ((getUserFromNewJoin (":a!b@c JOIN :#x" +:+ CRLF);; GetUsersForChannel) w).1 = Ret "".
Proof.
  intros Hm Hu Hempty Hc Hch.
  destruct cfg as [server port channel webPort]. simpl in Hch. subst channel.
  destruct_world w.
  split; [by vm_compute|]. split; [|repeat (split; [by vm_compute|]); by vm_compute].
  unfold joinPartScenario, readLoopBody. generalize whoDue. intros due.
  vm_compute.
  repeat (match goal with |- context [due ?a ?b] => destruct (due a b) end; vm_compute).
  all: reflexivity.
Qed.

Lemma join_then_part_delivered_lines_witness :
  (joinPartScenario (getUserFromNewJoin (":a!b@c JOIN :#x" +:+ CRLF))
                    (removeNick (":a!b@c PART :#x" +:+ CRLF)) exampleWorld).1 = Ret ([], [])
  ∧ (joinPartScenario
       (readLoopBody id id exampleConn (":a!b@c JOIN :#x" +:+ CRLF) 1 2)
       (readLoopBody id id exampleConn (":a!b@c PART :#x" +:+ CRLF) 3 4) exampleWorld).1
    = Ret ([], [])
  ∧ (joinPartScenario (getUserFromNewJoin (":a!b@c JOIN :#x" +:+ LF))
                      (removeNick (":a!b@c PART :#x" +:+ LF)) exampleWorld).1 = Ret ([], [])
  ∧ users (irc (getUserFromNewJoin (":a!b@c JOIN :#x" +:+ CRLF) exampleWorld).2)
      = Some {[ "a" := User.mk "a" "" "" ("#x" +:+ CRLF) ]}
  ∧ ((getUserFromNewJoin (":a!b@c JOIN :#x" +:+ CRLF);; GetUsersForChannel) exampleWorld).1
    = Ret "".
Proof.
  apply (join_then_part_delivered_lines id id exampleConn exampleWorld exampleConfig 1 2 3 4);
    reflexivity.
Defined.

(** The reader delivers a line with its terminator. The channel of a JOIN
    line then keeps the terminator and the member is stored under a channel
    no snapshot of [#x] selects; the last nickname of a [353] line keeps the
    ['\r']. *)
Example join_line_with_terminator :
  let after := (readLoopBody id id exampleConn (":a!b@c JOIN :#x" +:+ CRLF) 0 0 exampleWorld).2 in
  users (irc after) = Some {[ "a" := User.mk "a" "" "" ("#x" +:+ CRLF) ]}
  ∧ (usersForChannel after).1 = Ret [].
Proof. split; by vm_compute. Qed.

Example names_line_with_terminator :
  let after := (readLoopBody id id exampleConn
                  (":srv 353 me = #x :@bob alice" +:+ CRLF) 0 0 exampleWorld).2 in
  (usersForChannel after).1 = Ret ["alice" +:+ CR; "bob"].
Proof. by vm_compute. Qed.

(** C1, which the code breaks. The loop body indexes the second token and
    slices the first four bytes without a check: a line without a space,
    such as the empty line [\r\n], makes it panic with an index out of
    range, the three-byte line [a \n] with a slice bound out of range, and
    the loop stops there whatever lines follow. *)
Theorem readLoopBody_panics_on_short_line
    (TrimFunc_IsSpace TrimRightFunc_IsSpace : string → string) c w t1 t2 :
  messagesLocked (irc w) = false →
  (∀ message, strings.Contains message " " = false →
     (readLoopBody TrimFunc_IsSpace TrimRightFunc_IsSpace c message t1 t2 w).1
       = Panic (IndexOutOfRange 1 1))
  ∧ (readLoopBody TrimFunc_IsSpace TrimRightFunc_IsSpace c CRLF t1 t2 w).1
      = Panic (IndexOutOfRange 1 1)
  ∧ (readLoopBody TrimFunc_IsSpace TrimRightFunc_IsSpace c ("a " +:+ LF) t1 t2 w).1
      = Panic (SliceOutOfRange 4 3)
  ∧ (∀ rest, (readLoop TrimFunc_IsSpace TrimRightFunc_IsSpace c
                (ReadLine CRLF t1 t2 :: rest) w).1 = Panic (IndexOutOfRange 1 1)).
Proof.
  intros Hl.
  assert (Hgen : ∀ message, strings.Contains message " " = false →
     (readLoopBody TrimFunc_IsSpace TrimRightFunc_IsSpace c message t1 t2 w).1
       = Panic (IndexOutOfRange 1 1)).
  { intros message Hno. destruct_world w. unfold_body.
    by rewrite (SplitN_no_space _ Hno). }
  split; [exact Hgen|]. split; [by apply Hgen|]. split.
  - destruct_world w. reflexivity.
  - intros rest. specialize (Hgen CRLF eq_refl).
    cbn [readLoop]. unfold mbind, M_bind, bind.
    by destruct (readLoopBody _ _ _ CRLF t1 t2 w) as [[] ?]; simplify_eq/=.
Qed.

Lemma readLoopBody_panics_on_short_line_witness :
  (∀ message, strings.Contains message " " = false →
     (readLoopBody id id exampleConn message 0 0 exampleWorld).1
       = Panic (IndexOutOfRange 1 1))
  ∧ (readLoopBody id id exampleConn CRLF 0 0 exampleWorld).1 = Panic (IndexOutOfRange 1 1)
  ∧ (readLoopBody id id exampleConn ("a " +:+ LF) 0 0 exampleWorld).1
      = Panic (SliceOutOfRange 4 3)
  ∧ (∀ rest, (readLoop id id exampleConn (ReadLine CRLF 0 0 :: rest) exampleWorld).1
       = Panic (IndexOutOfRange 1 1)).
Proof.
  apply (readLoopBody_panics_on_short_line id id exampleConn exampleWorld 0 0). reflexivity.
Defined.

(** ** Start-up *)

Ltac unfold_main :=
  unfold main, readConfig, connectToIRC, SendMessage, sendMessage, withLock, defer,
    Lock, Unlock, when, streq, connWrite, getConfig, emit, modify, get, exit, block,
    mbind, M_bind, bind, ret, panic;
  cbn -[applyDefaults String.append].

(** The sibling start-up failure: without the identity variables
    [connectToIRC] ends the process ([log.Fatal]) before anything is served. *)
Lemma main_missing_identity_exits os w data raw :
  envVarNickName w = "" →
  os_ReadFile os (envVarConfigFileName w) = Some data →
  json_Unmarshal os data = Some raw →
  ∃ w', main os w = (Exit 1, w')
    ∧ trace w' = trace w ++ [EvDiag (DiagConfig (applyDefaults raw)); EvDiag DiagEnvRequired].
Proof.
  intros Hn Hf Hj. destruct_world w. unfold_main. rewrite Hf, Hj. unfold_main.
  eexists. split; [reflexivity|]. cbn. by rewrite <- app_assoc.
Qed.

(** C2, which the code breaks. When [net.Dial] fails, [connectToIRC] prints
    the diagnostic and returns nil, and [main] goes on: it registers the
    handlers and serves the polling interface with no connection; a send
    then dereferences the nil connection. *)
Theorem main_dial_failure_still_serves os w data raw cfg :
  envVarNickName w ≠ "" →
  envVarUserName w ≠ "" →
  envVarRealName w ≠ "" →
  os_ReadFile os (envVarConfigFileName w) = Some data →
  json_Unmarshal os data = Some raw →
  applyDefaults raw = cfg →
  net_Dial os (IRCConfig.Server cfg) (IRCConfig.Port cfg) = false →
  http_ListenAndServe_fails os (IRCConfig.WebServerPortNumber cfg) = false →
  ∃ w', main os w = (Blocked (InListenAndServe (IRCConfig.WebServerPortNumber cfg)), w')
    ∧ conn (irc w') = None
    ∧ trace w' =
        trace w ++
          [EvDiag (DiagConfig cfg);
           EvDiag (DiagConnectFailed (IRCConfig.Server cfg) (IRCConfig.Port cfg));
           EvHandleFunc "/";
           EvHandleFunc endPointGetMessagesForChannel;
           EvHandleFunc endPointGetUsersForChannel;
           EvHandleFunc endPointSendMessage]
    ∧ (messagesLocked (irc w) = false →
       ∀ chatRoom message, (SendMessage chatRoom message w').1 = Panic NilDereference).
Proof.
  intros Hn Hu Hr Hf Hj Hcfg Hd Hs. destruct_world w. unfold_main.
  rewrite Hf, Hj. unfold_main.
  rewrite !bool_decide_eq_false_2 by done. unfold_main.
  rewrite Hd. unfold_main. rewrite Hs.
  eexists. split; [reflexivity|]. cbn. split; [done|].
  split; [by rewrite <- !app_assoc|].
  intros -> chatRoom message. reflexivity.
Qed.

Lemma main_dial_failure_still_serves_witness :
  ∃ w', main (exampleOS false) (initialWorld "me" "me" "Me" "smirc.conf" 0) =
          (Blocked (InListenAndServe 8080), w')
    ∧ conn (irc w') = None
    ∧ trace w' =
        [] ++
          [EvDiag (DiagConfig (IRCConfig.mk "irc.freenode.net" 6667 "#midnightcafe" 8080));
           EvDiag (DiagConnectFailed "irc.freenode.net" 6667);
           EvHandleFunc "/";
           EvHandleFunc endPointGetMessagesForChannel;
           EvHandleFunc endPointGetUsersForChannel;
           EvHandleFunc endPointSendMessage]
    ∧ (false = false →
       ∀ chatRoom message, (SendMessage chatRoom message w').1 = Panic NilDereference).
Proof.
  apply (main_dial_failure_still_serves (exampleOS false)
           (initialWorld "me" "me" "Me" "smirc.conf" 0) "{}" (IRCConfig.mk "" 0 "" 0)
           (IRCConfig.mk "irc.freenode.net" 6667 "#midnightcafe" 8080));
    (reflexivity || discriminate).
Defined.

(** When everything succeeds [main] registers with the server and serves. *)
Example main_connected :
  let after := main (exampleOS true) (initialWorld "me" "me" "Me" "smirc.conf" 0) in
  after.1 = Blocked (InListenAndServe 8080)
  ∧ conn (irc after.2) = Some (tcpConn "irc.freenode.net" 6667)
  ∧ users (irc after.2) = Some ∅
  ∧ trace after.2 =
      [EvDiag (DiagConfig (IRCConfig.mk "irc.freenode.net" 6667 "#midnightcafe" 8080));
       EvConnWrite (tcpConn "irc.freenode.net" 6667) ("USER me 0 * :realname" +:+ CRLF);
       EvConnWrite (tcpConn "irc.freenode.net" 6667) ("NICK me" +:+ CRLF);
       EvHandleFunc "/";
       EvHandleFunc endPointGetMessagesForChannel;
       EvHandleFunc endPointGetUsersForChannel;
       EvHandleFunc endPointSendMessage].
Proof. repeat split. Qed.

(** ** The other shapes the read loop decodes *)

(** A liveness probe is answered by one PONG frame with the same payload. *)
Example ping_is_answered :
  trace (readLoopBody id id exampleConn ("PING :server123" +:+ CRLF) 0 0 exampleWorld).2 =
    [EvStdout ("PING :server123" +:+ CRLF);
     EvLock messagesMutex; EvUnlock messagesMutex;
     EvLog (">> PONG :server123" +:+ CRLF +:+ LF +:+ LF);
     EvConnWrite exampleConn ("PONG :server123" +:+ CRLF +:+ CRLF)].
Proof. by vm_compute. Qed.

(** The welcome reply makes the client join the configured channel. *)
Example welcome_joins :
  trace (readLoopBody id id exampleConn (":srv 001 me :Welcome" +:+ CRLF) 0 0 exampleWorld).2 =
    [EvStdout (":srv 001 me :Welcome" +:+ CRLF);
     EvLock messagesMutex; EvUnlock messagesMutex;
     EvLog (">> JOIN #x" +:+ LF +:+ LF);
     EvConnWrite exampleConn ("JOIN #x" +:+ CRLF)].
Proof. by vm_compute. Qed.

(** A message to the channel is logged twice: raw, and under the channel
    with its author and its text trimmed. *)
Example channel_message_is_logged :
  messages (irc (readLoopBody id id exampleConn
                   (":u1!h@s PRIVMSG #x :hello there " +:+ CRLF) 0 0 exampleWorld).2) =
    [IRCMessage.mk "" "" (":u1!h@s PRIVMSG #x :hello there " +:+ CRLF);
     IRCMessage.mk "#x" "u1" "hello there"].
Proof. by vm_compute. Qed.

(** A WHO reply upserts the member it describes. *)
Example who_reply_upserts :
  users (irc (readLoopBody id id exampleConn
                (":srv 352 me #x web-50 host.example srv.example web-50 H@ :0 kiwi" +:+ CRLF)
                0 0 exampleWorld).2) =
    Some {[ "web-50" := User.mk "web-50" "host.example" "srv.example" "#x" ]}.
Proof. by vm_compute. Qed.

(** The roster refresh goes out once the interval has passed, and the timer
    is reset. *)
Example who_refresh :
  let after := (readLoopBody id id exampleConn (":srv NOTICE me :hi" +:+ CRLF)
                  (whoInterval + 1) (whoInterval + 2) exampleWorld).2 in
  lastWho after = (whoInterval + 2)%Z
  ∧ writesUnder messagesMutex false (trace after) = [("WHO #x" +:+ CRLF, false)].
Proof. by vm_compute. Qed.

(** * Further properties *)

(** ** Orderly calls: no waiting, no lock left held, an append-only log *)

Ltac solve_grows :=
  repeat (split; [first [done | by repeat apply prefix_app_r]|]);
  first [done | by repeat apply prefix_app_r].

Lemma grows_refl w : grows w w.
Proof. solve_grows. Qed.

Lemma grows_trans w1 w2 w3 : grows w1 w2 → grows w2 w3 → grows w1 w3.
Proof.
  intros (A1 & A2 & A3 & A4 & A5 & A6 & A7 & A8) (B1 & B2 & B3 & B4 & B5 & B6 & B7 & B8).
  repeat (split; [congruence|]). split; by etrans.
Qed.

Lemma quiet_ret {A} (a : A) : quiet (ret a).
Proof. intros w. repeat (split; [done|]). apply grows_refl. Qed.

Lemma quiet_mret {A} (a : A) : quiet (mret a : M A).
Proof. apply quiet_ret. Qed.

Lemma quiet_panic {A} why : quiet (@panic A why).
Proof. intros w. repeat (split; [done|]). apply grows_refl. Qed.

Lemma quiet_get : quiet get.
Proof. intros w. repeat (split; [done|]). apply grows_refl. Qed.

Lemma quiet_emit e : quiet (emit e).
Proof. intros w. destruct_world w. solve_grows. Qed.

Lemma quiet_bind {A B} (m : M A) (k : A → M B) :
  quiet m → (∀ a, quiet (k a)) → quiet (m ≫= k).
Proof.
  intros Hm Hk w. specialize (Hm w). unfold mbind, M_bind, bind.
  destruct (m w) as [[a|why|code|on] w1]; simpl in *; try tauto.
  destruct Hm as (_ & Hl1 & Hl2 & Hg).
  destruct (Hk a w1) as (Hc & Hl1' & Hl2' & Hg').
  split; [done|]. split; [congruence|]. split; [congruence|].
  by eapply grows_trans.
Qed.

Lemma quiet_when cond body : quiet body → quiet (when cond body).
Proof. intros Hb. destruct cond; [done|apply quiet_ret]. Qed.

Lemma quiet_getConfig : quiet getConfig.
Proof.
  apply quiet_bind; [apply quiet_get|]. intros w.
  destruct (config (irc w)); [apply quiet_ret|apply quiet_panic].
Qed.

Lemma quiet_connWrite c frame : quiet (connWrite c frame).
Proof. destruct c; [apply quiet_emit|apply quiet_panic]. Qed.

Lemma quiet_index {A} (a : list A) i : quiet (index a i).
Proof. unfold index. destruct (a !! i); [apply quiet_ret|apply quiet_panic]. Qed.

Lemma quiet_slice s lo hi : quiet (slice s lo hi).
Proof. unfold slice. destruct (strings.Slice s lo hi); [apply quiet_ret|apply quiet_panic]. Qed.

Lemma quiet_sliceFrom s lo : quiet (sliceFrom s lo).
Proof.
  unfold sliceFrom. destruct (strings.SliceFrom s lo); [apply quiet_ret|apply quiet_panic].
Qed.

Lemma quiet_append_message x :
  quiet (modify (setIRC (λ i, setMessages (messages i ++ [x]) i))).
Proof.
  intros w. destruct_world w. solve_grows.
Qed.

Lemma quiet_set_users f :
  quiet (modify (setIRC (λ i, setUsers (f (users i)) i))).
Proof. intros w. destruct_world w. solve_grows. Qed.

Lemma quiet_setLastWho t : quiet (modify (setLastWho t)).
Proof. intros w. destruct_world w. solve_grows. Qed.

Lemma quiet_sendMessage c channel message : quiet (sendMessage c channel message).
Proof. apply quiet_bind; [apply quiet_emit|]. intros _. apply quiet_connWrite. Qed.

Lemma quiet_collectUsers entries : ∀ acc, quiet (collectUsers entries acc).
Proof.
  induction entries as [|[k u] entries IH]; intros acc; [apply quiet_ret|].
  cbn [collectUsers]. apply quiet_bind; [apply quiet_getConfig|].
  intros cfg. destruct (streq _ _); apply IH.
Qed.

Lemma quiet_Join : quiet Join.
Proof.
  repeat (apply quiet_bind; [first [apply quiet_getConfig|apply quiet_emit|apply quiet_get]|];
          intros ?).
  apply quiet_connWrite.
Qed.

Lemma quiet_Pong message : quiet (Pong message).
Proof.
  repeat (apply quiet_bind;
          [first [apply quiet_sliceFrom|apply quiet_emit|apply quiet_get]|]; intros ?).
  apply quiet_connWrite.
Qed.

Lemma orderly_quiet {A} (m : M A) : quiet m → orderly m.
Proof.
  intros Hm w [H1 H2]. unfold comesBack. destruct (Hm w) as (Hc & Hl1 & Hl2 & Hg).
  split; [done|]. split; [|done]. split; congruence.
Qed.

Lemma orderly_bind {A B} (m : M A) (k : A → M B) :
  orderly m → (∀ a, orderly (k a)) → orderly (m ≫= k).
Proof.
  intros Hm Hk w Hw. specialize (Hm w Hw). unfold orderly, comesBack in *.
  unfold mbind, M_bind, bind.
  destruct (m w) as [[a|why|code|on] w1]; simpl in *; try tauto.
  destruct Hm as (_ & Hl & Hg).
  destruct (Hk a w1 Hl) as (Hc & Hl' & Hg').
  split; [done|]. split; [done|]. by eapply grows_trans.
Qed.

Lemma orderly_when cond body : orderly body → orderly (when cond body).
Proof. intros Hb. destruct cond; [done|apply orderly_quiet, quiet_ret]. Qed.

Lemma orderly_forRange {A} (l : list A) body :
  (∀ x, orderly (body x)) → orderly (forRange l body).
Proof.
  intros Hb. induction l as [|x l IH]; [apply orderly_quiet, quiet_ret|].
  cbn [forRange]. apply orderly_bind; [apply Hb|]. intros _. apply IH.
Qed.

Lemma orderly_withLock {A} mu (body : M A) : quiet body → orderly (withLock mu body).
Proof.
  intros Hb w [H1 H2]. unfold comesBack.
  specialize (Hb (emitEvent (EvLock mu) (setIRC (setLocked mu true) w))).
  unfold withLock, defer, Lock, Unlock, mbind, M_bind, bind, get, modify, emit, ret, panic.
  simpl.
  assert (Hf : locked mu (irc w) = false) by (by destruct mu).
  rewrite Hf. simpl.
  destruct (body _) as [[a|why|code|on] w1]; simpl in *; try tauto.
  - destruct Hb as (_ & Hl1 & Hl2 & Hg).
    assert (Hh : locked mu (irc w1) = true).
    { destruct mu; simpl; [rewrite Hl1|rewrite Hl2]; by destruct_world w. }
    rewrite Hh. simpl. split; [done|].
    destruct_world w. destruct_world w1.
    destruct Hg as (? & ? & ? & ? & ? & ? & ? & Ht). apply prefix_app_l in Ht.
    destruct mu; simpl in *; subst; (split; [done|]); solve_grows.
  - destruct Hb as (_ & Hl1 & Hl2 & Hg).
    assert (Hh : locked mu (irc w1) = true).
    { destruct mu; simpl; [rewrite Hl1|rewrite Hl2]; by destruct_world w. }
    rewrite Hh. simpl. split; [done|].
    destruct_world w. destruct_world w1.
    destruct Hg as (? & ? & ? & ? & ? & ? & ? & Ht). apply prefix_app_l in Ht.
    destruct mu; simpl in *; subst; (split; [done|]); solve_grows.
Qed.

Lemma quiet_modify_irc g :
  (∀ i, messagesLocked (g i) = messagesLocked i
        ∧ usersLocked (g i) = usersLocked i
        ∧ config (g i) = config i
        ∧ conn (g i) = conn i
        ∧ messages i `prefix_of` messages (g i)) →
  quiet (modify (setIRC g)).
Proof.
  intros Hg w. destruct w as [? ? ? ? ? i ?]. destruct (Hg i) as (? & ? & ? & ? & ?).
  by repeat split.
Qed.

Lemma orderly_AddIncomingMessage chatRoom userName message :
  orderly (AddIncomingMessage chatRoom userName message).
Proof. apply orderly_withLock, quiet_append_message. Qed.

Lemma orderly_SendMessage chatRoom message : orderly (SendMessage chatRoom message).
Proof.
  apply orderly_withLock.
  apply quiet_bind; [apply quiet_get|]. intros w.
  apply quiet_bind; [apply quiet_append_message|]. intros _.
  apply quiet_bind; [apply quiet_get|]. intros w'.
  apply quiet_bind; [apply quiet_getConfig|]. intros cfg.
  apply quiet_sendMessage.
Qed.

Lemma orderly_GetMessagesForChatRoom channel : orderly (GetMessagesForChatRoom channel).
Proof.
  apply orderly_withLock. apply quiet_bind; [apply quiet_get|]. intros w. apply quiet_ret.
Qed.

Lemma quiet_usersForChannelIn order : quiet (usersForChannelIn order).
Proof. apply quiet_bind; [apply quiet_collectUsers|]. intros users. apply quiet_ret. Qed.

Lemma orderly_GetUsersForChannel : orderly GetUsersForChannel.
Proof.
  apply orderly_withLock. apply quiet_bind; [apply quiet_get|]. intros w.
  apply quiet_bind; [apply quiet_usersForChannelIn|]. intros users. apply quiet_ret.
Qed.

Lemma orderly_ResetUsersForChannel : orderly ResetUsersForChannel.
Proof. apply orderly_withLock, quiet_modify_irc. intros []. by repeat split. Qed.

Lemma orderly_RemoveUser nickname : orderly (RemoveUser nickname).
Proof. apply orderly_withLock, quiet_modify_irc. intros []. by repeat split. Qed.

Lemma orderly_AddUserForChannel user : orderly (AddUserForChannel user).
Proof.
  apply orderly_withLock. apply quiet_bind; [apply quiet_get|]. intros w.
  destruct (users (irc w)); [|apply quiet_panic].
  apply quiet_modify_irc. intros []. by repeat split.
Qed.

Lemma orderly_getUserFromNewJoin message : orderly (getUserFromNewJoin message).
Proof.
  repeat (apply orderly_bind; [apply orderly_quiet, quiet_index|]; intros ?).
  apply orderly_AddUserForChannel.
Qed.

Lemma orderly_removeNick message : orderly (removeNick message).
Proof.
  repeat (apply orderly_bind; [apply orderly_quiet, quiet_index|]; intros ?).
  apply orderly_RemoveUser.
Qed.

Lemma orderly_getUsersFrom353 message : orderly (getUsersFrom353 message).
Proof.
  unfold getUsersFrom353. destruct (_ <? _)%nat; [apply orderly_quiet, quiet_ret|].
  apply orderly_forRange. intros [idx user].
  destruct (_ <? _)%nat; [apply orderly_quiet, quiet_ret|].
  apply orderly_bind; [apply orderly_quiet, quiet_index|]. intros p4.
  apply orderly_AddUserForChannel.
Qed.

Lemma orderly_getUsersFrom352 message : orderly (getUsersFrom352 message).
Proof.
  unfold getUsersFrom352. destruct (_ <? _)%nat; [apply orderly_quiet, quiet_ret|].
  repeat (apply orderly_bind; [apply orderly_quiet, quiet_index|]; intros ?).
  apply orderly_AddUserForChannel.
Qed.

Lemma orderly_readLoopBody TrimFunc_IsSpace TrimRightFunc_IsSpace c message t1 t2 :
  orderly (readLoopBody TrimFunc_IsSpace TrimRightFunc_IsSpace c message t1 t2).
Proof.
  unfold readLoopBody.
  apply orderly_bind; [apply orderly_quiet, quiet_emit|]. intros _.
  apply orderly_bind; [apply orderly_AddIncomingMessage|]. intros _.
  apply orderly_bind; [apply orderly_quiet, quiet_index|]. intros messageCode.
  apply orderly_bind; [apply orderly_when, orderly_quiet, quiet_Join|]. intros _.
  apply orderly_bind; [apply orderly_quiet, quiet_slice|]. intros head.
  apply orderly_bind; [apply orderly_when, orderly_quiet, quiet_Pong|]. intros _.
  apply orderly_bind; [apply orderly_quiet, quiet_getConfig|]. intros cfg.
  apply orderly_bind.
  { apply orderly_when, orderly_when.
    repeat (apply orderly_bind; [apply orderly_quiet, quiet_index|]; intros ?).
    apply orderly_bind; [apply orderly_quiet, quiet_getConfig|]. intros cfg1.
    apply orderly_bind; [apply orderly_quiet, quiet_emit|]. intros _.
    apply orderly_bind; [apply orderly_quiet, quiet_getConfig|]. intros cfg2.
    apply orderly_AddIncomingMessage. }
  intros _.
  apply orderly_bind; [apply orderly_when, orderly_getUsersFrom353|]. intros _.
  apply orderly_bind; [apply orderly_when, orderly_getUsersFrom352|]. intros _.
  apply orderly_bind; [apply orderly_quiet, quiet_get|]. intros w.
  apply orderly_bind.
  { apply orderly_when, orderly_quiet.
    apply quiet_bind; [apply quiet_getConfig|]. intros cfg1.
    apply quiet_bind; [apply quiet_connWrite|]. intros _.
    apply quiet_setLastWho. }
  intros _.
  apply orderly_bind; [apply orderly_when, orderly_getUserFromNewJoin|]. intros _.
  apply orderly_when, orderly_removeNick.
Qed.

Lemma orderly_handlerSendMessage r : orderly (handlerSendMessage r).
Proof.
  destruct r as [err|values]; cbn [handlerSendMessage].
  - apply orderly_quiet. apply quiet_bind; [apply quiet_emit|]. intros _. apply quiet_ret.
  - apply orderly_bind; [apply orderly_quiet, quiet_getConfig|]. intros cfg.
    apply orderly_bind; [apply orderly_SendMessage|]. intros _.
    apply orderly_quiet, quiet_ret.
Qed.

Lemma orderly_handlerGetMessagesForChannel : orderly handlerGetMessagesForChannel.
Proof.
  apply orderly_bind; [apply orderly_quiet, quiet_getConfig|]. intros cfg.
  apply orderly_bind; [apply orderly_GetMessagesForChatRoom|]. intros history.
  apply orderly_quiet, quiet_ret.
Qed.

Lemma orderly_handlerGetUsersForChannel : orderly handlerGetUsersForChannel.
Proof.
  apply orderly_bind; [apply orderly_GetUsersForChannel|]. intros users.
  apply orderly_quiet, quiet_ret.
Qed.

(** X1. An iteration of the read loop takes and releases its locks in
    pairs, on every path. Started with both mutexes free and run without
    another thread taking a mutex meanwhile (one thread is modelled), it
    returns or it panics, whatever the line: it does not end in
    [log.Fatal] and does not wait for a mutex it holds itself. Either way
    both mutexes are free afterwards (the deferred unlocks run before a
    panic leaves the method), the identity, the configuration and the
    connection are as they were, and the log and the record of effects have
    only grown at their end. A panic is not recovered in this goroutine and
    then ends the process; waiting for a mutex that a handler holds is not
    part of this statement. *)
Theorem readLoopBody_releases_its_locks
    (TrimFunc_IsSpace TrimRightFunc_IsSpace : string → string) c message t1 t2 w :
  lockFree w →
  ((readLoopBody TrimFunc_IsSpace TrimRightFunc_IsSpace c message t1 t2 w).1 = Ret tt
   ∨ ∃ why,
       (readLoopBody TrimFunc_IsSpace TrimRightFunc_IsSpace c message t1 t2 w).1 = Panic why)
  ∧ lockFree (readLoopBody TrimFunc_IsSpace TrimRightFunc_IsSpace c message t1 t2 w).2
  ∧ grows w (readLoopBody TrimFunc_IsSpace TrimRightFunc_IsSpace c message t1 t2 w).2.
Proof.
  intros Hw.
  destruct (orderly_readLoopBody TrimFunc_IsSpace TrimRightFunc_IsSpace c message t1 t2 w Hw)
    as (Hc & Hl & Hg).
  split; [|by split].
  destruct (readLoopBody _ _ c message t1 t2 w) as [[[]|why|code|on] w1];
    simpl in Hc; [by left|right; by eexists|done|done].
Qed.

Lemma readLoopBody_releases_its_locks_witness :
  ((readLoopBody id id exampleConn CRLF 0 0 exampleWorld).1 = Ret tt
   ∨ ∃ why, (readLoopBody id id exampleConn CRLF 0 0 exampleWorld).1 = Panic why)
  ∧ lockFree (readLoopBody id id exampleConn CRLF 0 0 exampleWorld).2
  ∧ grows exampleWorld (readLoopBody id id exampleConn CRLF 0 0 exampleWorld).2.
Proof.
  apply (readLoopBody_releases_its_locks id id exampleConn CRLF 0 0 exampleWorld).
  split; reflexivity.
Defined.

(** X2. Every method of [IRC] and every handler that is called with both
    mutexes free comes back with both free, also when it panics (a nil
    connection, a nil configuration, a nil map), and never waits for a mutex
    it holds itself; none of them changes the identity, the configuration or
    the connection, and none removes or changes a logged line. *)
Theorem methods_come_back_with_locks_free w :
  lockFree w →
  (∀ chatRoom userName message, comesBack (AddIncomingMessage chatRoom userName message) w)
  ∧ (∀ chatRoom message, comesBack (SendMessage chatRoom message) w)
  ∧ (∀ channel, comesBack (GetMessagesForChatRoom channel) w)
  ∧ comesBack GetUsersForChannel w
  ∧ comesBack ResetUsersForChannel w
  ∧ (∀ nickname, comesBack (RemoveUser nickname) w)
  ∧ (∀ user, comesBack (AddUserForChannel user) w)
  ∧ (∀ r, comesBack (handlerSendMessage r) w)
  ∧ comesBack handlerGetMessagesForChannel w
  ∧ comesBack handlerGetUsersForChannel w.
Proof.
  intros Hw. repeat split; intros;
    first [ by apply orderly_AddIncomingMessage | by apply orderly_SendMessage
          | by apply orderly_GetMessagesForChatRoom | by apply orderly_GetUsersForChannel
          | by apply orderly_ResetUsersForChannel | by apply orderly_RemoveUser
          | by apply orderly_AddUserForChannel | by apply orderly_handlerSendMessage
          | by apply orderly_handlerGetMessagesForChannel
          | by apply orderly_handlerGetUsersForChannel ].
Qed.

Lemma methods_come_back_with_locks_free_witness :
  (∀ chatRoom userName message,
     comesBack (AddIncomingMessage chatRoom userName message) exampleWorld)
  ∧ (∀ chatRoom message, comesBack (SendMessage chatRoom message) exampleWorld)
  ∧ (∀ channel, comesBack (GetMessagesForChatRoom channel) exampleWorld)
  ∧ comesBack GetUsersForChannel exampleWorld
  ∧ comesBack ResetUsersForChannel exampleWorld
  ∧ (∀ nickname, comesBack (RemoveUser nickname) exampleWorld)
  ∧ (∀ user, comesBack (AddUserForChannel user) exampleWorld)
  ∧ (∀ r, comesBack (handlerSendMessage r) exampleWorld)
  ∧ comesBack handlerGetMessagesForChannel exampleWorld
  ∧ comesBack handlerGetUsersForChannel exampleWorld.
Proof.
  apply (methods_come_back_with_locks_free exampleWorld). split; reflexivity.
Defined.

(** ** Splitting a line into tokens *)

Lemma splitLoop_cons cuts s sep : ∃ x l, strings.splitLoop cuts s sep = x :: l.
Proof.
  destruct cuts as [|cuts]; simpl; [by eauto|].
  destruct (strings.Index s sep); eauto.
Qed.

(** [strings.Split] never returns an empty slice. *)
Lemma Split_first s sep : is_Some (strings.Split s sep !! 0).
Proof.
  unfold strings.Split, strings.genSplit.
  change (-1 =? 0)%Z with false. cbv iota.
  by destruct (splitLoop_cons
       ((if (len s + 1 <? (if (-1 <? 0)%Z then strings.Count s sep + 1 else Z.to_nat (-1)))%nat
         then len s + 1
         else if (-1 <? 0)%Z then strings.Count s sep + 1 else Z.to_nat (-1)) - 1) s sep)
    as (x & l & ->).
Qed.

Lemma Index_Some_nonempty s m : strings.Index s " " = Some m → 1 ≤ len s.
Proof. destruct s; [done|]. intros _. cbn [String.length]. lia. Qed.

(** A line with a space has a second token. *)
Lemma SplitN_second message :
  strings.Contains message " " = true →
  is_Some (strings.SplitN message " " 3 !! 1).
Proof.
  unfold strings.Contains, strings.SplitN, strings.genSplit.
  destruct (strings.Index message " ") as [m|] eqn:Hi; [|done]. intros _.
  apply Index_Some_nonempty in Hi as Hlen.
  change (3 =? 0)%Z with false. change (3 <? 0)%Z with false. cbv iota.
  change (Z.to_nat 3) with 3.
  destruct ((if (len message + 1 <? 3)%nat then len message + 1 else 3) - 1) as [|k] eqn:Hk.
  { destruct (len message + 1 <? 3)%nat; lia. }
  cbn [strings.splitLoop]. rewrite Hi.
  by destruct (splitLoop_cons k (strings.drop_bytes (m + len " ") message) " ")
    as (x & l & ->).
Qed.

Lemma countLoop_le fuel s sep : strings.countLoop fuel s sep ≤ fuel.
Proof.
  revert s. induction fuel as [|fuel IH]; intros s; simpl; [done|].
  destruct (strings.Index s sep); [|lia]. specialize (IH (strings.drop_bytes (n + len sep) s)). lia.
Qed.

Lemma Split_unfold s sep :
  strings.Split s sep = strings.splitLoop (strings.Count s sep) s sep.
Proof.
  unfold strings.Split, strings.genSplit.
  change (-1 =? 0)%Z with false. change (-1 <? 0)%Z with true. cbv iota.
  pose proof (countLoop_le (len s) s sep) as Hle. fold (strings.Count s sep) in Hle.
  destruct (len s + 1 <? strings.Count s sep + 1)%nat eqn:E.
  - apply Nat.ltb_lt in E. lia.
  - f_equal. lia.
Qed.

Lemma len_drop_bytes n s : len (strings.drop_bytes n s) = len s - n.
Proof.
  revert s. induction n as [|n IH]; intros [|a s]; simpl; auto.
Qed.

Lemma Index_space_bound s m : strings.Index s " " = Some m → m + 1 ≤ len s.
Proof.
  revert m. induction s as [|a s IH]; intros m; [done|].
  cbn [strings.Index]. destruct (strings.HasPrefix (String a s) " ").
  - intros [= <-]. simpl. lia.
  - destruct (strings.Index s " ") as [m'|]; [|done]. intros [= <-].
    specialize (IH m' eq_refl). simpl. lia.
Qed.

(** Two spaces make three tokens. *)
Lemma Split_third s m1 m2 :
  strings.Index s " " = Some m1 →
  strings.Index (strings.drop_bytes (m1 + 1) s) " " = Some m2 →
  is_Some (strings.Split s " " !! 2).
Proof.
  intros H1 H2. rewrite Split_unfold. unfold strings.Count.
  pose proof (Index_space_bound _ _ H1) as B1.
  pose proof (Index_space_bound _ _ H2) as B2.
  rewrite len_drop_bytes in B2.
  destruct (len s) as [|[|fuel]] eqn:Hlen; [lia..|].
  cbn [strings.countLoop]. rewrite H1.
  change (len " ") with 1. rewrite H2.
  cbn [strings.splitLoop]. rewrite H1. change (len " ") with 1. rewrite H2.
  by destruct (splitLoop_cons
       (strings.countLoop fuel
          (strings.drop_bytes (m2 + 1) (strings.drop_bytes (m1 + 1) s)) " ")
       (strings.drop_bytes (m2 + 1) (strings.drop_bytes (m1 + 1) s)) " ") as (x & l & ->).
Qed.

Lemma two_spaces_cons a s m1 m2 :
  strings.Index s " " = Some m1 →
  strings.Index (strings.drop_bytes (m1 + 1) s) " " = Some m2 →
  ∃ n1 n2, strings.Index (String a s) " " = Some n1
           ∧ strings.Index (strings.drop_bytes (n1 + 1) (String a s)) " " = Some n2.
Proof.
  intros H1 H2. cbn [strings.Index].
  destruct (strings.HasPrefix (String a s) " ") eqn:Hp.
  - exists 0, m1. split; [done|]. exact H1.
  - exists (S m1), m2. rewrite H1. split; [done|]. exact H2.
Qed.

Lemma HasPrefix_split s prefix :
  strings.HasPrefix s prefix = true → ∃ rest, s = prefix +:+ rest.
Proof.
  revert s. induction prefix as [|p prefix IH]; intros s; [by exists s|].
  destruct s as [|a s]; [done|]. cbn [strings.HasPrefix].
  destruct (Ascii.eqb_spec a p) as [->|]; [|done].
  intros (rest & ->)%IH. by exists rest.
Qed.

(** A line with [" JOIN "] in it has a third token. *)
Lemma Split_third_JOIN message :
  strings.Contains message " JOIN " = true → is_Some (strings.Split message " " !! 2).
Proof.
  intros Hc.
  enough (∃ m1 m2, strings.Index message " " = Some m1
                   ∧ strings.Index (strings.drop_bytes (m1 + 1) message) " " = Some m2)
    as (m1 & m2 & H1 & H2) by by eapply Split_third.
  unfold strings.Contains in Hc.
  induction message as [|a s IH]; [done|].
  cbn [strings.Index] in Hc.
  destruct (strings.HasPrefix (String a s) " JOIN ") eqn:Hp.
  - apply HasPrefix_split in Hp as (rest & ->).
    exists 0, 4. split; destruct rest; by vm_compute.
  - destruct (strings.Index s " JOIN ") as [i|] eqn:Hi; [|done].
    destruct (IH eq_refl) as (m1 & m2 & H1 & H2).
    by eapply two_spaces_cons.
Qed.

(** A line of four bytes and more has its first four bytes. *)
Lemma Slice_first_four message : 4 ≤ len message → is_Some (strings.Slice message 0 4).
Proof.
  intros H. unfold strings.Slice.
  assert (E : (4 <=? len message)%nat = true) by (apply Nat.leb_le; lia).
  rewrite E. by eexists.
Qed.

(** A line that begins with [PING] and has a space has a fifth byte. *)
Lemma SliceFrom_five_PING message :
  strings.Slice message 0 4 = Some "PING" →
  strings.Contains message " " = true →
  is_Some (strings.SliceFrom message 5).
Proof.
  intros Hs Hc.
  destruct message as [|a [|b [|c0 [|d [|e s]]]]]; try done.
  - unfold strings.Slice in Hs. simpl in Hs. injection Hs as -> -> -> ->. done.
  - unfold strings.SliceFrom, strings.Slice.
    rewrite (proj2 (Nat.leb_le 5 _)) by (cbn [String.length]; lia).
    rewrite Nat.leb_refl. by eexists.
Qed.

(** ** Calls that return in the steady state *)

Section ReturnsReady.
Variable cfg : IRCConfig.t.
Variable c : netConn.

Lemma rr_ret {A} (P : A → Prop) a : P a → returnsReady cfg c P (ret a).
Proof. intros HP w Hw. by exists a, w. Qed.

Lemma rr_bind {A B} (P : A → Prop) (Q : B → Prop) (m : M A) (k : A → M B) :
  returnsReady cfg c P m → (∀ a, P a → returnsReady cfg c Q (k a)) →
  returnsReady cfg c Q (m ≫= k).
Proof.
  intros Hm Hk w Hw. destruct (Hm w Hw) as (a & w1 & Hr & Hw1 & Ha).
  destruct (Hk a Ha w1 Hw1) as (b & w2 & Hr2 & Hw2 & Hb).
  exists b, w2. unfold mbind, M_bind, bind. by rewrite Hr.
Qed.

Lemma rr_weaken {A} (P Q : A → Prop) (m : M A) :
  (∀ a, P a → Q a) → returnsReady cfg c P m → returnsReady cfg c Q m.
Proof.
  intros HPQ Hm w Hw. destruct (Hm w Hw) as (a & w1 & Hr & Hw1 & Ha). exists a, w1. auto.
Qed.

Lemma rr_when cond body :
  returnsReady cfg c (λ _, True) body → returnsReady cfg c (λ _, True) (when cond body).
Proof. intros Hb. destruct cond; [done|by apply rr_ret]. Qed.

Lemma rr_forRange {A} (l : list A) body :
  (∀ x, x ∈ l → returnsReady cfg c (λ _, True) (body x)) →
  returnsReady cfg c (λ _, True) (forRange l body).
Proof.
  induction l as [|x l IH]; intros Hb; [by apply rr_ret|].
  cbn [forRange]. eapply rr_bind; [apply Hb; by left|]. intros _ _.
  apply IH. intros y Hy. apply Hb. by right.
Qed.

Lemma ready_emitEvent e w : ready cfg c w → ready cfg c (emitEvent e w).
Proof. unfold ready, lockFree. by destruct_world w. Qed.

Lemma rr_emit e : returnsReady cfg c (λ _, True) (emit e).
Proof. intros w Hw. exists tt, (emitEvent e w). auto using ready_emitEvent. Qed.

Lemma rr_get : returnsReady cfg c (ready cfg c) get.
Proof. intros w Hw. by exists w, w. Qed.

Lemma rr_getConfig : returnsReady cfg c (λ x, x = cfg) getConfig.
Proof.
  intros w Hw. exists cfg, w. split; [|done].
  apply getConfig_run. by destruct Hw as (_ & ? & _).
Qed.

Lemma rr_connWrite frame : returnsReady cfg c (λ _, True) (connWrite (Some c) frame).
Proof. apply rr_emit. Qed.

Lemma rr_index {A} (a : list A) i :
  is_Some (a !! i) → returnsReady cfg c (λ x, a !! i = Some x) (index a i).
Proof. intros [x Hx]. unfold index. rewrite Hx. by apply rr_ret. Qed.

Lemma rr_slice s lo hi :
  is_Some (strings.Slice s lo hi) →
  returnsReady cfg c (λ x, strings.Slice s lo hi = Some x) (slice s lo hi).
Proof. intros [x Hx]. unfold slice. rewrite Hx. by apply rr_ret. Qed.

Lemma rr_sliceFrom s lo :
  is_Some (strings.SliceFrom s lo) →
  returnsReady cfg c (λ _, True) (sliceFrom s lo).
Proof. intros [x Hx]. unfold sliceFrom. rewrite Hx. by apply rr_ret. Qed.

Lemma rr_setLastWho t : returnsReady cfg c (λ _, True) (modify (setLastWho t)).
Proof.
  intros w Hw. exists tt, (setLastWho t w). split; [done|]. split; [|done].
  unfold ready, lockFree in *. by destruct_world w.
Qed.

Lemma rr_AddIncomingMessage chatRoom userName message :
  returnsReady cfg c (λ _, True) (AddIncomingMessage chatRoom userName message).
Proof.
  intros w Hw. eexists tt, _. unfold ready, lockFree in *.
  destruct Hw as ((Hm & Hu) & Hc & Hn & Hs).
  split; [by apply AddIncomingMessage_run|]. split; [|done]. by destruct_world w.
Qed.

Lemma rr_AddUserForChannel user :
  returnsReady cfg c (λ _, True) (AddUserForChannel user).
Proof.
  intros w Hw. unfold ready, lockFree in *.
  destruct Hw as ((Hm & Hu) & Hc & Hn & [m Hs]). eexists tt, _.
  split; [by apply (AddUserForChannel_run _ _ m)|]. split; [|done]. by destruct_world w.
Qed.

Lemma rr_RemoveUser nickname : returnsReady cfg c (λ _, True) (RemoveUser nickname).
Proof.
  intros w Hw. unfold ready, lockFree in *.
  destruct Hw as ((Hm & Hu) & Hc & Hn & [m Hs]). eexists tt, _.
  split; [by apply RemoveUser_run|]. split; [|done]. destruct_world w. by repeat split.
Qed.

Lemma rr_Join : returnsReady cfg c (λ _, True) Join.
Proof.
  unfold Join.
  eapply rr_bind; [apply rr_getConfig|]. intros ? ->.
  eapply rr_bind; [apply rr_emit|]. intros _ _.
  eapply rr_bind; [apply rr_get|]. intros w (_ & _ & -> & _).
  eapply rr_bind; [apply rr_getConfig|]. intros ? ->.
  apply rr_connWrite.
Qed.

Lemma rr_Pong message :
  is_Some (strings.SliceFrom message 5) → returnsReady cfg c (λ _, True) (Pong message).
Proof.
  intros H5. unfold Pong.
  eapply rr_bind; [by apply rr_sliceFrom|]. intros payload _.
  eapply rr_bind; [apply rr_emit|]. intros _ _.
  eapply rr_bind; [apply rr_get|]. intros w (_ & _ & -> & _).
  eapply rr_bind; [by apply rr_sliceFrom|]. intros payload' _.
  apply rr_connWrite.
Qed.

Lemma rr_getUserFromNewJoin message :
  strings.Contains message " JOIN " = true →
  returnsReady cfg c (λ _, True) (getUserFromNewJoin message).
Proof.
  intros Hj. unfold getUserFromNewJoin.
  eapply rr_bind; [apply rr_index, Split_first|]. intros p0 _.
  eapply rr_bind; [apply rr_index, Split_first|]. intros nick _.
  eapply rr_bind; [by apply rr_index, Split_third_JOIN|]. intros p2 _.
  apply rr_AddUserForChannel.
Qed.

Lemma rr_removeNick message : returnsReady cfg c (λ _, True) (removeNick message).
Proof.
  unfold removeNick.
  eapply rr_bind; [apply rr_index, Split_first|]. intros p0 _.
  eapply rr_bind; [apply rr_index, Split_first|]. intros nick _.
  apply rr_RemoveUser.
Qed.

Lemma rr_getUsersFrom353 message : returnsReady cfg c (λ _, True) (getUsersFrom353 message).
Proof.
  unfold getUsersFrom353.
  destruct (_ <? 5)%nat eqn:E; [by apply rr_ret|]. apply Nat.ltb_ge in E.
  apply rr_forRange. intros [idx user] _.
  destruct (_ <? _)%nat; [by apply rr_ret|].
  eapply rr_bind; [apply rr_index, lookup_lt_is_Some; lia|]. intros p4 _.
  apply rr_AddUserForChannel.
Qed.

Lemma rr_getUsersFrom352 message : returnsReady cfg c (λ _, True) (getUsersFrom352 message).
Proof.
  unfold getUsersFrom352.
  destruct (_ <? 9)%nat eqn:E; [by apply rr_ret|]. apply Nat.ltb_ge in E.
  repeat (eapply rr_bind; [apply rr_index, lookup_lt_is_Some; lia|]; intros ? _).
  apply rr_AddUserForChannel.
Qed.

Lemma rr_readLoopBody TrimFunc_IsSpace TrimRightFunc_IsSpace message t1 t2 :
  strings.Contains message " " = true →
  4 ≤ len message →
  returnsReady cfg c (λ _, True)
    (readLoopBody TrimFunc_IsSpace TrimRightFunc_IsSpace c message t1 t2).
Proof.
  intros Hsp Hlen. unfold readLoopBody.
  eapply rr_bind; [apply rr_emit|]. intros _ _.
  eapply rr_bind; [apply rr_AddIncomingMessage|]. intros _ _.
  eapply rr_bind; [by apply rr_index, SplitN_second|]. intros messageCode _.
  eapply rr_bind; [apply rr_when, rr_Join|]. intros _ _.
  eapply rr_bind; [by apply rr_slice, Slice_first_four|]. intros head Hhead.
  eapply (rr_bind (λ _, True)).
  { unfold when, streq. destruct (bool_decide (head = "PING")) eqn:Hp; [|by apply rr_ret].
    apply bool_decide_eq_true in Hp. subst head.
    by apply rr_Pong, SliceFrom_five_PING. }
  intros _ _.
  eapply rr_bind; [apply rr_getConfig|]. intros ? ->.
  eapply (rr_bind (λ _, True)).
  { apply rr_when. unfold when.
    destruct (length (strings.SplitN message ":" 3) =? 3)%nat eqn:E; [|by apply rr_ret].
    apply Nat.eqb_eq in E.
    eapply rr_bind; [apply rr_index, lookup_lt_is_Some; lia|]. intros p1 _.
    eapply rr_bind; [apply rr_index, Split_first|]. intros username _.
    eapply rr_bind; [apply rr_index, lookup_lt_is_Some; lia|]. intros p2 _.
    eapply rr_bind; [apply rr_getConfig|]. intros ? ->.
    eapply rr_bind; [apply rr_emit|]. intros _ _.
    eapply rr_bind; [apply rr_getConfig|]. intros ? ->.
    apply rr_AddIncomingMessage. }
  intros _ _.
  eapply rr_bind; [apply rr_when, rr_getUsersFrom353|]. intros _ _.
  eapply rr_bind; [apply rr_when, rr_getUsersFrom352|]. intros _ _.
  eapply rr_bind; [apply rr_get|]. intros w _.
  eapply (rr_bind (λ _, True)).
  { apply rr_when.
    eapply rr_bind; [apply rr_getConfig|]. intros ? ->.
    eapply rr_bind; [apply rr_connWrite|]. intros _ _.
    apply rr_setLastWho. }
  intros _ _.
  eapply (rr_bind (λ _, True)).
  { unfold when. destruct (strings.Contains message " JOIN ") eqn:Hj; [|by apply rr_ret].
    by apply rr_getUserFromNewJoin. }
  intros _ _.
  apply rr_when, rr_removeNick.
Qed.

End ReturnsReady.

(** X3. In the steady state (both mutexes free, configured, connected, the
    roster map made) an iteration of the read loop returns for every line
    that has a space and at least four bytes, whatever else the line
    holds, and leaves the process in the steady state: no index or slice of
    the decoders is out of range, and the loop goes on to the next line. *)
Theorem readLoopBody_returns_on_two_tokens
    (TrimFunc_IsSpace TrimRightFunc_IsSpace : string → string) cfg c message t1 t2 w :
  ready cfg c w →
  strings.Contains message " " = true →
  4 ≤ len message →
  ∃ w', readLoopBody TrimFunc_IsSpace TrimRightFunc_IsSpace c message t1 t2 w = (Ret tt, w')
        ∧ ready cfg c w'.
Proof.
  intros Hw Hsp Hlen.
  destruct (rr_readLoopBody cfg c TrimFunc_IsSpace TrimRightFunc_IsSpace
              message t1 t2 Hsp Hlen w Hw) as ([] & w' & Hr & Hw' & _).
  by exists w'.
Qed.

Lemma readLoopBody_returns_on_two_tokens_witness :
  ∃ w', readLoopBody id id exampleConn (":a!b@c JOIN :#x" +:+ CRLF) 0 0 exampleWorld
          = (Ret tt, w')
        ∧ ready exampleConfig exampleConn w'.
Proof.
  apply (readLoopBody_returns_on_two_tokens id id exampleConfig exampleConn
           (":a!b@c JOIN :#x" +:+ CRLF) 0 0 exampleWorld).
  - repeat split. by eexists.
  - reflexivity.
  - vm_compute. lia.
Defined.

(** ** Removing, resetting and listing members *)

(** X4. Removing a nickname that is not in the roster changes nothing and is
    no error, on a nil map as well; removing twice is removing once. *)
Theorem RemoveUser_absent_and_twice w nickname :
  usersLocked (irc w) = false →
  (RemoveUser nickname w).1 = Ret tt
  ∧ (∀ m, users (irc w) = Some m →
          m !! strings.Trim nickname nickCutset = None →
          users (irc (RemoveUser nickname w).2) = Some m)
  ∧ (users (irc w) = None → users (irc (RemoveUser nickname w).2) = None)
  ∧ ((RemoveUser nickname;; RemoveUser nickname) w).1 = Ret tt
  ∧ users (irc ((RemoveUser nickname;; RemoveUser nickname) w).2)
      = users (irc (RemoveUser nickname w).2).
Proof.
  intros Hl. unfold mbind, M_bind, bind.
  rewrite RemoveUser_run by done. cbn [fst snd].
  rewrite RemoveUser_run by (by destruct_world w). cbn [fst snd].
  split; [done|]. split; [|split; [|split; [done|]]].
  - intros m Hm Hnone. destruct_world w. simpl. f_equal. by apply delete_id.
  - intros Hm. by destruct_world w.
  - destruct (users (irc w)) as [m|] eqn:Hu; destruct_world w; simpl; [|done].
    f_equal. apply delete_id. by rewrite lookup_delete_eq.
Qed.

Lemma RemoveUser_absent_and_twice_witness :
  (RemoveUser "@ghost" exampleWorld).1 = Ret tt
  ∧ (∀ m, Some ∅ = Some m →
          m !! strings.Trim "@ghost" nickCutset = None →
          users (irc (RemoveUser "@ghost" exampleWorld).2) = Some m)
  ∧ (Some (∅ : gmap string User.t) = None →
     users (irc (RemoveUser "@ghost" exampleWorld).2) = None)
  ∧ ((RemoveUser "@ghost";; RemoveUser "@ghost") exampleWorld).1 = Ret tt
  ∧ users (irc ((RemoveUser "@ghost";; RemoveUser "@ghost") exampleWorld).2)
      = users (irc (RemoveUser "@ghost" exampleWorld).2).
Proof. apply (RemoveUser_absent_and_twice exampleWorld "@ghost"). reflexivity. Defined.

(** X5. Removing undoes an upsert: after [AddUserForChannel] of a member
    and [RemoveUser] of a nickname that trims to the same key, the roster
    holds no record under the key, and it is the roster from before when the
    key was free then. *)
Theorem upsert_then_remove w m user nickname :
  usersLocked (irc w) = false →
  users (irc w) = Some m →
  strings.Trim nickname nickCutset = strings.Trim (User.Nickname user) nickCutset →
  ((AddUserForChannel user;; RemoveUser nickname) w).1 = Ret tt
  ∧ users (irc ((AddUserForChannel user;; RemoveUser nickname) w).2)
      = Some (delete (strings.Trim nickname nickCutset) m)
  ∧ (m !! strings.Trim nickname nickCutset = None →
     users (irc ((AddUserForChannel user;; RemoveUser nickname) w).2) = Some m).
Proof.
  intros Hl Hm Hk. unfold mbind, M_bind, bind.
  rewrite (AddUserForChannel_run _ _ m) by done.
  rewrite RemoveUser_run by (by destruct_world w). cbn [fst snd].
  assert (Hu : users (irc (emitEvent (EvUnlock usersMutex) (emitEvent (EvLock usersMutex)
      (setIRC (λ i, setUsers (delete (strings.Trim nickname nickCutset) <$> users i) i)
         (emitEvent (EvUnlock usersMutex) (emitEvent (EvLock usersMutex)
            (setIRC (setUsers (Some (applyRosterOp m (Upsert user)))) w)))))))
    = Some (delete (strings.Trim nickname nickCutset) m)).
  { destruct_world w. simpl. rewrite Hk. by rewrite delete_insert_eq. }
  split; [done|]. split; [exact Hu|].
  intros Hnone. rewrite Hu. f_equal. by apply delete_id.
Qed.

Lemma upsert_then_remove_witness :
  ((AddUserForChannel (User.mk "@bob" "host" "srv" "#x");; RemoveUser ":bob") exampleWorld).1
    = Ret tt
  ∧ users (irc ((AddUserForChannel (User.mk "@bob" "host" "srv" "#x");;
                 RemoveUser ":bob") exampleWorld).2)
      = Some (delete (strings.Trim ":bob" nickCutset) ∅)
  ∧ ((∅ : gmap string User.t) !! strings.Trim ":bob" nickCutset = None →
     users (irc ((AddUserForChannel (User.mk "@bob" "host" "srv" "#x");;
                  RemoveUser ":bob") exampleWorld).2) = Some ∅).
Proof.
  apply (upsert_then_remove exampleWorld ∅ (User.mk "@bob" "host" "srv" "#x") ":bob");
    reflexivity.
Defined.

(** X6. [ResetUsersForChannel] leaves a nil map, not an empty one: the
    snapshot is then empty and a removal is harmless, but every upsert
    panics on the assignment to the nil map (and releases the roster lock on
    its way out). *)
Theorem reset_leaves_nil_map w :
  usersLocked (irc w) = false →
  (ResetUsersForChannel w).1 = Ret tt
  ∧ users (irc (ResetUsersForChannel w).2) = None
  ∧ (GetUsersForChannel (ResetUsersForChannel w).2).1 = Ret ""
  ∧ (∀ nickname, (RemoveUser nickname (ResetUsersForChannel w).2).1 = Ret tt)
  ∧ (∀ user,
       (AddUserForChannel user (ResetUsersForChannel w).2).1 = Panic NilMapAssignment
       ∧ usersLocked (irc (AddUserForChannel user (ResetUsersForChannel w).2).2) = false).
Proof.
  intros Hl. destruct_world w. repeat split.
Qed.

Lemma reset_leaves_nil_map_witness :
  (ResetUsersForChannel exampleWorld).1 = Ret tt
  ∧ users (irc (ResetUsersForChannel exampleWorld).2) = None
  ∧ (GetUsersForChannel (ResetUsersForChannel exampleWorld).2).1 = Ret ""
  ∧ (∀ nickname, (RemoveUser nickname (ResetUsersForChannel exampleWorld).2).1 = Ret tt)
  ∧ (∀ user,
       (AddUserForChannel user (ResetUsersForChannel exampleWorld).2).1
         = Panic NilMapAssignment
       ∧ usersLocked (irc (AddUserForChannel user (ResetUsersForChannel exampleWorld).2).2)
           = false).
Proof. apply (reset_leaves_nil_map exampleWorld). reflexivity. Defined.

Lemma filter_indexed_drop {A} (l : list A) : ∀ n k,
  snd <$> filter (λ p : nat * A, n ≤ p.1) (imap (λ i u, (k + i, u)) l) = drop (n - k) l.
Proof.
  induction l as [|x l IH]; intros n k; [by rewrite drop_nil|].
  rewrite imap_cons, filter_cons. cbn [fst].
  rewrite (imap_ext _ (λ i u, (S k + i, u))) by (intros; simpl; f_equal; lia).
  destruct (decide (n ≤ k + 0)) as [Hle|Hgt].
  - rewrite fmap_cons, IH. replace (n - k) with 0 by lia. replace (n - S k) with 0 by lia.
    done.
  - rewrite IH. replace (n - k) with (S (n - S k)) by lia. done.
Qed.

Lemma forRange_353 parts channel :
  parts !! 4 = Some channel →
  ∀ (ps : list (nat * string)) w m,
  usersLocked (irc w) = false →
  users (irc w) = Some m →
  ∃ w', forRange ps (λ '(idx, user),
          if (idx <? 5)%nat then ret tt
          else p4 ← index parts 4; AddUserForChannel (User.mk user "" "" p4)) w
          = (Ret tt, w')
    ∧ usersLocked (irc w') = false
    ∧ users (irc w') =
        Some (foldl applyRosterOp m
                ((λ nick, Upsert (User.mk nick "" "" channel))
                   <$> (snd <$> filter (λ p : nat * string, 5 ≤ p.1) ps)))
    ∧ messages (irc w') = messages (irc w).
Proof.
  intros H4. unfold index. rewrite H4. unfold mbind, M_bind, bind. cbn [ret].
  induction ps as [|[idx user] ps IH]; intros w m Hl Hm.
  - by exists w.
  - cbn [forRange]. unfold mbind, M_bind, bind. rewrite filter_cons. cbn [fst].
    destruct (idx <? 5)%nat eqn:E.
    + apply Nat.ltb_lt in E. rewrite decide_False by lia.
      cbn [ret]. by apply IH.
    + apply Nat.ltb_ge in E. rewrite decide_True by lia.
      rewrite (AddUserForChannel_run _ _ m) by done.
      edestruct (IH (emitEvent (EvUnlock usersMutex) (emitEvent (EvLock usersMutex)
          (setIRC (setUsers (Some (applyRosterOp m (Upsert (User.mk user "" "" channel))))) w))))
        as (w' & Hr & Hl' & Hu' & Hm'); [by destruct_world w|by destruct_world w|].
      exists w'. split; [exact Hr|]. split; [done|]. split; [by rewrite Hu'|].
      rewrite Hm'. by destruct_world w.
Qed.

Lemma lookup_foldl_listing channel nicks : ∀ (m : gmap string User.t) nick,
  nick ∈ nicks →
  foldl applyRosterOp m ((λ n, Upsert (User.mk n "" "" channel)) <$> nicks)
    !! strings.Trim nick nickCutset
  = Some (User.mk (strings.Trim nick nickCutset) "" "" channel).
Proof.
  induction nicks as [|n nicks IH] using rev_ind; intros m nick Hin; [by inversion Hin|].
  rewrite fmap_app, foldl_app. cbn [fmap list_fmap foldl applyRosterOp].
  change (trimUser (User.mk n "" "" channel))
    with (User.mk (strings.Trim n nickCutset) "" "" channel).
  cbn [User.Nickname].
  destruct (decide (strings.Trim n nickCutset = strings.Trim nick nickCutset)) as [E|E].
  - rewrite E, lookup_insert_eq. done.
  - rewrite lookup_insert_ne by done.
    apply elem_of_app in Hin as [Hin|Hin]; [by apply IH|].
    apply list_elem_of_singleton in Hin. by subst.
Qed.

(** X7. A [353] line with fewer than six tokens changes nothing. Otherwise
    each token from the sixth on is upserted in order, and afterwards every
    listed nickname is in the roster, trimmed, under the channel that is the
    fifth token and with blank host and server, whatever record it had
    before. *)
Theorem names_reply_lists_members w m message :
  usersLocked (irc w) = false →
  users (irc w) = Some m →
  ∃ w' m',
    getUsersFrom353 message w = (Ret tt, w')
    ∧ users (irc w') = Some m'
    ∧ m' = foldl applyRosterOp m (usersOf353 message)
    ∧ messages (irc w') = messages (irc w)
    ∧ (length (strings.Split message " ") ≤ 5 → m' = m)
    ∧ (∀ channel nick,
         strings.Split message " " !! 4 = Some channel →
         nick ∈ drop 5 (strings.Split message " ") →
         m' !! strings.Trim nick nickCutset
           = Some (User.mk (strings.Trim nick nickCutset) "" "" channel)).
Proof.
  intros Hl Hm. unfold getUsersFrom353, usersOf353.
  destruct (length (strings.Split message " ") <? 5)%nat eqn:E.
  - apply Nat.ltb_lt in E.
    rewrite (lookup_ge_None_2 _ 4) by lia.
    exists w, m. repeat split; done.
  - apply Nat.ltb_ge in E.
    destruct (lookup_lt_is_Some_2 (strings.Split message " ") 4 ltac:(lia)) as [ch Hch].
    rewrite Hch.
    destruct (forRange_353 _ _ Hch
                (imap (λ idx user, (idx, user)) (strings.Split message " ")) w m Hl Hm)
      as (w' & Hr & _ & Hu & Hms).
    rewrite (imap_ext _ (λ i u, (0 + i, u))) in Hu by done.
    rewrite filter_indexed_drop in Hu. change (5 - 0) with 5 in Hu.
    exists w', (foldl applyRosterOp m
                  ((λ nick, Upsert (User.mk nick "" "" ch)) <$> drop 5 (strings.Split message " "))).
    split; [exact Hr|]. split; [exact Hu|]. split; [done|]. split; [done|]. split.
    + intros Hle. by rewrite drop_ge by lia.
    + intros channel nick [= <-] Hin. by apply lookup_foldl_listing.
Qed.

Lemma names_reply_lists_members_witness :
  ∃ w' m',
    getUsersFrom353 (":srv 353 me = #x :@bob alice") exampleWorld = (Ret tt, w')
    ∧ users (irc w') = Some m'
    ∧ m' = foldl applyRosterOp ∅ (usersOf353 ":srv 353 me = #x :@bob alice")
    ∧ messages (irc w') = []
    ∧ (length (strings.Split ":srv 353 me = #x :@bob alice" " ") ≤ 5 → m' = ∅)
    ∧ (∀ channel nick,
         strings.Split ":srv 353 me = #x :@bob alice" " " !! 4 = Some channel →
         nick ∈ drop 5 (strings.Split ":srv 353 me = #x :@bob alice" " ") →
         m' !! strings.Trim nick nickCutset
           = Some (User.mk (strings.Trim nick nickCutset) "" "" channel)).
Proof.
  apply (names_reply_lists_members exampleWorld ∅ ":srv 353 me = #x :@bob alice");
    reflexivity.
Defined.

(** X8. A [352] line with fewer than nine tokens changes nothing at all. One
    with nine or more upserts one member: nickname from the eighth token and
    host from the sixth (both trimmed), server from the seventh, channel
    from the fourth. *)
Theorem who_reply_upserts_member w m message :
  usersLocked (irc w) = false →
  users (irc w) = Some m →
  (length (strings.Split message " ") < 9 → getUsersFrom352 message w = (Ret tt, w))
  ∧ (∀ p3 p5 p6 p7,
       9 ≤ length (strings.Split message " ") →
       strings.Split message " " !! 3 = Some p3 →
       strings.Split message " " !! 5 = Some p5 →
       strings.Split message " " !! 6 = Some p6 →
       strings.Split message " " !! 7 = Some p7 →
       (getUsersFrom352 message w).1 = Ret tt
       ∧ users (irc (getUsersFrom352 message w).2) =
           Some (<[strings.Trim p7 nickCutset :=
                    User.mk (strings.Trim p7 nickCutset) (strings.Trim p5 nickCutset) p6 p3]> m)
       ∧ messages (irc (getUsersFrom352 message w).2) = messages (irc w)).
Proof.
  intros Hl Hm. unfold getUsersFrom352. split.
  - intros Hlt. apply Nat.ltb_lt in Hlt. by rewrite Hlt.
  - intros p3 p5 p6 p7 Hge H3 H5 H6 H7. apply Nat.ltb_ge in Hge. rewrite Hge.
    unfold mbind, M_bind, bind, index. rewrite H7, H5, H3, H6. cbn [ret].
    rewrite (AddUserForChannel_run _ _ m) by done. cbn [fst snd].
    by destruct_world w.
Qed.

Lemma who_reply_upserts_member_witness :
  let line := ":srv 352 me #x web-50 host.example srv.example web-50 H@ :0 kiwi" in
  (length (strings.Split line " ") < 9 → getUsersFrom352 line exampleWorld = (Ret tt, exampleWorld))
  ∧ (∀ p3 p5 p6 p7,
       9 ≤ length (strings.Split line " ") →
       strings.Split line " " !! 3 = Some p3 →
       strings.Split line " " !! 5 = Some p5 →
       strings.Split line " " !! 6 = Some p6 →
       strings.Split line " " !! 7 = Some p7 →
       (getUsersFrom352 line exampleWorld).1 = Ret tt
       ∧ users (irc (getUsersFrom352 line exampleWorld).2) =
           Some (<[strings.Trim p7 nickCutset :=
                    User.mk (strings.Trim p7 nickCutset) (strings.Trim p5 nickCutset) p6 p3]> ∅)
       ∧ messages (irc (getUsersFrom352 line exampleWorld).2) = []).
Proof.
  apply (who_reply_upserts_member exampleWorld ∅
           ":srv 352 me #x web-50 host.example srv.example web-50 H@ :0 kiwi"); reflexivity.
Defined.

(** ** The liveness probe *)

Ltac unfold_ping :=
  unfold readLoopBody, Pong, sliceFrom, AddIncomingMessage, withLock, defer, Lock, Unlock,
    index, slice, when, streq, connWrite, getConfig, emit, modify, get, mbind, M_bind,
    bind, ret, panic;
  cbn -[strings.SplitN strings.Slice strings.SliceFrom strings.Contains whoDue String.append].

(** X9. A line that begins with [PING], has a space and matches no other
    shape is answered by exactly one frame, [PONG] followed by everything
    after the fifth byte of the line (its terminator included) and [\r\n];
    the roster is untouched and the log gets the raw line only. *)
Theorem ping_answered_once
    (TrimFunc_IsSpace TrimRightFunc_IsSpace : string → string) c w cfg t1 t2 message :
  ready cfg c w →
  isPingOnly (IRCConfig.Channel cfg) message = true →
  ∃ w' payload,
    readLoopBody TrimFunc_IsSpace TrimRightFunc_IsSpace c message t1 t2 w = (Ret tt, w')
    ∧ strings.SliceFrom message 5 = Some payload
    ∧ trace w' =
        trace w ++
          [EvStdout message; EvLock messagesMutex; EvUnlock messagesMutex;
           EvLog (">> PONG " +:+ payload +:+ LF +:+ LF);
           EvConnWrite c ("PONG " +:+ payload +:+ CRLF)]
          ++ (if whoDue t1 (lastWho w)
              then [EvConnWrite c ("WHO " +:+ IRCConfig.Channel cfg +:+ CRLF)]
              else [])
    ∧ users (irc w') = users (irc w)
    ∧ messages (irc w') = messages (irc w) ++ [IRCMessage.mk "" "" message].
Proof.
  intros ((Hm & Hu) & Hc & Hn & _) Hp. unfold isPingOnly in Hp.
  repeat (apply andb_prop in Hp as [Hp ?]).
  repeat match goal with H : negb _ = true |- _ => apply negb_true_iff in H end.
  repeat match goal with H : bool_decide _ = false |- _ => apply bool_decide_eq_false in H end.
  apply bool_decide_eq_true in Hp.
  match goal with H : strings.Contains message " " = true |- _ =>
    destruct (SplitN_second _ H) as [code Hcode];
    destruct (SliceFrom_five_PING _ Hp H) as [payload Hpayload]
  end.
  exists (readLoopBody TrimFunc_IsSpace TrimRightFunc_IsSpace c message t1 t2 w).2, payload.
  destruct_world w. unfold_ping.
  rewrite Hcode in *. unfold_ping.
  rewrite (bool_decide_eq_false_2 (code = "001")) by congruence. unfold_ping.
  rewrite Hp. unfold_ping. rewrite Hpayload. unfold_ping.
  rewrite (bool_decide_eq_true_2 ("PING" = "PING")) by done. unfold_ping.
  match goal with H : strings.Contains _ (_ +:+ _) = false |- _ => rewrite H end.
  unfold_ping.
  rewrite (bool_decide_eq_false_2 (code = "353")) by congruence.
  rewrite (bool_decide_eq_false_2 (code = "352")) by congruence. unfold_ping.
  match goal with |- context [whoDue ?a ?b] => destruct (whoDue a b) end; unfold_ping;
    repeat match goal with H : strings.Contains _ _ = false |- _ => rewrite H end;
    unfold_ping;
    (split; [done|]; split; [done|]; split; [by rewrite <- !app_assoc|]; by split).
Qed.

Lemma ping_answered_once_witness :
  ∃ w' payload,
    readLoopBody id id exampleConn ("PING :server123" +:+ CRLF) 0 0 exampleWorld = (Ret tt, w')
    ∧ strings.SliceFrom ("PING :server123" +:+ CRLF) 5 = Some payload
    ∧ trace w' =
        [] ++
          [EvStdout ("PING :server123" +:+ CRLF); EvLock messagesMutex; EvUnlock messagesMutex;
           EvLog (">> PONG " +:+ payload +:+ LF +:+ LF);
           EvConnWrite exampleConn ("PONG " +:+ payload +:+ CRLF)]
          ++ (if whoDue 0 0 then [EvConnWrite exampleConn ("WHO #x" +:+ CRLF)] else [])
    ∧ users (irc w') = Some ∅
    ∧ messages (irc w') = [] ++ [IRCMessage.mk "" "" ("PING :server123" +:+ CRLF)].
Proof.
  apply (ping_answered_once id id exampleConn exampleWorld exampleConfig 0 0
           ("PING :server123" +:+ CRLF)).
  - repeat split. by eexists.
  - reflexivity.
Defined.

(** ** The handlers *)

(** X10. The send handler, given a form, sends the first value of the key
    [message] (the empty text when the key is absent) through [SendMessage]
    with the configured channel: the log entry and the delivery frame name
    the same channel, one frame is written, and the answer is a redirect to
    [/] with status 302. Given a request whose form cannot be parsed it logs
    the error, sends nothing and leaves the log as it is, with the same
    redirect. *)
Theorem handlerSendMessage_sends_form_value w cfg c :
  messagesLocked (irc w) = false →
  config (irc w) = Some cfg →
  conn (irc w) = Some c →
  (∀ values, ∃ w',
     handlerSendMessage (Form values) w = (Ret (Redirect "/" 302), w')
     ∧ messages (irc w') =
         messages (irc w) ++
           [IRCMessage.mk (IRCConfig.Channel cfg) (envVarNickName w)
                          (Form_Get values "message")]
     ∧ writesUnder messagesMutex false (drop (length (trace w)) (trace w')) =
         [("PRIVMSG " +:+ IRCConfig.Channel cfg +:+ " :" +:+ Form_Get values "message"
             +:+ CRLF, true)])
  ∧ (∀ parseError,
       handlerSendMessage (BadForm parseError) w =
         (Ret (Redirect "/" 302), emitEvent (EvLog ("Error: " +:+ parseError)) w)).
Proof.
  intros Hl Hc Hn. split; [|done].
  intros values. cbn [handlerSendMessage]. unfold mbind, M_bind, bind.
  rewrite (getConfig_run _ cfg) by done.
  rewrite (SendMessage_run _ _ _ cfg c) by done.
  eexists. split; [reflexivity|]. destruct_world w. split; [done|].
  unfold emitEvent, setIRC. simpl. rewrite <- !app_assoc, drop_app_length. reflexivity.
Qed.

Lemma handlerSendMessage_sends_form_value_witness :
  (∀ values, ∃ w',
     handlerSendMessage (Form values) exampleWorld = (Ret (Redirect "/" 302), w')
     ∧ messages (irc w') = [] ++ [IRCMessage.mk "#x" "me" (Form_Get values "message")]
     ∧ writesUnder messagesMutex false (drop (length (@nil Event)) (trace w')) =
         [("PRIVMSG " +:+ "#x" +:+ " :" +:+ Form_Get values "message" +:+ CRLF, true)])
  ∧ (∀ parseError,
       handlerSendMessage (BadForm parseError) exampleWorld =
         (Ret (Redirect "/" 302), emitEvent (EvLog ("Error: " +:+ parseError)) exampleWorld)).
Proof.
  apply (handlerSendMessage_sends_form_value exampleWorld exampleConfig exampleConn);
    reflexivity.
Defined.

Lemma HasPrefix_app t rest : strings.HasPrefix (t +:+ rest) t = true.
Proof.
  induction t as [|a t IH]; [by destruct rest|].
  rewrite string_app_cons. cbn [strings.HasPrefix]. by rewrite Ascii.eqb_refl.
Qed.

Lemma Index_HasPrefix s t : strings.HasPrefix s t = true → strings.Index s t = Some 0.
Proof. intros H. destruct s; cbn [strings.Index]; by rewrite H. Qed.

Lemma Contains_app pre t post : strings.Contains (pre +:+ t +:+ post) t = true.
Proof.
  unfold strings.Contains.
  enough (is_Some (strings.Index (pre +:+ t +:+ post) t)) as [i ->] by done.
  induction pre as [|a pre [i Hi]].
  - rewrite string_app_nil_l, Index_HasPrefix by apply HasPrefix_app. by eexists.
  - rewrite string_app_cons. cbn [strings.Index].
    destruct (strings.HasPrefix _ t); [by eexists|]. rewrite Hi. by eexists.
Qed.

Lemma string_app_nil_r (s : string) : s +:+ "" = s.
Proof. induction s as [|a s IH]; [done|]. by rewrite string_app_cons, IH. Qed.

Lemma Join_elem x sep : ∀ l, x ∈ l → ∃ pre post, strings.Join l sep = pre +:+ x +:+ post.
Proof.
  induction l as [|y l IH]; intros Hin; [by inversion Hin|].
  apply elem_of_cons in Hin as [->|Hin].
  - destruct l as [|z l].
    + exists "", "". cbn [strings.Join]. by rewrite string_app_nil_l, string_app_nil_r.
    + exists "", (sep +:+ strings.Join (z :: l) sep). done.
  - destruct (IH Hin) as (pre & post & E).
    destruct l as [|z l]; [by inversion Hin|].
    exists (y +:+ sep +:+ pre), post.
    change (strings.Join (y :: z :: l) sep) with (y +:+ sep +:+ strings.Join (z :: l) sep).
    rewrite E. by rewrite !string_app_assoc.
Qed.

(** X11. The history page is the fixed head, the rendered history of the
    configured channel and the fixed foot; the text of every line logged
    under that channel is on the page byte for byte, markup included: the
    handler escapes nothing. *)
Theorem history_page_holds_text_verbatim w cfg :
  messagesLocked (irc w) = false →
  config (irc w) = Some cfg →
  ∃ w',
    handlerGetMessagesForChannel w =
      (Ret (Page (pageHead "minirc: messages" "1"
                    +:+ renderSpec (IRCConfig.Channel cfg) (messages (irc w))
                    +:+ pageFoot)), w')
    ∧ irc w' = irc w
    ∧ (∀ m, m ∈ messages (irc w) →
            IRCMessage.channel m = IRCConfig.Channel cfg →
            strings.Contains
              (pageHead "minirc: messages" "1"
                 +:+ renderSpec (IRCConfig.Channel cfg) (messages (irc w))
                 +:+ pageFoot)
              (IRCMessage.message m) = true).
Proof.
  intros Hl Hc. unfold handlerGetMessagesForChannel, mbind, M_bind, bind.
  rewrite (getConfig_run _ cfg) by done.
  rewrite GetMessagesForChatRoom_run by done.
  eexists. split; [reflexivity|]. split; [by destruct_world w|].
  intros m Hin Hch.
  assert (Hline : formatLine m ∈
            formatLine <$> filter (λ m, IRCMessage.channel m = IRCConfig.Channel cfg)
                                  (messages (irc w))).
  { apply list_elem_of_fmap. exists m. split; [done|]. by apply list_elem_of_filter. }
  destruct (Join_elem _ "<br/>" _ Hline) as (pre & post & E).
  unfold renderSpec. rewrite E. unfold formatLine.
  rewrite !string_app_assoc.
  rewrite <- (string_app_assoc (pageHead "minirc: messages" "1") pre).
  rewrite <- (string_app_assoc _ (IRCMessage.userName m)).
  rewrite <- (string_app_assoc _ ": ").
  apply Contains_app.
Qed.

Lemma history_page_holds_text_verbatim_witness :
  let w := (AddIncomingMessage "#x" "u1" "<b>hi</b>" exampleWorld).2 in
  ∃ w',
    handlerGetMessagesForChannel w =
      (Ret (Page (pageHead "minirc: messages" "1"
                    +:+ renderSpec "#x" (messages (irc w)) +:+ pageFoot)), w')
    ∧ irc w' = irc w
    ∧ (∀ m, m ∈ messages (irc w) →
            IRCMessage.channel m = "#x" →
            strings.Contains
              (pageHead "minirc: messages" "1"
                 +:+ renderSpec "#x" (messages (irc w)) +:+ pageFoot)
              (IRCMessage.message m) = true).
Proof.
  apply (history_page_holds_text_verbatim
           (AddIncomingMessage "#x" "u1" "<b>hi</b>" exampleWorld).2 exampleConfig);
    reflexivity.
Defined.

Example history_page_example :
  (handlerGetMessagesForChannel (AddIncomingMessage "#x" "u1" "<b>hi</b>" exampleWorld).2).1 =
    Ret (Page ("<!doctype html><html itemscope=" +:+ DQ +:+ DQ +:+ " itemtype=" +:+ DQ
               +:+ "http://schema.org/WebPage" +:+ DQ +:+ " lang=" +:+ DQ +:+ "en" +:+ DQ
               +:+ ">" +:+ LF +:+ TAB
               +:+ "<head><title>minirc: messages</title><meta http-equiv=" +:+ DQ
               +:+ "refresh" +:+ DQ +:+ " content=" +:+ DQ +:+ "1" +:+ DQ +:+ "></head>"
               +:+ LF +:+ "    <body>u1: <b>hi</b></body></html>")).
Proof. by vm_compute. Qed.

(** ** Configuration and start-up *)

(** X12. [readConfig] ends in one of three ways. When the file cannot be
    read the process exits with status 1. When its content cannot be parsed
    the function returns nil. Otherwise it returns a configuration without a
    zero field: every field the file sets is kept and every other takes its
    default ([irc.freenode.net], 6667, [#midnightcafe], 8080). *)
Theorem readConfig_outcomes os fileName w :
  match os_ReadFile os fileName with
  | None => (readConfig os fileName w).1 = Exit 1
  | Some data =>
      match json_Unmarshal os data with
      | None => (readConfig os fileName w).1 = Ret None
      | Some parsed =>
          ∃ config,
            (readConfig os fileName w).1 = Ret (Some config)
            ∧ IRCConfig.Server config ≠ "" ∧ IRCConfig.Port config ≠ 0%Z
            ∧ IRCConfig.Channel config ≠ "" ∧ IRCConfig.WebServerPortNumber config ≠ 0%Z
            ∧ IRCConfig.Server config =
                (if decide (IRCConfig.Server parsed = "") then "irc.freenode.net"
                 else IRCConfig.Server parsed)
            ∧ IRCConfig.Port config =
                (if decide (IRCConfig.Port parsed = 0%Z) then 6667%Z
                 else IRCConfig.Port parsed)
            ∧ IRCConfig.Channel config =
                (if decide (IRCConfig.Channel parsed = "") then "#midnightcafe"
                 else IRCConfig.Channel parsed)
            ∧ IRCConfig.WebServerPortNumber config =
                (if decide (IRCConfig.WebServerPortNumber parsed = 0%Z) then 8080%Z
                 else IRCConfig.WebServerPortNumber parsed)
      end
  end
  ∧ irc (readConfig os fileName w).2 = irc w.
Proof.
  unfold readConfig. split.
  - destruct (os_ReadFile os fileName) as [data|]; [|done].
    destruct (json_Unmarshal os data) as [[server port channel webPort]|]; [|done].
    exists (applyDefaults (IRCConfig.mk server port channel webPort)).
    split; [done|]. unfold applyDefaults, streq. cbn.
    destruct (Z.eqb_spec port 0) as [Ep|Ep];
      destruct (Z.eqb_spec webPort 0) as [Ew|Ew];
      destruct (decide (server = "")) as [Es|Es];
      destruct (decide (channel = "")) as [Ec|Ec];
      rewrite ?(bool_decide_eq_true_2 _ Es), ?(bool_decide_eq_false_2 _ Es),
        ?(bool_decide_eq_true_2 _ Ec), ?(bool_decide_eq_false_2 _ Ec);
      repeat case_decide; try done; repeat (split; [done|]); done.
  - destruct (os_ReadFile os fileName) as [data|]; [|by destruct w].
    destruct (json_Unmarshal os data); by destruct w.
Qed.

Ltac unfold_start :=
  unfold main, readConfig, connectToIRC, withLock, defer,
    Lock, Unlock, when, streq, connWrite, getConfig, emit, modify, get, exit, block,
    mbind, M_bind, bind, ret, panic;
  cbn -[applyDefaults String.append].

(** X13. When the identity is set, the configuration file is read and
    parsed, the server accepts the connection and the web server can listen,
    [main] writes the two registration frames, [USER] then [NICK], registers
    the four handlers and serves; it leaves the process configured, connected
    and with an empty roster map, so that, the mutexes being free, it is in
    the steady state of the read loop. *)
Theorem main_registers_and_serves os w data raw cfg :
  envVarNickName w ≠ "" →
  envVarUserName w ≠ "" →
  envVarRealName w ≠ "" →
  os_ReadFile os (envVarConfigFileName w) = Some data →
  json_Unmarshal os data = Some raw →
  applyDefaults raw = cfg →
  net_Dial os (IRCConfig.Server cfg) (IRCConfig.Port cfg) = true →
  http_ListenAndServe_fails os (IRCConfig.WebServerPortNumber cfg) = false →
  ∃ w', main os w = (Blocked (InListenAndServe (IRCConfig.WebServerPortNumber cfg)), w')
    ∧ config (irc w') = Some cfg
    ∧ conn (irc w') = Some (tcpConn (IRCConfig.Server cfg) (IRCConfig.Port cfg))
    ∧ users (irc w') = Some ∅
    ∧ messages (irc w') = messages (irc w)
    ∧ trace w' =
        trace w ++
          [EvDiag (DiagConfig cfg);
           EvConnWrite (tcpConn (IRCConfig.Server cfg) (IRCConfig.Port cfg))
             ("USER " +:+ envVarUserName w +:+ " 0 * :realname" +:+ CRLF);
           EvConnWrite (tcpConn (IRCConfig.Server cfg) (IRCConfig.Port cfg))
             ("NICK " +:+ envVarNickName w +:+ CRLF);
           EvHandleFunc "/";
           EvHandleFunc "/get-messages-for-channel";
           EvHandleFunc "/get-users-for-channel";
           EvHandleFunc "/send-message"]
    ∧ (lockFree w →
       ready cfg (tcpConn (IRCConfig.Server cfg) (IRCConfig.Port cfg)) w').
Proof.
  intros Hn Hu Hr Hf Hj Hcfg Hd Hs. destruct_world w. unfold_start.
  rewrite Hf, Hj. unfold_start.
  rewrite !bool_decide_eq_false_2 by done. unfold_start.
  rewrite Hd. unfold_start. rewrite Hs.
  eexists. split; [reflexivity|]. cbn.
  repeat (split; [done|]). split; [by rewrite <- !app_assoc|].
  intros [H1 H2]. simpl in *. subst. repeat split. by eexists.
Qed.

Lemma main_registers_and_serves_witness :
  ∃ w', main (exampleOS true) (initialWorld "me" "me" "Me" "smirc.conf" 0)
          = (Blocked (InListenAndServe 8080), w')
    ∧ config (irc w') = Some (IRCConfig.mk "irc.freenode.net" 6667 "#midnightcafe" 8080)
    ∧ conn (irc w') = Some (tcpConn "irc.freenode.net" 6667)
    ∧ users (irc w') = Some ∅
    ∧ messages (irc w') = []
    ∧ trace w' =
        [] ++
          [EvDiag (DiagConfig (IRCConfig.mk "irc.freenode.net" 6667 "#midnightcafe" 8080));
           EvConnWrite (tcpConn "irc.freenode.net" 6667)
             ("USER " +:+ "me" +:+ " 0 * :realname" +:+ CRLF);
           EvConnWrite (tcpConn "irc.freenode.net" 6667) ("NICK " +:+ "me" +:+ CRLF);
           EvHandleFunc "/";
           EvHandleFunc "/get-messages-for-channel";
           EvHandleFunc "/get-users-for-channel";
           EvHandleFunc "/send-message"]
    ∧ (lockFree (initialWorld "me" "me" "Me" "smirc.conf" 0) →
       ready (IRCConfig.mk "irc.freenode.net" 6667 "#midnightcafe" 8080)
             (tcpConn "irc.freenode.net" 6667) w').
Proof.
  apply (main_registers_and_serves (exampleOS true)
           (initialWorld "me" "me" "Me" "smirc.conf" 0) "{}" (IRCConfig.mk "" 0 "" 0)
           (IRCConfig.mk "irc.freenode.net" 6667 "#midnightcafe" 8080));
    (reflexivity || discriminate).
Defined.

(** X14. A configuration file that cannot be read ends the process with
    status 1 and one diagnostic, before anything else is done. *)
Theorem main_unreadable_config_exits os w :
  os_ReadFile os (envVarConfigFileName w) = None →
  main os w =
    (Exit 1, emitEvent (EvDiag (DiagReadConfigFailed (envVarConfigFileName w))) w).
Proof. intros Hf. destruct_world w. unfold_start. by rewrite Hf. Qed.

Lemma main_unreadable_config_exits_witness :
  main (mkOS (λ _, None) (λ _, None) (λ _ _, true) (λ _, false))
       (initialWorld "me" "me" "Me" "smirc.conf" 0) =
    (Exit 1, emitEvent (EvDiag (DiagReadConfigFailed "smirc.conf"))
               (initialWorld "me" "me" "Me" "smirc.conf" 0)).
Proof.
  apply (main_unreadable_config_exits
           (mkOS (λ _, None) (λ _, None) (λ _ _, true) (λ _, false))
           (initialWorld "me" "me" "Me" "smirc.conf" 0)).
  reflexivity.
Defined.

(** X15. A configuration file that is read but cannot be parsed does not
    end the process in [readConfig]: the diagnostic is printed, the nil
    configuration is stored, and with the identity set [connectToIRC] then
    panics on dereferencing it, before any connection is opened. *)
Theorem main_unparseable_config_panics os w data :
  envVarNickName w ≠ "" →
  envVarUserName w ≠ "" →
  envVarRealName w ≠ "" →
  os_ReadFile os (envVarConfigFileName w) = Some data →
  json_Unmarshal os data = None →
  ∃ w', main os w = (Panic NilDereference, w')
    ∧ config (irc w') = None
    ∧ conn (irc w') = conn (irc w)
    ∧ trace w' = trace w ++ [EvDiag DiagParseConfigFailed].
Proof.
  intros Hn Hu Hr Hf Hj. destruct_world w. unfold_start.
  rewrite Hf, Hj. unfold_start.
  rewrite !bool_decide_eq_false_2 by done. unfold_start.
  eexists. by split.
Qed.

Lemma main_unparseable_config_panics_witness :
  ∃ w', main (mkOS (λ _, Some "{") (λ _, None) (λ _ _, true) (λ _, false))
             (initialWorld "me" "me" "Me" "smirc.conf" 0) = (Panic NilDereference, w')
    ∧ config (irc w') = None
    ∧ conn (irc w') = None
    ∧ trace w' = [] ++ [EvDiag DiagParseConfigFailed].
Proof.
  apply (main_unparseable_config_panics
           (mkOS (λ _, Some "{") (λ _, None) (λ _ _, true) (λ _, false))
           (initialWorld "me" "me" "Me" "smirc.conf" 0) "{");
    (reflexivity || discriminate).
Defined.

(** X16. [connectToIRC] needs the whole identity: with any of the three
    variables empty it ends the process with status 1 and one diagnostic,
    whatever the configuration is, a nil one included; it does not dial and
    nothing is written to any connection. *)
Theorem connectToIRC_requires_identity os w :
  envVarNickName w = "" ∨ envVarUserName w = "" ∨ envVarRealName w = "" →
  connectToIRC os w = (Exit 1, emitEvent (EvDiag DiagEnvRequired) w).
Proof.
  intros Hid. destruct_world w. unfold_start.
  destruct Hid as [H|[H|H]]; rewrite H; repeat case_bool_decide; done.
Qed.

Lemma connectToIRC_requires_identity_witness :
  connectToIRC (exampleOS true)
    (mkWorld "me" "" "Me" "smirc.conf" 0 (mkIRC false [] false None None None) []) =
    (Exit 1, emitEvent (EvDiag DiagEnvRequired)
               (mkWorld "me" "" "Me" "smirc.conf" 0
                  (mkIRC false [] false None None None) [])).
Proof.
  apply (connectToIRC_requires_identity (exampleOS true)
           (mkWorld "me" "" "Me" "smirc.conf" 0 (mkIRC false [] false None None None) [])).
  right. left. reflexivity.
Defined.

(** ** The read loop as a whole *)

Lemma readLoop_app TrimFunc_IsSpace TrimRightFunc_IsSpace c reads1 reads2 : ∀ w,
  readLoop TrimFunc_IsSpace TrimRightFunc_IsSpace c (reads1 ++ reads2) w =
    (readLoop TrimFunc_IsSpace TrimRightFunc_IsSpace c reads1;;
     readLoop TrimFunc_IsSpace TrimRightFunc_IsSpace c reads2) w.
Proof.
  induction reads1 as [|[message t1 t2|] reads1 IH]; intros w.
  - done.
  - cbn [app readLoop]. unfold mbind, M_bind, bind in *.
    destruct (readLoopBody _ _ c message t1 t2 w) as [[[]|why|code|on] w1]; [|done..].
    apply IH.
  - done.
Qed.

(** X17. The read loop run on its own: no handler call overlaps an
    iteration, so that each iteration finds both mutexes free, as the one
    before left them (one thread is modelled). Over any sequence of reads
    the loop then ends in one of three ways: every read is consumed (only
    when no read failed), an iteration panics (the panic is not recovered
    and ends the process), or a read fails and [log.Fatalf] ends the
    process with status 1 (only at a failed read). It does not wait for a
    mutex it holds itself; both mutexes are free at the end and the log has
    only grown. Waiting for a mutex that a handler holds during an
    iteration is not part of this statement. *)
Theorem readLoop_alone_ends_with_locks_free
    (TrimFunc_IsSpace TrimRightFunc_IsSpace : string → string) c reads w :
  lockFree w →
  ((readLoop TrimFunc_IsSpace TrimRightFunc_IsSpace c reads w).1 = Ret tt
   ∨ (∃ why, (readLoop TrimFunc_IsSpace TrimRightFunc_IsSpace c reads w).1 = Panic why)
   ∨ (readLoop TrimFunc_IsSpace TrimRightFunc_IsSpace c reads w).1 = Exit 1)
  ∧ ((readLoop TrimFunc_IsSpace TrimRightFunc_IsSpace c reads w).1 = Ret tt →
     ReadError ∉ reads)
  ∧ ((readLoop TrimFunc_IsSpace TrimRightFunc_IsSpace c reads w).1 = Exit 1 →
     ReadError ∈ reads)
  ∧ lockFree (readLoop TrimFunc_IsSpace TrimRightFunc_IsSpace c reads w).2
  ∧ grows w (readLoop TrimFunc_IsSpace TrimRightFunc_IsSpace c reads w).2.
Proof.
  revert w. induction reads as [|[message t1 t2|] reads IH]; intros w Hw.
  - cbn. split; [by left|]. split; [intros _; apply not_elem_of_nil|].
    split; [done|]. split; [done|apply grows_refl].
  - cbn [readLoop]. unfold mbind, M_bind, bind.
    destruct (orderly_readLoopBody TrimFunc_IsSpace TrimRightFunc_IsSpace c
                message t1 t2 w Hw) as (Hc & Hl & Hg).
    destruct (readLoopBody _ _ c message t1 t2 w) as [[[]|why|code|on] w1];
      simpl in Hc, Hl, Hg; [| |done|done].
    + destruct (IH w1 Hl) as (H1 & H2 & H3 & H4 & H5).
      split; [done|]. split.
      { intros E [?|?]%elem_of_cons; [done|]. by apply H2. }
      split; [intros E; apply elem_of_cons; right; by apply H3|].
      split; [done|]. by eapply grows_trans.
    + simpl. split; [right; left; by eexists|].
      split; [intros E; discriminate E|]. split; [intros E; discriminate E|]. by split.
  - cbn. split; [by right; right|]. split; [done|].
    split; [intros _; apply elem_of_cons; by left|].
    destruct_world w. destruct Hw as [? ?]. simpl in *.
    split; [done|]. solve_grows.
Qed.

Lemma readLoop_alone_ends_with_locks_free_witness :
  ((readLoop id id exampleConn [ReadLine ("PING :x" +:+ CRLF) 0 0; ReadError] exampleWorld).1 = Ret tt
   ∨ (∃ why, (readLoop id id exampleConn [ReadLine ("PING :x" +:+ CRLF) 0 0; ReadError] exampleWorld).1
             = Panic why)
   ∨ (readLoop id id exampleConn [ReadLine ("PING :x" +:+ CRLF) 0 0; ReadError] exampleWorld).1 = Exit 1)
  ∧ ((readLoop id id exampleConn [ReadLine ("PING :x" +:+ CRLF) 0 0; ReadError] exampleWorld).1 = Ret tt →
     ReadError ∉ [ReadLine ("PING :x" +:+ CRLF) 0 0; ReadError])
  ∧ ((readLoop id id exampleConn [ReadLine ("PING :x" +:+ CRLF) 0 0; ReadError] exampleWorld).1 = Exit 1 →
     ReadError ∈ [ReadLine ("PING :x" +:+ CRLF) 0 0; ReadError])
  ∧ lockFree (readLoop id id exampleConn [ReadLine ("PING :x" +:+ CRLF) 0 0; ReadError] exampleWorld).2
  ∧ grows exampleWorld
      (readLoop id id exampleConn [ReadLine ("PING :x" +:+ CRLF) 0 0; ReadError] exampleWorld).2.
Proof.
  apply (readLoop_alone_ends_with_locks_free id id exampleConn [ReadLine ("PING :x" +:+ CRLF) 0 0; ReadError] exampleWorld).
  split; reflexivity.
Defined.

(** X18. In the steady state the read loop works through every sequence
    of lines that each have a space and at least four bytes, and is in the
    steady state after the last; a read error that follows ends the process
    with status 1 and one diagnostic, and what the reader would have
    delivered after the error plays no part. *)
Theorem readLoop_runs_until_read_error
    (TrimFunc_IsSpace TrimRightFunc_IsSpace : string → string) cfg c reads w :
  ready cfg c w →
  Forall (λ r, hasTwoTokens r = true) reads →
  ∃ w', readLoop TrimFunc_IsSpace TrimRightFunc_IsSpace c reads w = (Ret tt, w')
        ∧ ready cfg c w'
        ∧ ∀ rest,
            readLoop TrimFunc_IsSpace TrimRightFunc_IsSpace c (reads ++ ReadError :: rest) w =
              (Exit 1, emitEvent (EvDiag DiagReadFailed) w').
Proof.
  intros Hw Hreads. revert w Hw.
  induction Hreads as [|[message t1 t2|] reads Hr Hreads IH]; intros w Hw.
  - exists w. split; [done|]. split; [done|]. intros rest. reflexivity.
  - apply andb_true_iff in Hr as [Hsp Hlen]. apply Nat.leb_le in Hlen.
    destruct (rr_readLoopBody cfg c TrimFunc_IsSpace TrimRightFunc_IsSpace
                message t1 t2 Hsp Hlen w Hw) as ([] & w1 & Hrun & Hw1 & _).
    destruct (IH w1 Hw1) as (w' & Hrun' & Hw' & Hrest).
    exists w'. cbn [app readLoop]. unfold mbind, M_bind, bind in *.
    rewrite Hrun. split; [done|]. split; [done|]. intros rest. apply Hrest.
  - done.
Qed.

Lemma readLoop_runs_until_read_error_witness :
  ∃ w', readLoop id id exampleConn
          [ReadLine ("PING :x" +:+ CRLF) 0 0; ReadLine (":a!b@c JOIN :#x" +:+ CRLF) 0 0]
          exampleWorld = (Ret tt, w')
        ∧ ready exampleConfig exampleConn w'
        ∧ ∀ rest,
            readLoop id id exampleConn
              ([ReadLine ("PING :x" +:+ CRLF) 0 0; ReadLine (":a!b@c JOIN :#x" +:+ CRLF) 0 0]
                 ++ ReadError :: rest) exampleWorld =
              (Exit 1, emitEvent (EvDiag DiagReadFailed) w').
Proof.
  apply (readLoop_runs_until_read_error id id exampleConfig exampleConn
           [ReadLine ("PING :x" +:+ CRLF) 0 0; ReadLine (":a!b@c JOIN :#x" +:+ CRLF) 0 0]
           exampleWorld).
  - repeat split. by eexists.
  - repeat constructor.
Defined.

Ltac orderly_tail :=
  apply orderly_bind; [apply orderly_quiet, quiet_index|]; intros ?;
  apply orderly_bind; [apply orderly_when, orderly_quiet, quiet_Join|]; intros _;
  apply orderly_bind; [apply orderly_quiet, quiet_slice|]; intros ?;
  apply orderly_bind; [apply orderly_when, orderly_quiet, quiet_Pong|]; intros _;
  apply orderly_bind; [apply orderly_quiet, quiet_getConfig|]; intros ?;
  apply orderly_bind;
    [apply orderly_when, orderly_when;
     repeat (apply orderly_bind; [apply orderly_quiet, quiet_index|]; intros ?);
     apply orderly_bind; [apply orderly_quiet, quiet_getConfig|]; intros ?;
     apply orderly_bind; [apply orderly_quiet, quiet_emit|]; intros _;
     apply orderly_bind; [apply orderly_quiet, quiet_getConfig|]; intros ?;
     apply orderly_AddIncomingMessage|];
  intros _;
  apply orderly_bind; [apply orderly_when, orderly_getUsersFrom353|]; intros _;
  apply orderly_bind; [apply orderly_when, orderly_getUsersFrom352|]; intros _;
  apply orderly_bind; [apply orderly_quiet, quiet_get|]; intros ?;
  apply orderly_bind;
    [apply orderly_when, orderly_quiet;
     apply quiet_bind; [apply quiet_getConfig|]; intros ?;
     apply quiet_bind; [apply quiet_connWrite|]; intros _;
     apply quiet_setLastWho|];
  intros _;
  apply orderly_bind; [apply orderly_when, orderly_getUserFromNewJoin|]; intros _;
  apply orderly_when, orderly_removeNick.

Lemma bind_run {A B} (m : M A) (k : A → M B) w a w1 :
  m w = (Ret a, w1) → (m ≫= k) w = k a w1.
Proof. intros H. unfold mbind, M_bind, bind. by rewrite H. Qed.

(** X19. An iteration of the read loop prints the raw line and transcribes
    it, under the empty channel and the empty user, before it decodes
    anything: whatever the line and however the iteration ends, also in a
    panic, the log then holds the old entries followed by that one, and the
    iteration began by printing the line and appending it under the log
    mutex. *)
Theorem readLoopBody_transcribes_first
    (TrimFunc_IsSpace TrimRightFunc_IsSpace : string → string) c message t1 t2 w :
  lockFree w →
  messages (irc w) ++ [IRCMessage.mk "" "" message]
    `prefix_of`
    messages (irc (readLoopBody TrimFunc_IsSpace TrimRightFunc_IsSpace c message t1 t2 w).2)
  ∧ trace w ++ [EvStdout message; EvLock messagesMutex; EvUnlock messagesMutex]
      `prefix_of`
      trace (readLoopBody TrimFunc_IsSpace TrimRightFunc_IsSpace c message t1 t2 w).2.
Proof.
  intros Hw. unfold readLoopBody.
  rewrite (bind_run _ _ w tt (emitEvent (EvStdout message) w)) by reflexivity.
  erewrite bind_run; last first.
  { apply AddIncomingMessage_run. destruct Hw as [H _]. by destruct_world w. }
  lazymatch goal with
  | |- _ `prefix_of` messages (irc (?m ?w2).2) ∧ _ =>
      assert (Hrest : orderly m) by orderly_tail;
      destruct (Hrest w2) as (_ & _ & Hg)
  end.
  { destruct Hw as [? ?]. by destruct_world w. }
  destruct Hg as (_ & _ & _ & _ & _ & _ & Hp & Ht).
  split; (etrans; [|first [exact Hp|exact Ht]]); destruct_world w.
  - done.
  - by rewrite <- !app_assoc.
Qed.

Lemma readLoopBody_transcribes_first_witness :
  messages (irc exampleWorld) ++ [IRCMessage.mk "" "" "x"]
    `prefix_of`
    messages (irc (readLoopBody id id exampleConn "x" 0 0 exampleWorld).2)
  ∧ trace exampleWorld ++ [EvStdout "x"; EvLock messagesMutex; EvUnlock messagesMutex]
      `prefix_of`
      trace (readLoopBody id id exampleConn "x" 0 0 exampleWorld).2.
Proof.
  apply (readLoopBody_transcribes_first id id exampleConn "x" 0 0 exampleWorld).
  split; reflexivity.
Defined.

(** ** Edges of the decoders and the methods *)

(** X20. [removeNick] returns for every line, whatever it holds, also when
    the roster map is nil: [strings.Split] never returns an empty slice, so
    neither index is out of range, and [delete] accepts a nil map. The
    roster loses the entry under the trimmed first [!]-segment of the first
    token, and nothing else changes. *)
Theorem removeNick_always_returns message w :
  usersLocked (irc w) = false →
  ∃ p0 nick w',
    strings.Split message " " !! 0 = Some p0
    ∧ strings.Split p0 "!" !! 0 = Some nick
    ∧ removeNick message w = (Ret tt, w')
    ∧ users (irc w') = delete (strings.Trim nick nickCutset) <$> users (irc w)
    ∧ usersLocked (irc w') = false
    ∧ messages (irc w') = messages (irc w).
Proof.
  intros Hl.
  destruct (Split_first message " ") as [p0 Hp0].
  destruct (Split_first p0 "!") as [nick Hnick].
  exists p0, nick. eexists. split; [done|]. split; [done|].
  unfold removeNick, index, mbind, M_bind, bind. rewrite Hp0. cbn [ret].
  rewrite Hnick. cbn [ret]. rewrite RemoveUser_run by done.
  split; [reflexivity|]. by destruct_world w.
Qed.

Lemma removeNick_always_returns_witness :
  ∃ p0 nick w',
    strings.Split "" " " !! 0 = Some p0
    ∧ strings.Split p0 "!" !! 0 = Some nick
    ∧ removeNick "" (initialWorld "me" "me" "Me" "smirc.conf" 0) = (Ret tt, w')
    ∧ users (irc w') =
        delete (strings.Trim nick nickCutset)
          <$> users (irc (initialWorld "me" "me" "Me" "smirc.conf" 0))
    ∧ usersLocked (irc w') = false
    ∧ messages (irc w') = messages (irc (initialWorld "me" "me" "Me" "smirc.conf" 0)).
Proof.
  apply (removeNick_always_returns "" (initialWorld "me" "me" "Me" "smirc.conf" 0)).
  reflexivity.
Defined.

(** X21. [getUserFromNewJoin] called with a line of fewer than three
    space-separated tokens panics on [parts[2]], before it takes the roster
    mutex: the process state is untouched. *)
Theorem getUserFromNewJoin_short_line_panics message w :
  length (strings.Split message " ") < 3 →
  getUserFromNewJoin message w =
    (Panic (IndexOutOfRange 2 (length (strings.Split message " "))), w).
Proof.
  intros Hlen.
  destruct (Split_first message " ") as [p0 Hp0].
  destruct (Split_first p0 "!") as [nick Hnick].
  unfold getUserFromNewJoin, index, mbind, M_bind, bind. rewrite Hp0. cbn [ret].
  rewrite Hnick. cbn [ret].
  by rewrite (lookup_ge_None_2 (strings.Split message " ") 2) by lia.
Qed.

Lemma getUserFromNewJoin_short_line_panics_witness :
  getUserFromNewJoin "JOIN #x" exampleWorld =
    (Panic (IndexOutOfRange 2 (length (strings.Split "JOIN #x" " "))), exampleWorld).
Proof.
  apply (getUserFromNewJoin_short_line_panics "JOIN #x" exampleWorld).
  vm_compute. lia.
Defined.

(** ** The line terminator *)

Lemma lastByte_TrimLeft_keeps s cutset c :
  lastByte s = Some c →
  strings.inCutset cutset c = false →
  lastByte (strings.TrimLeft s cutset) = Some c.
Proof.
  intros Hs Hc. induction s as [|a s IH]; [done|]. cbn [strings.TrimLeft].
  destruct (strings.inCutset cutset a) eqn:Ha; [|done].
  apply IH. rewrite lastByte_cons in Hs.
  destruct (lastByte s) as [b|]; [done|]. congruence.
Qed.

Lemma TrimRight_keeps_lastByte s cutset c :
  lastByte s = Some c →
  strings.inCutset cutset c = false →
  strings.TrimRight s cutset = s.
Proof.
  intros Hs Hc. induction s as [|a s IH]; [done|]. cbn [strings.TrimRight].
  rewrite lastByte_cons in Hs. destruct (lastByte s) as [b|] eqn:Hb.
  - rewrite IH by done. destruct s; [done|done].
  - apply lastByte_None in Hb. subst s. cbn. injection Hs as ->. by rewrite Hc.
Qed.

(** The channel [getUserFromNewJoin] stores is the third token trimmed of
    colons: when the third token ends in the line feed the reader leaves on
    every line, so does the stored channel, and the member is in no
    snapshot of a channel whose name does not end in a line feed. *)
Lemma join_channel_keeps_terminator w m cfg message p0 p1 p2 rest :
  usersLocked (irc w) = false →
  users (irc w) = Some m →
  config (irc w) = Some cfg →
  keyedByNickname m →
  strings.Split message " " = p0 :: p1 :: p2 :: rest →
  lastByte p2 = Some "010"%char →
  lastByte (IRCConfig.Channel cfg) ≠ Some "010"%char →
  ∃ w' w'' nick snapshot,
    getUserFromNewJoin message w = (Ret tt, w')
    ∧ users (irc w') =
        Some (<[strings.Trim nick nickCutset :=
                 User.mk (strings.Trim nick nickCutset) "" "" (strings.Trim p2 ":")]> m)
    ∧ lastByte (strings.Trim p2 ":") = Some "010"%char
    ∧ usersForChannel w' = (Ret snapshot, w'')
    ∧ strings.Trim nick nickCutset ∉ snapshot.
Proof.
  intros Hl Hm Hc Hk Hsplit Hlast Hcfg.
  destruct (Split_first p0 "!") as [nick Hnick].
  assert (Hch : lastByte (strings.Trim p2 ":") = Some "010"%char).
  { unfold strings.Trim. rewrite (TrimRight_keeps_lastByte _ _ _ Hlast) by done.
    by apply lastByte_TrimLeft_keeps. }
  set (u := User.mk (strings.Trim nick nickCutset) "" "" (strings.Trim p2 ":")).
  set (w' := emitEvent (EvUnlock usersMutex) (emitEvent (EvLock usersMutex)
               (setIRC (setUsers (Some (<[strings.Trim nick nickCutset := u]> m))) w))).
  exists w', (emitEvent (EvUnlock usersMutex) (emitEvent (EvLock usersMutex) w')), nick,
    (sort_Strings (nicknamesIn (IRCConfig.Channel cfg)
                     (map_to_list (<[strings.Trim nick nickCutset := u]> m)))).
  split.
  { unfold getUserFromNewJoin, index, mbind, M_bind, bind. rewrite Hsplit.
    cbn -[strings.Split strings.Trim AddUserForChannel].
    rewrite Hnick. cbn -[strings.Split strings.Trim AddUserForChannel].
    by rewrite (AddUserForChannel_run _ _ m). }
  split; [subst w'; by destruct_world w|]. split; [done|].
  split.
  { rewrite (usersForChannel_run _ cfg) by (subst w'; by destruct_world w).
    reflexivity. }
  rewrite elem_of_sort_Strings, elem_of_nicknamesIn.
  - intros (u' & Hu' & Hch'). rewrite lookup_insert_eq in Hu'. injection Hu' as <-.
    subst u. cbn in Hch'. congruence.
  - intros k u' Hu'. destruct (decide (k = strings.Trim nick nickCutset)) as [->|Hne].
    + rewrite lookup_insert_eq in Hu'. by injection Hu' as <-.
    + rewrite lookup_insert_ne in Hu' by done. by apply Hk.
Qed.

(** X22. [Pong] called with a message shorter than five bytes panics on
    [message[5:]] before it logs or writes anything. *)
Theorem Pong_short_message_panics message w :
  len message < 5 →
  Pong message w = (Panic (SliceOutOfRange 5 (len message)), w).
Proof.
  intros Hlen. unfold Pong, sliceFrom, strings.SliceFrom, strings.Slice, mbind, M_bind, bind.
  assert (E : (5 <=? len message)%nat = false) by (apply Nat.leb_gt; lia).
  by rewrite E.
Qed.

Lemma Pong_short_message_panics_witness :
  Pong "PING" exampleWorld = (Panic (SliceOutOfRange 5 (len "PING")), exampleWorld).
Proof.
  apply (Pong_short_message_panics "PING" exampleWorld). vm_compute. lia.
Defined.

(** X23. [GetUsersForChannel] reads [irc.config] only inside its loop over
    the roster. Without a configuration it therefore returns the empty text
    when the roster is empty or nil, and panics on the nil configuration as
    soon as the roster has an entry; in both cases the roster mutex is free
    again afterwards and the state is otherwise as before. *)
Theorem GetUsersForChannel_nil_config w :
  usersLocked (irc w) = false →
  config (irc w) = None →
  GetUsersForChannel w =
    (match mapEntries (users (irc w)) with
     | [] => Ret ""
     | _ :: _ => Panic NilDereference
     end,
     emitEvent (EvUnlock usersMutex) (emitEvent (EvLock usersMutex) w)).
Proof.
  intros Hl Hc. destruct (mapEntries (users (irc w))) as [|[k u] entries] eqn:E.
  - destruct w as [? ? ? ? ? i ?]; destruct i as [? ? ? us ? ?]; simpl in *; subst.
    unfold GetUsersForChannel, usersForChannelIn, withLock, defer, Lock, Unlock, emit,
      modify, get, mbind, M_bind, bind, ret, panic, setIRC, emitEvent.
    simpl. rewrite E. reflexivity.
  - destruct w as [? ? ? ? ? i ?]; destruct i as [? ? ? us ? ?]; simpl in *; subst.
    unfold GetUsersForChannel, usersForChannelIn, withLock, defer, Lock, Unlock, emit,
      modify, get, mbind, M_bind, bind, ret, panic, setIRC, emitEvent.
    simpl. rewrite E. reflexivity.
Qed.

Lemma GetUsersForChannel_nil_config_witness :
  GetUsersForChannel (initialWorld "me" "me" "Me" "smirc.conf" 0) =
    (match mapEntries (users (irc (initialWorld "me" "me" "Me" "smirc.conf" 0))) with
     | [] => Ret ""
     | _ :: _ => Panic NilDereference
     end,
     emitEvent (EvUnlock usersMutex)
       (emitEvent (EvLock usersMutex) (initialWorld "me" "me" "Me" "smirc.conf" 0))).
Proof.
  apply (GetUsersForChannel_nil_config (initialWorld "me" "me" "Me" "smirc.conf" 0));
    reflexivity.
Defined.

(** X24. [SendMessage] appends to the log before it writes. With a nil
    connection (the dial failed) it panics at the write, the deferred unlock
    releases the log mutex, nothing reaches any connection, and the entry
    that was never sent stays in the log. *)
Theorem SendMessage_nil_conn_keeps_entry w chatRoom message cfg :
  messagesLocked (irc w) = false →
  config (irc w) = Some cfg →
  conn (irc w) = None →
  ∃ w', SendMessage chatRoom message w = (Panic NilDereference, w')
    ∧ messages (irc w') =
        messages (irc w) ++ [IRCMessage.mk chatRoom (envVarNickName w) message]
    ∧ messagesLocked (irc w') = false
    ∧ (∀ c frame, EvConnWrite c frame ∉ drop (length (trace w)) (trace w')).
Proof.
  intros Hl Hc Hn. destruct_world w. unfold_M.
  eexists. split; [reflexivity|]. simpl. split; [done|]. split; [done|].
  intros c frame. rewrite <- !app_assoc, drop_app_length.
  intros Hin. repeat (apply elem_of_cons in Hin as [Hin|Hin]; [discriminate Hin|]).
  by apply elem_of_nil in Hin.
Qed.

Lemma SendMessage_nil_conn_keeps_entry_witness :
  ∃ w', SendMessage "#x" "hi"
          (mkWorld "me" "me" "Me" "smirc.conf" 0
             (mkIRC false [] false (Some ∅) (Some exampleConfig) None) [])
        = (Panic NilDereference, w')
    ∧ messages (irc w') = [] ++ [IRCMessage.mk "#x" "me" "hi"]
    ∧ messagesLocked (irc w') = false
    ∧ (∀ c frame, EvConnWrite c frame ∉ drop (length (@nil Event)) (trace w')).
Proof.
  apply (SendMessage_nil_conn_keeps_entry
           (mkWorld "me" "me" "Me" "smirc.conf" 0
              (mkIRC false [] false (Some ∅) (Some exampleConfig) None) [])
           "#x" "hi" exampleConfig); reflexivity.
Defined.

(** ** The pages *)

Lemma renderSpec_snoc channel log m :
  IRCMessage.channel m = channel →
  ∃ pre, renderSpec channel (log ++ [m]) = pre +:+ formatLine m.
Proof.
  intros Hch. unfold renderSpec. rewrite filter_app, fmap_app.
  rewrite filter_cons_True by done. rewrite filter_nil. cbn [fmap list_fmap].
  generalize (formatLine <$> filter (λ m0, IRCMessage.channel m0 = channel) log).
  intros l. induction l as [|x l [pre IH]].
  - exists "". cbn. by rewrite string_app_nil_l.
  - destruct l as [|y l].
    + exists (x +:+ "<br/>"). cbn [app strings.Join]. by rewrite string_app_assoc.
    + exists (x +:+ "<br/>" +:+ pre).
      change (strings.Join ((x :: y :: l) ++ [formatLine m]) "<br/>")
        with (x +:+ "<br/>" +:+ strings.Join ((y :: l) ++ [formatLine m]) "<br/>").
      rewrite IH. by rewrite !string_app_assoc.
Qed.

(** X25. What the send handler sends is on the next history page. In the
    steady state, after [handlerSendMessage] with a form, the history page
    ends, before the fixed foot, with the line [<own nickname>: <text>],
    where the text is the form value as it was sent, unescaped. *)
Theorem sent_text_ends_history_page cfg c values w :
  ready cfg c w →
  ∃ w1 w2 pre,
    handlerSendMessage (Form values) w = (Ret (Redirect "/" 302), w1)
    ∧ handlerGetMessagesForChannel w1 =
        (Ret (Page (pre +:+ envVarNickName w +:+ ": " +:+ Form_Get values "message"
                      +:+ pageFoot)), w2)
    ∧ irc w2 = irc w1.
Proof.
  intros ((Hl1 & Hl2) & Hc & Hn & Hu).
  cbn [handlerSendMessage]. unfold handlerGetMessagesForChannel, mbind, M_bind, bind.
  rewrite (getConfig_run _ cfg) by done.
  rewrite (SendMessage_run _ _ _ cfg c) by done.
  set (w1 := emitEvent _ _).
  destruct (renderSpec_snoc (IRCConfig.Channel cfg) (messages (irc w))
              (IRCMessage.mk (IRCConfig.Channel cfg) (envVarNickName w)
                             (Form_Get values formKeyMessage)) eq_refl) as [pre Hpre].
  exists w1, (emitEvent (EvUnlock messagesMutex) (emitEvent (EvLock messagesMutex) w1)),
    (pageHead "minirc: messages" "1" +:+ pre).
  split; [done|].
  rewrite (getConfig_run _ cfg) by (subst w1; by destruct_world w).
  rewrite GetMessagesForChatRoom_run by (subst w1; by destruct_world w).
  unfold ret.
  replace (messages (irc w1)) with
    (messages (irc w) ++ [IRCMessage.mk (IRCConfig.Channel cfg) (envVarNickName w)
                                        (Form_Get values formKeyMessage)])
    by (subst w1; by destruct_world w).
  rewrite Hpre. unfold formatLine. cbn [IRCMessage.userName IRCMessage.message].
  split; [|reflexivity].
  rewrite !string_app_assoc. reflexivity.
Qed.

Lemma sent_text_ends_history_page_witness :
  ∃ w1 w2 pre,
    handlerSendMessage (Form {["message" := ["<i>hi</i>"]]}) exampleWorld
      = (Ret (Redirect "/" 302), w1)
    ∧ handlerGetMessagesForChannel w1 =
        (Ret (Page (pre +:+ envVarNickName exampleWorld +:+ ": "
                      +:+ Form_Get {["message" := ["<i>hi</i>"]]} "message"
                      +:+ pageFoot)), w2)
    ∧ irc w2 = irc w1.
Proof.
  apply (sent_text_ends_history_page exampleConfig exampleConn
           {["message" := ["<i>hi</i>"]]} exampleWorld).
  repeat split. by eexists.
Defined.

(** X26. The roster page is the fixed head (refreshing every five seconds),
    the label and the snapshot joined by commas, then the fixed foot; the
    handler leaves the roster, the log and the mutexes as they were, and
    the nickname of every member of the configured channel is on the
    page. *)
Theorem roster_page_lists_channel_members w cfg m :
  usersLocked (irc w) = false →
  config (irc w) = Some cfg →
  users (irc w) = Some m →
  keyedByNickname m →
  ∃ w',
    handlerGetUsersForChannel w =
      (Ret (Page (pageHead "minirc: users" "5" +:+ "<strong>Users:</strong> "
                    +:+ strings.Join
                          (sort_Strings (nicknamesIn (IRCConfig.Channel cfg) (map_to_list m)))
                          ","
                    +:+ pageFoot)), w')
    ∧ irc w' = irc w
    ∧ (∀ n u, m !! n = Some u →
              User.Channel u = IRCConfig.Channel cfg →
              strings.Contains
                (pageHead "minirc: users" "5" +:+ "<strong>Users:</strong> "
                   +:+ strings.Join
                         (sort_Strings (nicknamesIn (IRCConfig.Channel cfg) (map_to_list m)))
                         ","
                   +:+ pageFoot) n = true).
Proof.
  intros Hl Hc Hu Hm. unfold handlerGetUsersForChannel, mbind, M_bind, bind.
  rewrite (GetUsersForChannel_run _ cfg) by done.
  rewrite Hu. cbn [mapEntries].
  eexists. split; [reflexivity|]. split; [by destruct_world w|].
  intros n u Hn Hch.
  assert (Hin : n ∈ sort_Strings (nicknamesIn (IRCConfig.Channel cfg) (map_to_list m))).
  { apply elem_of_sort_Strings, elem_of_nicknamesIn; [done|]. by exists u. }
  destruct (Join_elem _ "," _ Hin) as (pre & post & E).
  rewrite E. rewrite !string_app_assoc.
  rewrite <- (string_app_assoc _ pre).
  rewrite <- (string_app_assoc (pageHead "minirc: users" "5")).
  apply Contains_app.
Qed.

Lemma roster_page_lists_channel_members_witness :
  ∃ w',
    handlerGetUsersForChannel rosterWorld =
      (Ret (Page (pageHead "minirc: users" "5" +:+ "<strong>Users:</strong> "
                    +:+ strings.Join
                          (sort_Strings (nicknamesIn "#x" (map_to_list exampleRoster))) ","
                    +:+ pageFoot)), w')
    ∧ irc w' = irc rosterWorld
    ∧ (∀ n u, exampleRoster !! n = Some u →
              User.Channel u = "#x" →
              strings.Contains
                (pageHead "minirc: users" "5" +:+ "<strong>Users:</strong> "
                   +:+ strings.Join
                         (sort_Strings (nicknamesIn "#x" (map_to_list exampleRoster))) ","
                   +:+ pageFoot) n = true).
Proof.
  apply (roster_page_lists_channel_members rosterWorld exampleConfig exampleRoster);
    [reflexivity..|apply keyedByNickname_foldl, keyedByNickname_empty].
Defined.

(** The roster page of the example roster lists the two members of [#x],
    sorted, and not the member of [#y]. *)
Example roster_page_example :
  (handlerGetUsersForChannel rosterWorld).1 =
    Ret (Page (pageHead "minirc: users" "5" +:+ "<strong>Users:</strong> bob,carol"
                 +:+ pageFoot))
  ∧ exampleRoster !! "bob" = Some (User.mk "bob" "h" "s" "#x")
  ∧ strings.Contains
      (pageHead "minirc: users" "5" +:+ "<strong>Users:</strong> bob,carol" +:+ pageFoot)
      "bob" = true.
Proof. repeat split; by vm_compute. Qed.

(** X27. [Pong] and [Join] write to [irc.conn], not to the connection the
    goroutine captured, and [main] stores [irc.conn] only after
    [connectToIRC] has started the goroutine. An iteration that answers a
    probe while [irc.conn] is still nil logs the answer and then panics on
    the nil connection: nothing is written to the live connection it
    holds. *)
Theorem ping_before_connection_stored_panics
    (TrimFunc_IsSpace TrimRightFunc_IsSpace : string → string) c w cfg t1 t2 message :
  lockFree w →
  config (irc w) = Some cfg →
  conn (irc w) = None →
  isPingOnly (IRCConfig.Channel cfg) message = true →
  ∃ w' payload,
    readLoopBody TrimFunc_IsSpace TrimRightFunc_IsSpace c message t1 t2 w
      = (Panic NilDereference, w')
    ∧ strings.SliceFrom message 5 = Some payload
    ∧ trace w' =
        trace w ++
          [EvStdout message; EvLock messagesMutex; EvUnlock messagesMutex;
           EvLog (">> PONG " +:+ payload +:+ LF +:+ LF)]
    ∧ lockFree w'.
Proof.
  intros (Hm & Hu) Hc Hn Hp. unfold isPingOnly in Hp.
  repeat (apply andb_prop in Hp as [Hp ?]).
  repeat match goal with H : negb _ = true |- _ => apply negb_true_iff in H end.
  repeat match goal with H : bool_decide _ = false |- _ => apply bool_decide_eq_false in H end.
  apply bool_decide_eq_true in Hp.
  match goal with H : strings.Contains message " " = true |- _ =>
    destruct (SplitN_second _ H) as [code Hcode];
    destruct (SliceFrom_five_PING _ Hp H) as [payload Hpayload]
  end.
  exists (readLoopBody TrimFunc_IsSpace TrimRightFunc_IsSpace c message t1 t2 w).2, payload.
  destruct_world w. unfold_ping.
  rewrite Hcode in *. unfold_ping.
  rewrite (bool_decide_eq_false_2 (code = "001")) by congruence. unfold_ping.
  rewrite Hp. unfold_ping. rewrite Hpayload. unfold_ping.
  rewrite (bool_decide_eq_true_2 ("PING" = "PING")) by done. unfold_ping.
  split; [done|]. split; [done|]. split; [by rewrite <- !app_assoc|]. by split.
Qed.

Lemma ping_before_connection_stored_panics_witness :
  ∃ w' payload,
    readLoopBody id id exampleConn ("PING :server123" +:+ CRLF) 0 0
      (mkWorld "me" "me" "Me" "smirc.conf" 0
         (mkIRC false [] false None (Some exampleConfig) None) [])
      = (Panic NilDereference, w')
    ∧ strings.SliceFrom ("PING :server123" +:+ CRLF) 5 = Some payload
    ∧ trace w' =
        [] ++
          [EvStdout ("PING :server123" +:+ CRLF); EvLock messagesMutex;
           EvUnlock messagesMutex; EvLog (">> PONG " +:+ payload +:+ LF +:+ LF)]
    ∧ lockFree w'.
Proof.
  apply (ping_before_connection_stored_panics id id exampleConn
           (mkWorld "me" "me" "Me" "smirc.conf" 0
              (mkIRC false [] false None (Some exampleConfig) None) [])
           exampleConfig 0 0 ("PING :server123" +:+ CRLF)).
  - split; reflexivity.
  - reflexivity.
  - reflexivity.
  - reflexivity.
Defined.
